(** * Configuration nodes of the highcharts binding layer

    A shallow embedding of the option classes under [highcharts/]
    ([plot_options/gauge.py], [utility_classes/breadcrumbs.py],
    [chart/reset_zoom_button.py],
    [accessibility/keyboard_navigation/series_navigation.py],
    [series/data/vector.py]) and of the properties the specification states
    about them.

    Python values are a small inductive type; an instance is its class name
    together with its attribute dictionary ([__dict__]); a method body is a
    computation in a state-and-exception monad over the attribute dictionary
    of [self], so that what a setter has written when it raises is explicit. *)

From Stdlib Require Import String Ascii List ZArith QArith Qround Bool Lia.
Import ListNotations.
Open Scope string_scope.
Open Scope Z_scope.

(** ** Python values *)

(** Floats are carried by their rational value; dictionaries and attribute
    dictionaries are association lists in insertion order, keyed by strings. *)
#[warnings="-register-all"]
Inductive pyval : Type :=
| PNone
| PBool (b : bool)
| PInt (z : Z)
| PFloat (q : Q)
| PStr (s : string)
| PList (l : list pyval)
| PDict (d : list (string * pyval))
| PObj (cls : string) (attrs : list (string * pyval)).

Definition dict : Type := list (string * pyval).

(** ** Exceptions

    The [validator_collection] errors keep their Python base class, which is
    what an [except ValueError] clause looks at: [CannotCoerceError] and
    [NotAnIterableError] derive from [TypeError], the others from
    [ValueError].  [HighchartsValueError]
    carries the fixed part of its message and the value it reports. *)
Inductive exn : Type :=
| EmptyValueError
| CannotCoerceError
| MinimumValueError
| MaximumValueError
| NotAnIntegerError
| NotAnIterableError
| NotADictError
| ValueError
| TypeError (msg : string)
| AttributeError (name : string)
| IndexError
| KeyError
| HighchartsValueError (msg : string) (received : pyval)
| ExternalError (value_error : bool) (msg : string).

Definition is_ValueError (e : exn) : bool :=
  match e with
  | EmptyValueError | MinimumValueError | MaximumValueError
  | NotAnIntegerError | NotADictError | ValueError => true
  | HighchartsValueError _ _ => true
  | ExternalError b _ => b
  | CannotCoerceError | NotAnIterableError | TypeError _ | AttributeError _
  | IndexError | KeyError => false
  end.

Inductive result (A : Type) : Type :=
| Ok (a : A)
| Raise (e : exn).
Arguments Ok {A} a.
Arguments Raise {A} e.

Definition rbind {A B} (r : result A) (k : A -> result B) : result B :=
  match r with
  | Ok a => k a
  | Raise e => Raise e
  end.

Declare Scope result_scope.
Delimit Scope result_scope with result.
Notation "'let?' x ':=' r 'in' k" := (rbind r (fun x => k))
  (at level 10, x name, r at level 100, k at level 200) : result_scope.

(** ** Builtins *)

(** [bool(value)] / [not value]. *)
Definition truthy (value : pyval) : bool :=
  match value with
  | PNone => false
  | PBool b => b
  | PInt z => negb (z =? 0)
  | PFloat q => negb (Qeq_bool q 0)
  | PStr s => negb (String.eqb s "")
  | PList l => match l with [] => false | _ => true end
  | PDict d => match d with [] => false | _ => true end
  | PObj _ _ => true
  end.

Definition is_None (value : pyval) : bool :=
  match value with PNone => true | _ => false end.

Definition is_bool (value : pyval) : bool :=
  match value with PBool _ => true | _ => false end.

Definition is_str (value : pyval) : bool :=
  match value with PStr _ => true | _ => false end.

Definition is_dict_instance (value : pyval) : bool :=
  match value with PDict _ => true | _ => false end.

(** [isinstance(value, C)] for a class [C] kept by name. *)
Definition is_instance (value : pyval) (cls : string) : bool :=
  match value with PObj c _ => String.eqb c cls | _ => false end.

(** [sub in s] on strings. *)
Fixpoint contains (sub s : string) : bool :=
  if String.prefix sub s then true
  else match s with
       | EmptyString => false
       | String _ rest => contains sub rest
       end.

Fixpoint lookup (key : string) (d : dict) : option pyval :=
  match d with
  | [] => None
  | (k, v) :: rest => if String.eqb k key then Some v else lookup key rest
  end.

Definition has_key (key : string) (d : dict) : bool :=
  match lookup key d with Some _ => true | None => false end.

(** [d[key] = v]: replaces in place, or appends. *)
Fixpoint store (key : string) (v : pyval) (d : dict) : dict :=
  match d with
  | [] => [(key, v)]
  | (k, w) :: rest =>
      if String.eqb k key then (k, v) :: rest else (k, w) :: store key v rest
  end.

Fixpoint remove (key : string) (d : dict) : dict :=
  match d with
  | [] => []
  | (k, w) :: rest =>
      if String.eqb k key then rest else (k, w) :: remove key rest
  end.

(** [d.pop(key, default)]: the value and the dictionary left behind. *)
Definition pop (key : string) (default : pyval) (d : dict) : pyval * dict :=
  match lookup key d with
  | Some v => (v, remove key d)
  | None => (default, d)
  end.

(** [key in value] where [value] is a [dict] (membership of the key) or a
    [str] (substring). *)
Definition py_in (key : string) (value : pyval) : bool :=
  match value with
  | PDict d => has_key key d
  | PStr s => contains key s
  | _ => false
  end.

(** [str.lower()] on the ASCII letters. *)
Definition lower_ascii (c : ascii) : ascii :=
  let n := nat_of_ascii c in
  if ((65 <=? n)%nat && (n <=? 90)%nat)%bool then ascii_of_nat (n + 32) else c.

Fixpoint lower (s : string) : string :=
  match s with
  | EmptyString => EmptyString
  | String c rest => String (lower_ascii c) (lower rest)
  end.

(** Membership of a string in a literal list of strings. *)
Definition in_list (s : string) (l : list string) : bool :=
  existsb (String.eqb s) l.

(** The numeric value of an [int], [float] or [bool]. *)
Definition num_value (value : pyval) : option Q :=
  match value with
  | PInt z => Some (inject_Z z)
  | PFloat q => Some q
  | PBool b => Some (if b then 1%Q else 0%Q)
  | _ => None
  end.

Definition Qlt_bool (a b : Q) : bool := negb (Qle_bool b a).

(** [len(value)]. *)
Definition py_len (value : pyval) : result nat :=
  match value with
  | PStr s => Ok (String.length s)
  | PList l => Ok (List.length l)
  | PDict d => Ok (List.length d)
  | _ => Raise (TypeError "object has no len()")
  end.

(** [value[i]] for a literal index [i]. *)
Definition py_index (value : pyval) (i : nat) : result pyval :=
  match value with
  | PList l => match nth_error l i with Some v => Ok v | None => Raise IndexError end
  | PStr s => match String.get i s with
              | Some c => Ok (PStr (String c EmptyString))
              | None => Raise IndexError
              end
  | PDict _ => Raise KeyError
  | _ => Raise (TypeError "object is not subscriptable")
  end.

(** ** The state-and-exception monad of a method body

    The state is the attribute dictionary of [self].  A computation returns
    the attribute dictionary as it has left it, together with a value or the
    exception it raised. *)

Definition attrs : Type := dict.

Definition M (A : Type) : Type := attrs -> attrs * result A.

Definition ret {A} (a : A) : M A := fun self => (self, Ok a).

Definition raise {A} (e : exn) : M A := fun self => (self, Raise e).

Definition bind {A B} (m : M A) (k : A -> M B) : M B :=
  fun self =>
    match m self with
    | (self', Ok a) => k a self'
    | (self', Raise e) => (self', Raise e)
    end.

(** A call that does not touch [self]. *)
Definition lift {A} (r : result A) : M A := fun self => (self, r).

(** [self.name = v]. *)
Definition setattr (name : string) (v : pyval) : M unit :=
  fun self => (store name v self, Ok tt).

(** [self.name] for a name that is neither a property nor a method: the
    instance dictionary, else [AttributeError]. *)
Definition getattr (name : string) : M pyval :=
  fun self =>
    match lookup name self with
    | Some v => (self, Ok v)
    | None => (self, Raise (AttributeError name))
    end.

(** [try: body  except ValueError: handler]. *)
Definition try_except_ValueError {A} (body handler : M A) : M A :=
  fun self =>
    match body self with
    | (self', Raise e) =>
        if is_ValueError e then handler self' else (self', Raise e)
    | r => r
    end.

Declare Scope py_scope.
Delimit Scope py_scope with py.
Notation "x <- m ;; k" := (bind m (fun x => k))
  (at level 100, m at next level, right associativity) : py_scope.
Notation "m ;; k" := (bind m (fun _ => k))
  (at level 100, right associativity) : py_scope.
Open Scope py_scope.

(** [cls(kwargs...)]: run [__init__] on a fresh instance. *)
Definition new (cls : string) (init : dict -> M unit) (kwargs : dict)
  : result pyval :=
  match init kwargs [] with
  | (self, Ok _) => Ok (PObj cls self)
  | (_, Raise e) => Raise e
  end.

(** A method called on an instance held as a value. *)
Definition call_on {A} (obj : pyval) (method : M A) : result A :=
  match obj with
  | PObj _ self => snd (method self)
  | _ => Raise (AttributeError "method")
  end.

(** ** Collaborators outside the sources

    What the classes call but the sources do not contain: the float and JSON
    parsers behind [validator_collection], the decorators of
    [highcharts.decorators], the gradient and pattern nodes, and the
    lowering of a nested node by its own [to_dict]. *)
Record Externals : Type := {
  (** [float(s)] on a string; [None] when it raises. *)
  float_ : string -> option Q;
  (** [validators.dict] on a non-empty string (it goes through
      [json.loads]). *)
  dict_of_json : string -> result pyval;
  (** [@class_sensitive(C)] / [validate_types(value, types = C)]: the value
      the decorated setter receives. *)
  validate_types : string -> pyval -> result pyval;
  Gradient_from_json : pyval -> result pyval;
  Gradient_from_dict : pyval -> result pyval;
  Gradient_new : pyval -> result pyval;
  Pattern_from_json : pyval -> result pyval;
  Pattern_from_dict : pyval -> result pyval;
  Pattern_new : pyval -> result pyval;
  (** [node.to_dict()] of a nested node of a class not modelled here. *)
  node_to_dict : pyval -> result pyval;
  (** The parent classes [GenericTypeOptions], [SeriesOptions] and
      [CartesianData], as they act on the attribute dictionary of [self]. *)
  GenericTypeOptions_init : dict -> M unit;
  GenericTypeOptions_to_dict : M dict;
  SeriesOptions_to_dict : M dict;
  CartesianData_init : dict -> M unit
}.

Section Model.

Variable X : Externals.

(** ** [validator_collection.validators] *)

(** [validators.string(value, allow_empty = ...)]. *)
Definition validators_string (value : pyval) (allow_empty : bool)
  : result pyval :=
  if negb (truthy value) then
    if allow_empty then Ok PNone else Raise EmptyValueError
  else
    match value with
    | PStr _ => Ok value
    | _ => Raise CannotCoerceError
    end.

(** [validators.numeric(value, allow_empty = ..., minimum = ...)]. *)
Definition validators_numeric (value : pyval) (allow_empty : bool)
    (minimum : option Q) : result pyval :=
  match value with
  | PNone => if allow_empty then Ok PNone else Raise EmptyValueError
  | _ =>
      let? value :=
        match value with
        | PStr s =>
            match float_ X s with
            | Some q => Ok (PFloat q)
            | None => Raise CannotCoerceError
            end
        | PInt _ | PFloat _ | PBool _ => Ok value
        | _ => Raise CannotCoerceError
        end in
      match num_value value, minimum with
      | Some q, Some lo => if Qlt_bool q lo then Raise MinimumValueError else Ok value
      | _, _ => Ok value
      end
  end%result.

Definition Q_is_integer (q : Q) : bool := Qeq_bool q (inject_Z (Qfloor q)).

(** [validators.integer(value, allow_empty = ..., coerce_value = ...,
    minimum = ...)]; an [int] (or [bool]) is returned as it is. *)
Definition validators_integer (value : pyval) (allow_empty coerce_value : bool)
    (minimum : option Q) : result pyval :=
  (let? value := validators_numeric value allow_empty minimum in
   match value with
   | PFloat q =>
       if Q_is_integer q then Ok (PInt (Qfloor q))
       else if coerce_value then Ok (PInt (Qceiling q))
       else Raise NotAnIntegerError
   | PBool b => if coerce_value then Ok (PInt (if b then 1 else 0)) else Ok value
   | _ => Ok value
   end)%result.

(** [validators.dict(value, allow_empty = ...)]. *)
Definition validators_dict (value : pyval) (allow_empty : bool)
  : result pyval :=
  if negb (truthy value) then
    if allow_empty then Ok PNone else Raise EmptyValueError
  else
    match value with
    | PDict _ => Ok value
    | PStr s => dict_of_json X s
    | _ => Raise NotADictError
    end.

(** [validators.iterable(value)], strings being forbidden literals. *)
Definition validators_iterable (value : pyval) (allow_empty : bool)
  : result pyval :=
  if negb (truthy value) && negb allow_empty then Raise EmptyValueError
  else
    match value with
    | PNone => Ok PNone
    | PList _ | PDict _ => Ok value
    | _ => Raise NotAnIterableError
    end.

(** ** [validator_collection.checkers] *)

Definition checkers_is_iterable (value : pyval) : bool :=
  match value with
  | PNone => false
  | _ => match validators_iterable value true with Ok _ => true | Raise _ => false end
  end.

Definition checkers_is_dict (value : pyval) : bool :=
  match value with
  | PDict _ => true
  | _ => match validators_dict value false with Ok _ => true | Raise _ => false end
  end.

(** [checkers.is_type(value, name)] compares class names. *)
Definition checkers_is_type (value : pyval) (name : string) : bool :=
  is_instance value name.

(** ** Dictionary conversion helpers *)

Definition is_empty_sentinel (value : pyval) : bool :=
  match value with
  | PNone | PList [] | PDict [] => true
  | _ => false
  end.

(** Modelled from the spec: [HighchartsMeta.trim_dict]
    ([highcharts/metaclasses.py] is not among the sources).  A nested node is
    lowered by its own [to_dict]; an entry whose value is the empty sentinel
    ([None] or an empty collection) is omitted. *)
Fixpoint trim_dict (untrimmed : dict) : result dict :=
  match untrimmed with
  | [] => Ok []
  | (key, value) :: rest =>
      (let? value :=
         match value with
         | PObj _ _ => node_to_dict X value
         | _ => Ok value
         end in
       let? rest := trim_dict rest in
       Ok (if is_empty_sentinel value then rest else (key, value) :: rest))%result
  end.

(** The dictionary literal of a [from_dict] / [_get_kwargs_from_dict]:
    one [as_dict.pop(key, default)] per entry [(name, key, default)], in
    order.  Returns the keyword arguments and what is left of [as_dict]. *)
Fixpoint pop_all (table : list (string * string * pyval)) (as_dict : dict)
  : dict * dict :=
  match table with
  | [] => ([], as_dict)
  | (name, key, default) :: rest =>
      let '(v, as_dict) := pop key default as_dict in
      let '(kwargs, as_dict) := pop_all rest as_dict in
      ((name, v) :: kwargs, as_dict)
  end.

(** The dictionary literal of a [to_dict]: one attribute read per entry
    [(key, attribute)], in order. *)
Fixpoint read_all (table : list (string * M pyval)) : M dict :=
  match table with
  | [] => ret []
  | (key, getter) :: rest =>
      v <- getter ;;
      d <- read_all rest ;;
      ret ((key, v) :: d)
  end.

(** [for key in d2: d1[key] = d2[key]]. *)
Fixpoint update (d1 d2 : dict) : dict :=
  match d2 with
  | [] => d1
  | (k, v) :: rest => update (store k v d1) rest
  end.

(** ** [plot_options/gauge.py] *)

Definition unresolved_color (value : pyval) : exn :=
  HighchartsValueError
    "Unable to resolve value to a string, Gradient, or Pattern. Value received was: "
    value.

(** The setter body of [DialOptions.background_color],
    [DialOptions.border_color], [PivotOptions.background_color] and
    [PivotOptions.border_color]; the four differ in the attribute written. *)
Definition color_setter (attribute : string) (value : pyval) : M unit :=
  if negb (truthy value) then
    setattr attribute PNone
  else if is_instance value "Gradient" || is_instance value "Pattern" then
    setattr attribute value
  else if (is_dict_instance value || is_str value)
          && py_in "linearGradient" value then
    try_except_ValueError
      (g <- lift (Gradient_from_json X value) ;; setattr attribute g)
      (if is_dict_instance value then
         g <- lift (Gradient_from_dict X value) ;; setattr attribute g
       else
         s <- lift (validators_string value false) ;; setattr attribute s)
  else if is_dict_instance value && py_in "linear_gradient" value then
    g <- lift (Gradient_new X value) ;; setattr attribute g
  else if (is_dict_instance value || is_str value)
          && py_in "patternOptions" value then
    try_except_ValueError
      (p <- lift (Pattern_from_json X value) ;; setattr attribute p)
      (if is_dict_instance value then
         p <- lift (Pattern_from_dict X value) ;; setattr attribute p
       else
         s <- lift (validators_string value false) ;; setattr attribute s)
  else if is_dict_instance value && py_in "pattern_options" value then
    p <- lift (Pattern_new X value) ;; setattr attribute p
  else
    raise (unresolved_color value).

Definition percentage_error (field : string) (value : string) : exn :=
  HighchartsValueError (field ++ " expects a percentage string. Received: ")
                       (PStr value).

(** The tail shared by the percentage-string setters: [validators.string],
    then the test for the percent sign. *)
Definition percentage_string (field attribute : string) (value : pyval)
  : M unit :=
  value <- lift (validators_string value false) ;;
  match value with
  | PStr s =>
      if negb (contains "%" s) then raise (percentage_error field s)
      else setattr attribute value
  | _ => raise (TypeError "argument of type 'NoneType' is not iterable")
  end.

Definition DialOptions_background_color : M pyval := getattr "_background_color".
Definition DialOptions_background_color_set := color_setter "_background_color".

Definition DialOptions_base_length : M pyval := getattr "_base_length".
Definition DialOptions_base_length_set (value : pyval) : M unit :=
  if is_None value then setattr "_base_length" PNone
  else percentage_string "base_length" "_base_length" value.

Definition DialOptions_base_width : M pyval := getattr "_base_width".
Definition DialOptions_base_width_set (value : pyval) : M unit :=
  v <- lift (validators_numeric value true (Some 0%Q)) ;;
  setattr "_base_width" v.

Definition DialOptions_border_color : M pyval := getattr "_border_color".
Definition DialOptions_border_color_set := color_setter "_border_color".

Definition DialOptions_border_width : M pyval := getattr "_border_width".
Definition DialOptions_border_width_set (value : pyval) : M unit :=
  v <- lift (validators_numeric value true (Some 0%Q)) ;;
  setattr "_border_width" v.

Definition DialOptions_path : M pyval := getattr "_path".
Definition DialOptions_path_set (value : pyval) : M unit :=
  if negb (truthy value) then setattr "_path" PNone
  else v <- lift (validators_iterable value false) ;; setattr "_path" v.

Definition DialOptions_radius : M pyval := getattr "_radius".
Definition DialOptions_radius_set (value : pyval) : M unit :=
  if negb (truthy value) then setattr "_radius" PNone
  else percentage_string "radius" "_radius" value.

Definition DialOptions_rear_length : M pyval := getattr "_rear_length".
Definition DialOptions_rear_length_set (value : pyval) : M unit :=
  if negb (truthy value) then setattr "_rear_length" PNone
  else percentage_string "rear_length" "_rear_length" value.

Definition DialOptions_top_width : M pyval := getattr "_top_width".
Definition DialOptions_top_width_set (value : pyval) : M unit :=
  v <- lift (validators_numeric value false (Some 0%Q)) ;;
  setattr "_top_width" v.

Definition DialOptions_init (kwargs : dict) : M unit :=
  setattr "_background_color" PNone ;;
  setattr "_base_length" PNone ;;
  setattr "_base_width" PNone ;;
  setattr "_border_color" PNone ;;
  setattr "_border_width" PNone ;;
  setattr "_path" PNone ;;
  setattr "_radius" PNone ;;
  setattr "_rear_length" PNone ;;
  setattr "_top_width" PNone ;;
  let '(v, kwargs) := pop "background_color" PNone kwargs in
  DialOptions_background_color_set v ;;
  let '(v, kwargs) := pop "base_length" PNone kwargs in
  DialOptions_base_length_set v ;;
  let '(v, kwargs) := pop "base_width" PNone kwargs in
  DialOptions_base_width_set v ;;
  let '(v, kwargs) := pop "border_color" PNone kwargs in
  DialOptions_border_color_set v ;;
  let '(v, kwargs) := pop "border_width" PNone kwargs in
  DialOptions_border_width_set v ;;
  let '(v, kwargs) := pop "path" PNone kwargs in
  DialOptions_path_set v ;;
  let '(v, kwargs) := pop "radius" PNone kwargs in
  DialOptions_radius_set v ;;
  let '(v, kwargs) := pop "rear_length" PNone kwargs in
  DialOptions_rear_length_set v ;;
  let '(v, kwargs) := pop "top_width" PNone kwargs in
  DialOptions_top_width_set v.

Definition DialOptions_from_dict (as_dict : dict) : result pyval :=
  let kwargs :=
    fst (pop_all [("background_color", "backgroundColor", PNone);
                  ("base_length", "baseLength", PNone);
                  ("base_width", "baseWidth", PNone);
                  ("border_color", "borderColor", PNone);
                  ("border_width", "borderWidth", PNone);
                  ("path", "path", PNone);
                  ("radius", "radius", PNone);
                  ("rear_length", "rearLength", PNone);
                  ("top_width", "topWidth", PNone)] as_dict) in
  new "DialOptions" DialOptions_init kwargs.

Definition DialOptions_to_dict : M dict :=
  untrimmed <- read_all [("backgroundColor", DialOptions_background_color);
                         ("baseLength", DialOptions_base_length);
                         ("baseWidth", DialOptions_base_width);
                         ("borderColor", DialOptions_border_color);
                         ("borderWidth", DialOptions_border_width);
                         ("path", DialOptions_path);
                         ("radius", DialOptions_radius);
                         ("rearLength", DialOptions_rear_length);
                         ("topWidth", DialOptions_top_width)] ;;
  lift (trim_dict untrimmed).


Definition PivotOptions_background_color : M pyval := getattr "_background_color".
Definition PivotOptions_background_color_set := color_setter "_background_color".

Definition PivotOptions_border_color : M pyval := getattr "_border_color".
Definition PivotOptions_border_color_set := color_setter "_border_color".

Definition PivotOptions_border_width : M pyval := getattr "_border_width".
Definition PivotOptions_border_width_set (value : pyval) : M unit :=
  v <- lift (validators_numeric value true (Some 0%Q)) ;;
  setattr "_border_width" v.

Definition PivotOptions_radius : M pyval := getattr "_radius".
Definition PivotOptions_radius_set (value : pyval) : M unit :=
  v <- lift (validators_numeric value true None) ;;
  setattr "_radius" v.

Definition PivotOptions_init (kwargs : dict) : M unit :=
  setattr "_background_color" PNone ;;
  setattr "_border_color" PNone ;;
  setattr "_border_width" PNone ;;
  setattr "_radius" PNone ;;
  let '(v, kwargs) := pop "background_color" PNone kwargs in
  PivotOptions_background_color_set v ;;
  let '(v, kwargs) := pop "border_color" PNone kwargs in
  PivotOptions_border_color_set v ;;
  let '(v, kwargs) := pop "border_width" PNone kwargs in
  PivotOptions_border_width_set v ;;
  let '(v, kwargs) := pop "radius" PNone kwargs in
  PivotOptions_radius_set v.

Definition PivotOptions_from_dict (as_dict : dict) : result pyval :=
  let kwargs :=
    fst (pop_all [("background_color", "backgroundColor", PNone);
                  ("border_color", "borderColor", PNone);
                  ("border_width", "borderWidth", PNone);
                  ("radius", "radius", PNone)] as_dict) in
  new "PivotOptions" PivotOptions_init kwargs.

Definition PivotOptions_to_dict : M dict :=
  untrimmed <- read_all [("backgroundColor", PivotOptions_background_color);
                         ("borderColor", PivotOptions_border_color);
                         ("borderWidth", PivotOptions_border_width);
                         ("radius", PivotOptions_radius)] ;;
  lift (trim_dict untrimmed).


(** The setter body of the boolean flags: [None] is kept, anything else
    goes through [bool()]. *)
Definition bool_setter (attribute : string) (value : pyval) : M unit :=
  if is_None value then setattr attribute PNone
  else setattr attribute (PBool (truthy value)).

Definition GaugeOptions_color_index : M pyval := getattr "_color_index".
Definition GaugeOptions_color_index_set (value : pyval) : M unit :=
  v <- lift (validators_integer value true false (Some 0%Q)) ;;
  setattr "_color_index" v.

Definition GaugeOptions_crisp : M pyval := getattr "_crisp".
Definition GaugeOptions_crisp_set := bool_setter "_crisp".

Definition GaugeOptions_dial : M pyval := getattr "_dial".
Definition GaugeOptions_dial_set (value : pyval) : M unit :=
  value <- lift (validate_types X "DialOptions" value) ;;
  setattr "_dial" value.

Definition GaugeOptions_linecap : M pyval := getattr "_linecap".
Definition GaugeOptions_linecap_set (value : pyval) : M unit :=
  v <- lift (validators_string value true) ;;
  setattr "_linecap" v.

Definition GaugeOptions_line_width : M pyval := getattr "_line_width".
Definition GaugeOptions_line_width_set (value : pyval) : M unit :=
  v <- lift (validators_numeric value true (Some 0%Q)) ;;
  setattr "_line_width" v.

Definition GaugeOptions_overshoot : M pyval := getattr "_overshoot".
Definition GaugeOptions_overshoot_set (value : pyval) : M unit :=
  v <- lift (validators_numeric value true (Some 0%Q)) ;;
  setattr "_overshoot" v.

Definition GaugeOptions_pivot : M pyval := getattr "_pivot".
Definition GaugeOptions_pivot_set (value : pyval) : M unit :=
  value <- lift (validate_types X "PivotOptions" value) ;;
  setattr "_pivot" value.

Definition GaugeOptions_point_interval : M pyval := getattr "_point_interval".
Definition GaugeOptions_point_interval_set (value : pyval) : M unit :=
  v <- lift (validators_numeric value true (Some 0%Q)) ;;
  setattr "_point_interval" v.

Definition GaugeOptions_point_interval_unit : M pyval :=
  getattr "_point_interval_unit".
Definition GaugeOptions_point_interval_unit_set (value : pyval) : M unit :=
  v <- lift (validators_string value true) ;;
  setattr "_point_interval_unit" v.

Definition GaugeOptions_point_start : M pyval := getattr "_point_start".
Definition GaugeOptions_point_start_set (value : pyval) : M unit :=
  v <- lift (validators_numeric value true None) ;;
  setattr "_point_start" v.

Definition GaugeOptions_relative_x_value : M pyval :=
  getattr "_relative_x_value".
Definition GaugeOptions_relative_x_value_set := bool_setter "_relative_x_value".

Definition GaugeOptions_shadow : M pyval := getattr "_shadow".
Definition GaugeOptions_shadow_set (value : pyval) : M unit :=
  if is_bool value then setattr "_shadow" value
  else if negb (truthy value) then setattr "_shadow" PNone
  else
    value <- lift (validate_types X "ShadowOptions" value) ;;
    setattr "_shadow" value.

Definition GaugeOptions_wrap : M pyval := getattr "_wrap".
Definition GaugeOptions_wrap_set := bool_setter "_wrap".

Definition GaugeOptions_init (kwargs : dict) : M unit :=
  setattr "_color_index" PNone ;;
  setattr "_crisp" PNone ;;
  setattr "_dial" PNone ;;
  setattr "_linecap" PNone ;;
  setattr "_line_width" PNone ;;
  setattr "_overshoot" PNone ;;
  setattr "_pivot" PNone ;;
  setattr "_point_interval" PNone ;;
  setattr "_point_interval_unit" PNone ;;
  setattr "_point_start" PNone ;;
  setattr "_relative_x_value" PNone ;;
  setattr "_shadow" PNone ;;
  setattr "_wrap" PNone ;;
  let '(v, kwargs) := pop "color_index" PNone kwargs in
  GaugeOptions_color_index_set v ;;
  let '(v, kwargs) := pop "crisp" PNone kwargs in
  GaugeOptions_crisp_set v ;;
  let '(v, kwargs) := pop "dial" PNone kwargs in
  GaugeOptions_dial_set v ;;
  let '(v, kwargs) := pop "linecap" PNone kwargs in
  GaugeOptions_linecap_set v ;;
  let '(v, kwargs) := pop "line_width" PNone kwargs in
  GaugeOptions_line_width_set v ;;
  let '(v, kwargs) := pop "overshoot" PNone kwargs in
  GaugeOptions_overshoot_set v ;;
  let '(v, kwargs) := pop "pivot" PNone kwargs in
  GaugeOptions_pivot_set v ;;
  let '(v, kwargs) := pop "point_interval" PNone kwargs in
  GaugeOptions_point_interval_set v ;;
  let '(v, kwargs) := pop "point_interval_unit" PNone kwargs in
  GaugeOptions_point_interval_unit_set v ;;
  let '(v, kwargs) := pop "point_start" PNone kwargs in
  GaugeOptions_point_start_set v ;;
  let '(v, kwargs) := pop "relative_x_value" PNone kwargs in
  GaugeOptions_relative_x_value_set v ;;
  let '(v, kwargs) := pop "shadow" PNone kwargs in
  GaugeOptions_shadow_set v ;;
  let '(v, kwargs) := pop "wrap" PNone kwargs in
  GaugeOptions_wrap_set v ;;
  GenericTypeOptions_init X kwargs.

(** The first block of the dictionary literal of
    [GaugeOptions._get_kwargs_from_dict]: the keywords handed on to
    [GenericTypeOptions]. *)
Definition GenericTypeOptions_kwargs : list (string * string * pyval) :=
  [("accessibility", "accessibility", PNone);
   ("allow_point_select", "allowPointSelect", PBool false);
   ("animation", "animation", PNone);
   ("class_name", "className", PNone);
   ("clip", "clip", PBool true);
   ("color", "color", PNone);
   ("cursor", "cursor", PNone);
   ("custom", "custom", PNone);
   ("dash_style", "dashStyle", PNone);
   ("data_labels", "dataLabels", PNone);
   ("description", "description", PNone);
   ("enable_mouse_tracking", "enableMouseTracking", PBool true);
   ("events", "events", PNone);
   ("include_in_data_export", "includeInDataExport", PNone);
   ("keys", "keys", PNone);
   ("label", "label", PNone);
   ("linked_to", "linkedTo", PNone);
   ("marker", "marker", PNone);
   ("on_point", "onPoint", PNone);
   ("opacity", "opacity", PNone);
   ("point", "point", PNone);
   ("point_description_formatter", "pointDescriptionFormatter", PNone);
   ("selected", "selected", PBool false);
   ("show_checkbox", "showCheckbox", PBool false);
   ("show_in_legend", "showInLegend", PNone);
   ("skip_keyboard_navigation", "skipKeyboardNavigation", PNone);
   ("states", "states", PNone);
   ("sticky_tracking", "stickyTracking", PNone);
   ("threshold", "threshold", PNone);
   ("tooltip", "tooltip", PNone);
   ("turbo_threshold", "turboThreshold", PNone);
   ("visible", "visible", PBool true)].

Definition GaugeOptions_get_kwargs_from_dict (as_dict : dict) : dict :=
  fst (pop_all
         (GenericTypeOptions_kwargs ++
          [("color_index", "colorIndex", PNone);
           ("crisp", "crisp", PBool true);
           ("linecap", "linecap", PStr "round");
           ("line_width", "lineWidth", PInt 2);
           ("point_interval", "pointInterval", PInt 1);
           ("point_interval_unit", "pointIntervalUnit", PNone);
           ("point_placement", "pointPlacement", PNone);
           ("relative_x_value", "relativeXValue", PBool false);
           ("shadow", "shadow", PBool false);
           ("dial", "dial", PNone);
           ("overshoot", "overshoot", PNone);
           ("pivot", "pivot", PNone);
           ("wrap", "wrap", PNone)])
         as_dict).

(** Modelled from the spec: [HighchartsMeta.from_dict]
    ([highcharts/metaclasses.py] is not among the sources), the class method
    behind [GaugeOptions.from_dict]: the node is constructed from the keyword
    arguments that [_get_kwargs_from_dict] draws from the dictionary. *)
Definition GaugeOptions_from_dict (as_dict : dict) : result pyval :=
  new "GaugeOptions" GaugeOptions_init (GaugeOptions_get_kwargs_from_dict as_dict).

Definition GaugeOptions_to_dict : M dict :=
  untrimmed <- read_all [("colorIndex", GaugeOptions_color_index);
                         ("crisp", GaugeOptions_crisp);
                         ("dial", GaugeOptions_dial);
                         ("linecap", GaugeOptions_linecap);
                         ("lineWidth", GaugeOptions_line_width);
                         ("overshoot", GaugeOptions_overshoot);
                         ("pivot", GaugeOptions_pivot);
                         ("pointInterval", GaugeOptions_point_interval);
                         ("pointIntervalUnit", GaugeOptions_point_interval_unit);
                         ("pointStart", GaugeOptions_point_start);
                         ("relativeXValue", GaugeOptions_relative_x_value);
                         ("shadow", GaugeOptions_shadow);
                         ("wrap", GaugeOptions_wrap)] ;;
  parent_as_dict <- GenericTypeOptions_to_dict X ;;
  lift (trim_dict (update untrimmed parent_as_dict)).

(** [super(x)] with one argument: [x] has to be a class. *)
Inductive super_arg : Type :=
| ClassArg (name : string)
| InstanceArg.

Definition py_super (arg : super_arg) : result unit :=
  match arg with
  | ClassArg _ => Ok tt
  | InstanceArg => Raise (TypeError "super() argument 1 must be a type")
  end.

(** The setter body of [SolidGauge.inner_radius] and [SolidGauge.radius]. *)
Definition percentage_or_number_setter (attribute : string) (value : pyval)
  : M unit :=
  if is_None value then setattr attribute PNone
  else
    value <- try_except_ValueError
               (value <- lift (validators_string value false) ;;
                if negb (py_in "%" value) then raise ValueError
                else ret value)
               (lift (validators_numeric value false (Some 0%Q))) ;;
    setattr attribute value.

Definition SolidGauge_inner_radius : M pyval := getattr "_inner_radius".
Definition SolidGauge_inner_radius_set :=
  percentage_or_number_setter "_inner_radius".

Definition SolidGauge_overshoot : M pyval := getattr "_overshoot".
Definition SolidGauge_overshoot_set (value : pyval) : M unit :=
  v <- lift (validators_numeric value true (Some 0%Q)) ;;
  setattr "_overshoot" v.

Definition SolidGauge_radius : M pyval := getattr "_radius".
Definition SolidGauge_radius_set := percentage_or_number_setter "_radius".

Definition SolidGauge_rounded : M pyval := getattr "_rounded".
Definition SolidGauge_rounded_set := bool_setter "_rounded".

(** The dictionary literal that [SolidGauge.to_dict] builds first. *)
Definition SolidGauge_untrimmed : M dict :=
  read_all [("inner_radius", SolidGauge_inner_radius);
            ("overshoot", SolidGauge_overshoot);
            ("radius", SolidGauge_radius);
            ("rounded", SolidGauge_rounded)].

Definition SolidGauge_to_dict : M dict :=
  untrimmed <- SolidGauge_untrimmed ;;
  parent_as_dict <- (lift (py_super InstanceArg) ;; SeriesOptions_to_dict X) ;;
  lift (trim_dict (update untrimmed parent_as_dict)).

(** ** [utility_classes/breadcrumbs.py] *)

Definition Separator_style : M pyval := getattr "_style".
Definition Separator_style_set (value : pyval) : M unit :=
  v <- lift (validators_dict value false) ;;
  setattr "_style" v.

Definition Separator_text : M pyval := getattr "_text".
Definition Separator_text_set (value : pyval) : M unit :=
  v <- lift (validators_string value true) ;;
  setattr "_text" v.

Definition Separator_init (kwargs : dict) : M unit :=
  setattr "_style" PNone ;;
  setattr "_text" PNone ;;
  let '(v, kwargs) := pop "style" PNone kwargs in
  Separator_style_set v ;;
  let '(v, kwargs) := pop "text" PNone kwargs in
  Separator_text_set v.

Definition Separator_from_dict (as_dict : dict) : result pyval :=
  let kwargs := fst (pop_all [("style", "style", PNone);
                              ("text", "text", PNone)] as_dict) in
  new "Separator" Separator_init kwargs.

Definition Separator_to_untrimmed_dict : M dict :=
  read_all [("style", Separator_style); ("text", Separator_text)].

(** The closed set written in the [relative_to] setters of
    [BreadcrumbOptions] and [ResetZoomButtonOptions]. *)
Definition relative_to_tokens : list string :=
  ["plot"; "chart"; "plotBox"; "spacingBox"].

(** The error of the [relative_to] setters (the double quotes of the
    message are written as single quotes). *)
Definition relative_to_error (received : string) : exn :=
  HighchartsValueError
    "relative_to accepts 'plot', 'chart', 'plotBox', 'spacingBox', or None. Received: "
    (PStr received).

(** The setter body shared by [BreadcrumbOptions.relative_to] and
    [ResetZoomButtonOptions.relative_to]. *)
Definition relative_to_setter (value : pyval) : M unit :=
  if negb (truthy value) then setattr "_relative_to" PNone
  else
    value <- lift (validators_string value false) ;;
    match value with
    | PStr s =>
        let value := lower s in
        if negb (in_list value relative_to_tokens) then
          raise (relative_to_error value)
        else setattr "_relative_to" (PStr value)
    | _ => raise (AttributeError "lower")
    end.

Definition BreadcrumbOptions_button_spacing : M pyval :=
  getattr "_button_spacing".
Definition BreadcrumbOptions_button_spacing_set (value : pyval) : M unit :=
  v <- lift (validators_numeric value true None) ;;
  setattr "_button_spacing" v.

Definition BreadcrumbOptions_button_theme : M pyval := getattr "_theme".
Definition BreadcrumbOptions_button_theme_set (value : pyval) : M unit :=
  v <- lift (validators_dict value true) ;;
  setattr "_theme" v.

Definition BreadcrumbOptions_events : M pyval := getattr "_events".
Definition BreadcrumbOptions_events_set (value : pyval) : M unit :=
  value <- lift (validate_types X "BreadcrumbEvents" value) ;;
  setattr "_events" value.

Definition BreadcrumbOptions_floating : M pyval := getattr "_floating".
Definition BreadcrumbOptions_floating_set := bool_setter "_floating".

Definition BreadcrumbOptions_format : M pyval := getattr "_format".
Definition BreadcrumbOptions_format_set (value : pyval) : M unit :=
  v <- lift (validators_string value true) ;;
  setattr "_format" v.

Definition BreadcrumbOptions_formatter : M pyval := getattr "_formatter".
Definition BreadcrumbOptions_formatter_set (value : pyval) : M unit :=
  v <- lift (validators_string value true) ;;
  setattr "_formatter" v.

Definition BreadcrumbOptions_position : M pyval := getattr "_position".
Definition BreadcrumbOptions_position_set (value : pyval) : M unit :=
  value <- lift (validate_types X "Position" value) ;;
  setattr "_position" value.

Definition BreadcrumbOptions_relative_to : M pyval := getattr "_relative_to".
Definition BreadcrumbOptions_relative_to_set := relative_to_setter.

Definition BreadcrumbOptions_rtl : M pyval := getattr "_rtl".
Definition BreadcrumbOptions_rtl_set := bool_setter "_rtl".

Definition BreadcrumbOptions_separator : M pyval := getattr "_separator".
Definition BreadcrumbOptions_separator_set (value : pyval) : M unit :=
  value <- lift (validate_types X "Separator" value) ;;
  setattr "_separator" value.

Definition BreadcrumbOptions_show_full_path : M pyval :=
  getattr "_show_full_path".
Definition BreadcrumbOptions_show_full_path_set :=
  bool_setter "_show_full_path".

Definition BreadcrumbOptions_style : M pyval := getattr "_style".
Definition BreadcrumbOptions_style_set (value : pyval) : M unit :=
  v <- lift (validators_dict value true) ;;
  setattr "_style" v.

Definition BreadcrumbOptions_use_html : M pyval := getattr "_use_html".
Definition BreadcrumbOptions_use_html_set := bool_setter "_use_html".

Definition BreadcrumbOptions_z_index : M pyval := getattr "_z_index".
(** The validated value is bound to the local name only. *)
Definition BreadcrumbOptions_z_index_set (value : pyval) : M unit :=
  value <- lift (validators_integer value true false None) ;;
  ret tt.

Definition BreadcrumbOptions_init (kwargs : dict) : M unit :=
  setattr "_button_spacing" PNone ;;
  setattr "_button_theme" PNone ;;
  setattr "_events" PNone ;;
  setattr "_floating" PNone ;;
  setattr "_format" PNone ;;
  setattr "_formatter" PNone ;;
  setattr "_position" PNone ;;
  setattr "_relative_to" PNone ;;
  setattr "_rtl" PNone ;;
  setattr "_separator" PNone ;;
  setattr "_show_full_path" PNone ;;
  setattr "_style" PNone ;;
  setattr "_use_html" PNone ;;
  setattr "_z_index" PNone ;;
  let '(v, kwargs) := pop "button_spacing" PNone kwargs in
  BreadcrumbOptions_button_spacing_set v ;;
  let '(v, kwargs) := pop "button_theme" PNone kwargs in
  BreadcrumbOptions_button_theme_set v ;;
  let '(v, kwargs) := pop "events" PNone kwargs in
  BreadcrumbOptions_events_set v ;;
  let '(v, kwargs) := pop "floating" PNone kwargs in
  BreadcrumbOptions_floating_set v ;;
  let '(v, kwargs) := pop "format" PNone kwargs in
  BreadcrumbOptions_format_set v ;;
  let '(v, kwargs) := pop "formatter" PNone kwargs in
  BreadcrumbOptions_formatter_set v ;;
  let '(v, kwargs) := pop "position" PNone kwargs in
  BreadcrumbOptions_position_set v ;;
  let '(v, kwargs) := pop "relative_to" PNone kwargs in
  BreadcrumbOptions_relative_to_set v ;;
  let '(v, kwargs) := pop "rtl" PNone kwargs in
  BreadcrumbOptions_rtl_set v ;;
  let '(v, kwargs) := pop "separator" PNone kwargs in
  BreadcrumbOptions_separator_set v ;;
  let '(v, kwargs) := pop "show_full_path" PNone kwargs in
  BreadcrumbOptions_show_full_path_set v ;;
  let '(v, kwargs) := pop "style" PNone kwargs in
  BreadcrumbOptions_style_set v ;;
  let '(v, kwargs) := pop "use_html" PNone kwargs in
  BreadcrumbOptions_use_html_set v ;;
  let '(v, kwargs) := pop "z_index" PNone kwargs in
  BreadcrumbOptions_z_index_set v.

Definition BreadcrumbOptions_from_dict (as_dict : dict) : result pyval :=
  let kwargs :=
    fst (pop_all [("button_spacing", "buttonSpacing", PNone);
                  ("button_theme", "buttonTheme", PNone);
                  ("events", "events", PNone);
                  ("floating", "floating", PNone);
                  ("format", "format", PNone);
                  ("formatter", "formatter", PNone);
                  ("position", "position", PNone);
                  ("relative_to", "relativeTo", PNone);
                  ("rtl", "rtl", PNone);
                  ("separator", "separator", PNone);
                  ("show_full_path", "showFullPath", PNone);
                  ("style", "style", PNone);
                  ("use_html", "useHTML", PNone);
                  ("z_index", "zIndex", PNone)] as_dict) in
  new "BreadcrumbOptions" BreadcrumbOptions_init kwargs.

Definition BreadcrumbOptions_to_untrimmed_dict : M dict :=
  read_all [("buttonSpacing", BreadcrumbOptions_button_spacing);
            ("buttonTheme", BreadcrumbOptions_button_theme);
            ("events", BreadcrumbOptions_events);
            ("floating", BreadcrumbOptions_floating);
            ("format", BreadcrumbOptions_format);
            ("formatter", BreadcrumbOptions_formatter);
            ("position", BreadcrumbOptions_position);
            ("relativeTo", BreadcrumbOptions_relative_to);
            ("rtl", BreadcrumbOptions_rtl);
            ("separator", BreadcrumbOptions_separator);
            ("showFullPath", BreadcrumbOptions_show_full_path);
            ("style", BreadcrumbOptions_style);
            ("useHTML", BreadcrumbOptions_use_html);
            ("zIndex", BreadcrumbOptions_z_index)].

(** The calls a client can make on a [BreadcrumbOptions] instance. *)
Inductive BreadcrumbOptions_field : Type :=
| bc_button_spacing | bc_button_theme | bc_events | bc_floating | bc_format
| bc_formatter | bc_position | bc_relative_to | bc_rtl | bc_separator
| bc_show_full_path | bc_style | bc_use_html | bc_z_index.

Definition BreadcrumbOptions_setter (f : BreadcrumbOptions_field)
  : pyval -> M unit :=
  match f with
  | bc_button_spacing => BreadcrumbOptions_button_spacing_set
  | bc_button_theme => BreadcrumbOptions_button_theme_set
  | bc_events => BreadcrumbOptions_events_set
  | bc_floating => BreadcrumbOptions_floating_set
  | bc_format => BreadcrumbOptions_format_set
  | bc_formatter => BreadcrumbOptions_formatter_set
  | bc_position => BreadcrumbOptions_position_set
  | bc_relative_to => BreadcrumbOptions_relative_to_set
  | bc_rtl => BreadcrumbOptions_rtl_set
  | bc_separator => BreadcrumbOptions_separator_set
  | bc_show_full_path => BreadcrumbOptions_show_full_path_set
  | bc_style => BreadcrumbOptions_style_set
  | bc_use_html => BreadcrumbOptions_use_html_set
  | bc_z_index => BreadcrumbOptions_z_index_set
  end.

(** The attribute dictionaries a [BreadcrumbOptions] instance goes through:
    the one [__init__] leaves, then any sequence of property assignments,
    whether they return or raise. *)
Inductive BreadcrumbOptions_instance : attrs -> Prop :=
| Breadcrumb_constructed kwargs self :
    BreadcrumbOptions_init kwargs [] = (self, Ok tt) ->
    BreadcrumbOptions_instance self
| Breadcrumb_assigned f value self self' r :
    BreadcrumbOptions_instance self ->
    BreadcrumbOptions_setter f value self = (self', r) ->
    BreadcrumbOptions_instance self'.

(** ** [chart/reset_zoom_button.py] *)

Definition ResetZoomButtonOptions_position : M pyval := getattr "_position".
Definition ResetZoomButtonOptions_position_set (value : pyval) : M unit :=
  value <- lift (validate_types X "Position" value) ;;
  setattr "_position" value.

Definition ResetZoomButtonOptions_relative_to : M pyval :=
  getattr "_relative_to".
Definition ResetZoomButtonOptions_relative_to_set := relative_to_setter.

Definition ResetZoomButtonOptions_theme : M pyval := getattr "_theme".
Definition ResetZoomButtonOptions_theme_set (value : pyval) : M unit :=
  v <- lift (validators_dict value true) ;;
  setattr "_theme" v.

Definition ResetZoomButtonOptions_init (kwargs : dict) : M unit :=
  setattr "_position" PNone ;;
  setattr "_relative_to" PNone ;;
  setattr "_theme" PNone ;;
  let '(v, kwargs) := pop "position" PNone kwargs in
  ResetZoomButtonOptions_position_set v ;;
  let '(v, kwargs) := pop "relative_to" PNone kwargs in
  ResetZoomButtonOptions_relative_to_set v ;;
  let '(v, kwargs) := pop "theme" PNone kwargs in
  ResetZoomButtonOptions_theme_set v.

(** ** [accessibility/keyboard_navigation/series_navigation.py] *)

Definition SeriesNavigation_mode : M pyval := getattr "_mode".
Definition SeriesNavigation_mode_set (value : pyval) : M unit :=
  value <- lift (validators_string value false) ;;
  match value with
  | PStr s =>
      let value := lower s in
      if negb (in_list value ["normal"; "serialize"]) then
        raise (HighchartsValueError
                 "Expects either 'normal' or 'serialize'. Received: "
                 (PStr value))
      else setattr "_mode" (PStr value)
  | _ => raise (AttributeError "lower")
  end.

Definition SeriesNavigation_point_navigation_enabled_threshold : M pyval :=
  getattr "_point_navigation_enabled_threshold".
Definition SeriesNavigation_point_navigation_enabled_threshold_set
    (value : pyval) : M unit :=
  match value with
  | PBool false => setattr "_point_navigation_enabled_threshold" (PBool false)
  | _ =>
      value <- lift (validators_integer value false true None) ;;
      setattr "_point_navigation_enabled_threshold" value
  end.

(** The getter returns [self.point_focus]. *)
Definition SeriesNavigation_remember_point_focus : M pyval :=
  getattr "point_focus".
Definition SeriesNavigation_remember_point_focus_set (value : pyval) : M unit :=
  setattr "_remember_point_focus" (PBool (truthy value)).

Definition SeriesNavigation_skip_null_points : M pyval :=
  getattr "_skip_null_points".
Definition SeriesNavigation_skip_null_points_set (value : pyval) : M unit :=
  setattr "_skip_null_points" (PBool (truthy value)).

Definition SeriesNavigation_init (kwargs : dict) : M unit :=
  setattr "_mode" (PStr "normal") ;;
  setattr "_point_navigation_enabled_threshold" (PBool false) ;;
  setattr "_remember_point_focus" (PBool false) ;;
  setattr "_skip_null_points" (PBool true) ;;
  let '(v, kwargs) := pop "mode" (PStr "normal") kwargs in
  SeriesNavigation_mode_set v ;;
  let '(v, kwargs) :=
    pop "point_navigation_enabled_threshold" (PBool false) kwargs in
  SeriesNavigation_point_navigation_enabled_threshold_set v ;;
  let '(v, kwargs) := pop "remember_point_focus" (PBool false) kwargs in
  SeriesNavigation_remember_point_focus_set v ;;
  let '(v, kwargs) := pop "skip_null_points" (PBool true) kwargs in
  SeriesNavigation_skip_null_points_set v.

Definition SeriesNavigation_from_dict (as_dict : dict) : result pyval :=
  let kwargs :=
    fst (pop_all [("mode", "mode", PStr "normal");
                  ("point_navigation_enabled_threshold",
                   "pointNavigationEnabledThreshold", PBool false);
                  ("remember_point_focus", "rememberPointFocus", PBool false);
                  ("skip_null_points", "skipNullPoints", PBool true)] as_dict) in
  new "SeriesNavigation" SeriesNavigation_init kwargs.

(** The third entry reads [self.remmeber_point_focus], a name the class
    does not define; the lookup falls through to the instance dictionary. *)
Definition SeriesNavigation_to_dict : M dict :=
  untrimmed <- read_all
    [("mode", SeriesNavigation_mode);
     ("pointNavigationEnabledThreshold",
      SeriesNavigation_point_navigation_enabled_threshold);
     ("rememberPointFocus", getattr "remmeber_point_focus");
     ("skipNullPoints", SeriesNavigation_skip_null_points)] ;;
  lift (trim_dict untrimmed).

Inductive SeriesNavigation_field : Type :=
| sn_mode | sn_point_navigation_enabled_threshold | sn_remember_point_focus
| sn_skip_null_points.

Definition SeriesNavigation_setter (f : SeriesNavigation_field)
  : pyval -> M unit :=
  match f with
  | sn_mode => SeriesNavigation_mode_set
  | sn_point_navigation_enabled_threshold =>
      SeriesNavigation_point_navigation_enabled_threshold_set
  | sn_remember_point_focus => SeriesNavigation_remember_point_focus_set
  | sn_skip_null_points => SeriesNavigation_skip_null_points_set
  end.

(** The attribute dictionaries a [SeriesNavigation] instance goes through. *)
Inductive SeriesNavigation_instance : attrs -> Prop :=
| SeriesNavigation_constructed kwargs self :
    SeriesNavigation_init kwargs [] = (self, Ok tt) ->
    SeriesNavigation_instance self
| SeriesNavigation_assigned f value self self' r :
    SeriesNavigation_instance self ->
    SeriesNavigation_setter f value self = (self', r) ->
    SeriesNavigation_instance self'.

(** ** [series/data/vector.py] *)

Definition VectorData_direction : M pyval := getattr "_direction".
Definition VectorData_direction_set (value : pyval) : M unit :=
  v <- lift (validators_numeric value true None) ;;
  setattr "_direction" v.

Definition VectorData_length : M pyval := getattr "_length".
Definition VectorData_length_set (value : pyval) : M unit :=
  v <- lift (validators_numeric value true None) ;;
  setattr "_length" v.

Definition VectorData_init (kwargs : dict) : M unit :=
  setattr "_direction" PNone ;;
  setattr "_length" PNone ;;
  let '(v, kwargs) := pop "direction" PNone kwargs in
  VectorData_direction_set v ;;
  let '(v, kwargs) := pop "length" PNone kwargs in
  VectorData_length_set v ;;
  CartesianData_init X kwargs.

(** The keywords of [VectorData._get_kwargs_from_dict] that are left to
    [CartesianData] and its parents. *)
Definition CartesianData_kwargs : list (string * string * pyval) :=
  [("accessibility", "accessibility", PNone);
   ("class_name", "className", PNone);
   ("color", "color", PNone);
   ("color_index", "colorIndex", PNone);
   ("custom", "custom", PNone);
   ("description", "description", PNone);
   ("events", "events", PNone);
   ("id", "id", PNone);
   ("label_rank", "labelrank", PNone);
   ("name", "name", PNone);
   ("selected", "selected", PNone);
   ("data_labels", "dataLabels", PNone);
   ("drag_drop", "dragDrop", PNone);
   ("drilldown", "drilldown", PNone);
   ("marker", "marker", PNone);
   ("x", "x", PNone);
   ("y", "y", PNone)].

Definition VectorData_get_kwargs_from_dict (as_dict : dict) : dict :=
  fst (pop_all (CartesianData_kwargs ++
                [("direction", "direction", PNone);
                 ("length", "length", PNone)]) as_dict).

(** Modelled from the spec: [HighchartsMeta.from_dict]
    ([highcharts/metaclasses.py] is not among the sources), the class method
    behind [VectorData.from_dict]: the node is constructed from the keyword
    arguments that [_get_kwargs_from_dict] draws from the dictionary. *)
Definition VectorData_from_dict (as_dict : pyval) : result pyval :=
  match as_dict with
  | PDict d => new "VectorData" VectorData_init (VectorData_get_kwargs_from_dict d)
  | _ => Raise (AttributeError "pop")
  end.

(** What [for item in value] goes through. *)
Definition iterate (value : pyval) : list pyval :=
  match value with
  | PList l => l
  | PDict d => map (fun kv => PStr (fst kv)) d
  | _ => []
  end.

(** The body of the loop of [VectorData.from_setter]: the node appended for
    [item]. *)
Definition VectorData_coerce (item : pyval) : result pyval :=
  if checkers_is_type item "VectorData" then Ok item
  else if checkers_is_dict item then VectorData_from_dict item
  else if is_None item || is_instance item "EnforcedNullType" then
    new "VectorData" VectorData_init []
  else
    (let? n := py_len item in
     if (n =? 4)%nat then
       let? x := py_index item 0 in
       let? y := py_index item 1 in
       let? length := py_index item 2 in
       let? direction := py_index item 3 in
       new "VectorData" VectorData_init
           [("x", x); ("y", y); ("length", length); ("direction", direction)]
     else if (n =? 3)%nat then
       let? y := py_index item 0 in
       let? length := py_index item 1 in
       let? direction := py_index item 2 in
       new "VectorData" VectorData_init
           [("x", PNone); ("y", y); ("length", length); ("direction", direction)]
     else
       Raise (HighchartsValueError
                "each data point supplied must either be a Vector Data Point or be coercable to one. Could not coerce: "
                item))%result.

(** The loop: items are coerced in order, the first failure is raised. *)
Fixpoint VectorData_collect (items : list pyval) : result (list pyval) :=
  match items with
  | [] => Ok []
  | item :: rest =>
      (let? as_obj := VectorData_coerce item in
       let? collection := VectorData_collect rest in
       Ok (as_obj :: collection))%result
  end.

Definition VectorData_from_setter (value : pyval) : result (list pyval) :=
  if negb (truthy value) then Ok []
  else
    let value := if negb (checkers_is_iterable value) then [value]
                 else iterate value in
    VectorData_collect value.

End Model.

(** ** A concrete choice of collaborators

    Used where a call is evaluated on a concrete input.  Those evaluations
    go through the parsing of a plain numeral and through the parent
    classes; they hand the decorators nothing but [None], and the JSON
    decoder nothing it could decode. *)

Definition digit_of (c : ascii) : option Z :=
  let n := Z.of_nat (nat_of_ascii c) in
  if (48 <=? n) && (n <=? 57) then Some (n - 48) else None.

Fixpoint digits (s : string) (acc : Z) : option Z :=
  match s with
  | EmptyString => Some acc
  | String c rest =>
      match digit_of c with
      | Some d => digits rest (10 * acc + d)
      | None => None
      end
  end.

(** [float(s)] on a plain numeral: decimal digits with an optional minus
    sign.  Other spellings are not parsed by this instance. *)
Definition float_of_numeral (s : string) : option Q :=
  match s with
  | EmptyString => None
  | String "-" (String c rest) =>
      option_map (fun z => inject_Z (- z)) (digits (String c rest) 0)
  | _ => option_map inject_Z (digits s 0)
  end.

(** Modelled from the spec: the constructor of a parent class that is not
    among the sources ([GenericTypeOptions] in [plot_options/generic.py],
    [CartesianData] in [series/data/cartesian.py]).  Every field it declares
    defaults to unset unless overridden by keyword, and is kept in the
    private attribute of its name. *)
Fixpoint parent_init (fields : list (string * string * pyval)) (kwargs : dict)
  : M unit :=
  match fields with
  | [] => ret tt
  | (name, _, _) :: rest =>
      let '(v, kwargs) := pop name PNone kwargs in
      setattr ("_" ++ name) v ;;
      parent_init rest kwargs
  end.

(** Modelled from the spec: the [to_dict] of such a parent class.  Each
    declared field is emitted under its external key, unless it holds the
    empty sentinel. *)
Definition parent_to_dict (fields : list (string * string * pyval)) : M dict :=
  untrimmed <- read_all
    (map (fun f => (snd (fst f), getattr ("_" ++ fst (fst f)))) fields) ;;
  ret (filter (fun kv => negb (is_empty_sentinel (snd kv))) untrimmed).

(** Modelled from the spec: the properties [x] and [y] of [CartesianData],
    read from their private attributes. *)
Definition CartesianData_x : M pyval := getattr "_x".
Definition CartesianData_y : M pyval := getattr "_y".

(** Modelled from the spec: [class_sensitive] / [validate_types]
    ([highcharts/decorators.py] is not among the sources).  A node of the
    class is kept, a dictionary is converted to a node of the class (kept
    here as the class name with the entries of the dictionary), [None] is
    unset, anything else fails. *)
Definition nested_node (cls : string) (value : pyval) : result pyval :=
  match value with
  | PNone => Ok PNone
  | PObj c _ =>
      if String.eqb c cls then Ok value
      else Raise (HighchartsValueError "value is not an instance of " value)
  | PDict d => Ok (PObj cls d)
  | _ => Raise (HighchartsValueError "value is not an instance of " value)
  end.

(** A gradient or pattern node built from a dictionary, kept as the class
    name with the entries of the dictionary; a string is not decoded. *)
Definition node_of_dict (cls : string) (value : pyval) : result pyval :=
  match value with
  | PDict d => Ok (PObj cls d)
  | _ => Raise (ExternalError true "JSONDecodeError")
  end.

(** [from_json] of a gradient or pattern node: [json.loads] takes a string
    only, and no string is decoded here. *)
Definition from_json_undecoded (value : pyval) : result pyval :=
  match value with
  | PStr _ => Raise (ExternalError true "JSONDecodeError")
  | _ => Raise (TypeError "the JSON object must be str, bytes or bytearray")
  end.

Definition reference : Externals := {|
  float_ := float_of_numeral;
  dict_of_json := fun _ => Raise CannotCoerceError;
  validate_types := nested_node;
  Gradient_from_json := from_json_undecoded;
  Gradient_from_dict := node_of_dict "Gradient";
  Gradient_new := node_of_dict "Gradient";
  Pattern_from_json := from_json_undecoded;
  Pattern_from_dict := node_of_dict "Pattern";
  Pattern_new := node_of_dict "Pattern";
  node_to_dict := fun v => match v with
                           | PObj _ a => Ok (PDict a)
                           | _ => Ok v
                           end;
  GenericTypeOptions_init := parent_init GenericTypeOptions_kwargs;
  GenericTypeOptions_to_dict := parent_to_dict GenericTypeOptions_kwargs;
  SeriesOptions_to_dict := ret [];
  CartesianData_init := parent_init CartesianData_kwargs
|}.

(** ** The option classes that hold text, flags and durations

    [global_options/language/accessibility/range_selector.py],
    [global_options/language/accessibility/zoom.py],
    [series/data/accessibility.py] and [loading.py]. *)

(** The setter body of the text fields: [validators.string] with
    [allow_empty = True], then the assignment. *)
Definition text_setter (attribute : string) (value : pyval) : M unit :=
  v <- lift (validators_string value true) ;;
  setattr attribute v.

Definition RangeSelectorLanguageOptions_click_button_announcement : M pyval :=
  getattr "_click_button_announcement".
Definition RangeSelectorLanguageOptions_click_button_announcement_set :=
  text_setter "_click_button_announcement".

Definition RangeSelectorLanguageOptions_dropdown_label : M pyval :=
  getattr "_dropdown_label".
Definition RangeSelectorLanguageOptions_dropdown_label_set :=
  text_setter "_dropdown_label".

Definition RangeSelectorLanguageOptions_max_input_label : M pyval :=
  getattr "_max_input_label".
Definition RangeSelectorLanguageOptions_max_input_label_set :=
  text_setter "_max_input_label".

Definition RangeSelectorLanguageOptions_min_input_label : M pyval :=
  getattr "_min_input_label".
Definition RangeSelectorLanguageOptions_min_input_label_set :=
  text_setter "_min_input_label".

Definition RangeSelectorLanguageOptions_init (kwargs : dict) : M unit :=
  setattr "_click_button_announcement" PNone ;;
  setattr "_dropdown_label" PNone ;;
  setattr "_max_input_label" PNone ;;
  setattr "_min_input_label" PNone ;;
  let '(v, kwargs) := pop "click_button_announcement" PNone kwargs in
  RangeSelectorLanguageOptions_click_button_announcement_set v ;;
  let '(v, kwargs) := pop "dropdown_label" PNone kwargs in
  RangeSelectorLanguageOptions_dropdown_label_set v ;;
  let '(v, kwargs) := pop "max_input_label" PNone kwargs in
  RangeSelectorLanguageOptions_max_input_label_set v ;;
  let '(v, kwargs) := pop "min_input_label" PNone kwargs in
  RangeSelectorLanguageOptions_min_input_label_set v.

(** The dictionary literal of [RangeSelectorLanguageOptions.from_dict]. *)
Definition RangeSelectorLanguageOptions_keys : list (string * string * pyval) :=
  [("click_button_announcement", "clickButtonAnnouncement", PNone);
   ("dropdown_label", "dropdownLabel", PNone);
   ("max_input_label", "maxInputLabel", PNone);
   ("min_input_label", "minInputLabel", PNone)].

Definition RangeSelectorLanguageOptions_from_dict (as_dict : dict)
  : result pyval :=
  let kwargs := fst (pop_all RangeSelectorLanguageOptions_keys as_dict) in
  new "RangeSelectorLanguageOptions" RangeSelectorLanguageOptions_init kwargs.

Definition RangeSelectorLanguageOptions_to_untrimmed_dict : M dict :=
  read_all
    [("clickButtonAnnouncement",
      RangeSelectorLanguageOptions_click_button_announcement);
     ("dropdownLabel", RangeSelectorLanguageOptions_dropdown_label);
     ("maxInputLabel", RangeSelectorLanguageOptions_max_input_label);
     ("minInputLabel", RangeSelectorLanguageOptions_min_input_label)].

Definition RangeSelectorLanguageOptions_setters : list (pyval -> M unit) :=
  [RangeSelectorLanguageOptions_click_button_announcement_set;
   RangeSelectorLanguageOptions_dropdown_label_set;
   RangeSelectorLanguageOptions_max_input_label_set;
   RangeSelectorLanguageOptions_min_input_label_set].

Definition ZoomLanguageOptions_map_zoom_in : M pyval := getattr "_map_zoom_in".
Definition ZoomLanguageOptions_map_zoom_in_set := text_setter "_map_zoom_in".

Definition ZoomLanguageOptions_map_zoom_out : M pyval :=
  getattr "_map_zoom_out".
Definition ZoomLanguageOptions_map_zoom_out_set := text_setter "_map_zoom_out".

Definition ZoomLanguageOptions_reset_zoom_button : M pyval :=
  getattr "_reset_zoom_button".
Definition ZoomLanguageOptions_reset_zoom_button_set :=
  text_setter "_reset_zoom_button".

Definition ZoomLanguageOptions_init (kwargs : dict) : M unit :=
  setattr "_map_zoom_in" PNone ;;
  setattr "_map_zoom_out" PNone ;;
  setattr "_reset_zoom_button" PNone ;;
  let '(v, kwargs) := pop "map_zoom_in" PNone kwargs in
  ZoomLanguageOptions_map_zoom_in_set v ;;
  let '(v, kwargs) := pop "map_zoom_out" PNone kwargs in
  ZoomLanguageOptions_map_zoom_out_set v ;;
  let '(v, kwargs) := pop "reset_zoom_button" PNone kwargs in
  ZoomLanguageOptions_reset_zoom_button_set v.

(** The dictionary literal of [ZoomLanguageOptions.from_dict]. *)
Definition ZoomLanguageOptions_keys : list (string * string * pyval) :=
  [("map_zoom_in", "mapZoomIn", PNone);
   ("map_zoom_out", "mapZoomOut", PNone);
   ("reset_zoom_button", "resetZoomButton", PNone)].

Definition ZoomLanguageOptions_from_dict (as_dict : dict) : result pyval :=
  let kwargs := fst (pop_all ZoomLanguageOptions_keys as_dict) in
  new "ZoomLanguageOptions" ZoomLanguageOptions_init kwargs.

Definition ZoomLanguageOptions_to_untrimmed_dict : M dict :=
  read_all [("mapZoomIn", ZoomLanguageOptions_map_zoom_in);
            ("mapZoomOut", ZoomLanguageOptions_map_zoom_out);
            ("resetZoomButton", ZoomLanguageOptions_reset_zoom_button)].

Definition ZoomLanguageOptions_setters : list (pyval -> M unit) :=
  [ZoomLanguageOptions_map_zoom_in_set;
   ZoomLanguageOptions_map_zoom_out_set;
   ZoomLanguageOptions_reset_zoom_button_set].

Definition DataPointAccessibility_description : M pyval :=
  getattr "_description".
Definition DataPointAccessibility_description_set :=
  text_setter "_description".

Definition DataPointAccessibility_enabled : M pyval := getattr "_enabled".
Definition DataPointAccessibility_enabled_set := bool_setter "_enabled".

Definition DataPointAccessibility_init (kwargs : dict) : M unit :=
  setattr "_description" PNone ;;
  setattr "_enabled" PNone ;;
  let '(v, kwargs) := pop "description" PNone kwargs in
  DataPointAccessibility_description_set v ;;
  let '(v, kwargs) := pop "enabled" PNone kwargs in
  DataPointAccessibility_enabled_set v.

(** The dictionary literal of [DataPointAccessibility.from_dict]. *)
Definition DataPointAccessibility_keys : list (string * string * pyval) :=
  [("description", "description", PNone);
   ("enabled", "enabled", PNone)].

Definition DataPointAccessibility_from_dict (as_dict : dict) : result pyval :=
  let kwargs := fst (pop_all DataPointAccessibility_keys as_dict) in
  new "DataPointAccessibility" DataPointAccessibility_init kwargs.

Definition DataPointAccessibility_to_untrimmed_dict : M dict :=
  read_all [("description", DataPointAccessibility_description);
            ("enabled", DataPointAccessibility_enabled)].

Definition DataPointAccessibility_setters : list (pyval -> M unit) :=
  [DataPointAccessibility_description_set;
   DataPointAccessibility_enabled_set].

Section MoreOfTheSources.

Variable X : Externals.

(** The setter body of the durations of [Loading]: [validators.integer]
    with [allow_empty = True] and [minimum = 0]. *)
Definition duration_setter (attribute : string) (value : pyval) : M unit :=
  v <- lift (validators_integer X value true false (Some 0%Q)) ;;
  setattr attribute v.

Definition Loading_hide_duration : M pyval := getattr "_hide_duration".
Definition Loading_hide_duration_set := duration_setter "_hide_duration".

Definition Loading_label_style : M pyval := getattr "_label_style".
Definition Loading_label_style_set := text_setter "_label_style".

Definition Loading_show_duration : M pyval := getattr "_show_duration".
Definition Loading_show_duration_set := duration_setter "_show_duration".

Definition Loading_style : M pyval := getattr "_style".
Definition Loading_style_set := text_setter "_style".

Definition Loading_init (kwargs : dict) : M unit :=
  setattr "_hide_duration" PNone ;;
  setattr "_label_style" PNone ;;
  setattr "_show_duration" PNone ;;
  setattr "_style" PNone ;;
  let '(v, kwargs) := pop "hide_duration" PNone kwargs in
  Loading_hide_duration_set v ;;
  let '(v, kwargs) := pop "label_style" PNone kwargs in
  Loading_label_style_set v ;;
  let '(v, kwargs) := pop "show_duration" PNone kwargs in
  Loading_show_duration_set v ;;
  let '(v, kwargs) := pop "style" PNone kwargs in
  Loading_style_set v.

(** The dictionary literal of [Loading.from_dict]. *)
Definition Loading_keys : list (string * string * pyval) :=
  [("hide_duration", "hideDuration", PNone);
   ("label_style", "labelStyle", PNone);
   ("show_duration", "showDuration", PNone);
   ("style", "style", PNone)].

Definition Loading_from_dict (as_dict : dict) : result pyval :=
  let kwargs := fst (pop_all Loading_keys as_dict) in
  new "Loading" Loading_init kwargs.

Definition Loading_to_untrimmed_dict : M dict :=
  read_all [("hideDuration", Loading_hide_duration);
            ("labelStyle", Loading_label_style);
            ("showDuration", Loading_show_duration);
            ("style", Loading_style)].

Definition Loading_setters : list (pyval -> M unit) :=
  [Loading_hide_duration_set; Loading_label_style_set;
   Loading_show_duration_set; Loading_style_set].

(** ** The rest of [chart/reset_zoom_button.py] *)

Definition ResetZoomButtonOptions_from_dict (as_dict : dict) : result pyval :=
  let kwargs := fst (pop_all [("position", "position", PNone);
                              ("relative_to", "relativeTo", PNone);
                              ("theme", "theme", PNone)] as_dict) in
  new "ResetZoomButtonOptions" (ResetZoomButtonOptions_init X) kwargs.

Definition ResetZoomButtonOptions_to_untrimmed_dict : M dict :=
  read_all [("position", ResetZoomButtonOptions_position);
            ("relativeTo", ResetZoomButtonOptions_relative_to);
            ("theme", ResetZoomButtonOptions_theme)].

End MoreOfTheSources.

(** ** [from_dict] and the dictionary it is handed

    [as_dict.pop] takes the key out of the dictionary of the caller.  The
    call is given here with its effect: the dictionary as the call leaves
    it, whether the constructor returns or raises, and the result. *)

Definition RangeSelectorLanguageOptions_from_dict_call (as_dict : dict)
  : dict * result pyval :=
  let '(kwargs, as_dict) :=
    pop_all RangeSelectorLanguageOptions_keys as_dict in
  (as_dict,
   new "RangeSelectorLanguageOptions" RangeSelectorLanguageOptions_init
       kwargs).

Definition ZoomLanguageOptions_from_dict_call (as_dict : dict)
  : dict * result pyval :=
  let '(kwargs, as_dict) := pop_all ZoomLanguageOptions_keys as_dict in
  (as_dict, new "ZoomLanguageOptions" ZoomLanguageOptions_init kwargs).

Definition DataPointAccessibility_from_dict_call (as_dict : dict)
  : dict * result pyval :=
  let '(kwargs, as_dict) := pop_all DataPointAccessibility_keys as_dict in
  (as_dict, new "DataPointAccessibility" DataPointAccessibility_init kwargs).

Definition Loading_from_dict_call (X : Externals) (as_dict : dict)
  : dict * result pyval :=
  let '(kwargs, as_dict) := pop_all Loading_keys as_dict in
  (as_dict, new "Loading" (Loading_init X) kwargs).

(** ** [series/data/connections.py] *)

Section ConnectionDataModel.

Variable X : Externals.

(** The constructor of the parent class [DataBase], which is not among the
    sources, as it acts on the attribute dictionary of [self]. *)
Variable DataBase_init : dict -> M unit.

Definition ConnectionData_data_labels : M pyval := getattr "_data_labels".
Definition ConnectionData_data_labels_set (value : pyval) : M unit :=
  value <- lift (validate_types X "DataLabel" value) ;;
  setattr "_data_labels" value.

Definition ConnectionData_drag_drop : M pyval := getattr "_drag_drop".
Definition ConnectionData_drag_drop_set (value : pyval) : M unit :=
  value <- lift (validate_types X "DragDropOptions" value) ;;
  setattr "_drag_drop" value.

Definition ConnectionData_from_ : M pyval := getattr "_from_".
Definition ConnectionData_from__set := text_setter "_from_".

Definition ConnectionData_to : M pyval := getattr "_to".
Definition ConnectionData_to_set := text_setter "_to".

Definition ConnectionData_init (kwargs : dict) : M unit :=
  setattr "_data_labels" PNone ;;
  setattr "_drag_drop" PNone ;;
  setattr "_from_" PNone ;;
  setattr "_to" PNone ;;
  let '(v, kwargs) := pop "data_labels" PNone kwargs in
  ConnectionData_data_labels_set v ;;
  let '(v, kwargs) := pop "drag_drop" PNone kwargs in
  ConnectionData_drag_drop_set v ;;
  let '(v, kwargs) := pop "from_" PNone kwargs in
  ConnectionData_from__set v ;;
  let '(v, kwargs) := pop "to" PNone kwargs in
  ConnectionData_to_set v ;;
  DataBase_init kwargs.

(** The dictionary literal of [ConnectionData._get_kwargs_from_dict]. *)
Definition ConnectionData_keys : list (string * string * pyval) :=
  [("accessibility", "accessibility", PNone);
   ("class_name", "className", PNone);
   ("color", "color", PNone);
   ("color_index", "colorIndex", PNone);
   ("custom", "custom", PNone);
   ("description", "description", PNone);
   ("events", "events", PNone);
   ("id", "id", PNone);
   ("label_rank", "labelrank", PNone);
   ("name", "name", PNone);
   ("selected", "selected", PNone);
   ("data_labels", "dataLabels", PNone);
   ("drag_drop", "dragDrop", PNone);
   ("from_", "from", PNone);
   ("to", "to", PNone)].

Definition ConnectionData_get_kwargs_from_dict (as_dict : dict) : dict :=
  fst (pop_all ConnectionData_keys as_dict).

(** Modelled from the spec: [HighchartsMeta.from_dict]
    ([highcharts/metaclasses.py] is not among the sources), the class method
    behind [ConnectionData.from_dict]: the node is constructed from the
    keyword arguments that [_get_kwargs_from_dict] draws from the
    dictionary. *)
Definition ConnectionData_from_dict (as_dict : pyval) : result pyval :=
  match as_dict with
  | PDict d =>
      new "ConnectionData" ConnectionData_init
          (ConnectionData_get_kwargs_from_dict d)
  | _ => Raise (AttributeError "pop")
  end.

Definition ConnectionData_not_coercable (item : pyval) : exn :=
  HighchartsValueError
    "each data point supplied must either be a Connection Data Point or be coercable to one. Could not coerce: "
    item.

(** The body of the loop of [ConnectionData.from_setter]. *)
Definition ConnectionData_coerce (item : pyval) : result pyval :=
  if checkers_is_type item "ConnectionData" then Ok item
  else if checkers_is_dict X item then ConnectionData_from_dict item
  else if is_None item || is_instance item "EnforcedNullType" then
    new "ConnectionData" ConnectionData_init []
  else Raise (ConnectionData_not_coercable item).

Fixpoint ConnectionData_collect (items : list pyval) : result (list pyval) :=
  match items with
  | [] => Ok []
  | item :: rest =>
      (let? as_obj := ConnectionData_coerce item in
       let? collection := ConnectionData_collect rest in
       Ok (as_obj :: collection))%result
  end.

Definition ConnectionData_from_setter (value : pyval)
  : result (list pyval) :=
  if negb (truthy value) then Ok []
  else
    let value := if negb (checkers_is_iterable value) then [value]
                 else iterate value in
    ConnectionData_collect value.

End ConnectionDataModel.

(** The attribute dictionaries an instance goes through: the one
    [__init__] leaves, then any sequence of property assignments, whether
    they return or raise. *)
Inductive instance_of (init : dict -> M unit)
    (setters : list (pyval -> M unit)) : attrs -> Prop :=
| constructed kwargs self :
    init kwargs [] = (self, Ok tt) -> instance_of init setters self
| assigned set value self self' r :
    In set setters ->
    instance_of init setters self ->
    set value self = (self', r) ->
    instance_of init setters self'.

(** ** Vocabulary of the properties *)

(** [frames P m]: whatever [m] does, returning or raising, the attribute
    dictionary it leaves is related by [P] to the one it started from. *)
Definition frames {A} (P : attrs -> attrs -> Prop) (m : M A) : Prop :=
  forall self self' r, m self = (self', r) -> P self self'.

(** [keeps k]: the attribute [k] is as it was. *)
Definition keeps (k : string) (self self' : attrs) : Prop :=
  lookup k self' = lookup k self.

(** [grows]: no attribute is deleted. *)
Definition grows (self self' : attrs) : Prop :=
  forall k, lookup k self <> None -> lookup k self' <> None.

(** What holds of the attribute dictionary of every instance: the four
    backing attributes are set, and the two names that the getter and
    [to_dict] read are not. *)
Definition SeriesNavigation_shape (self : attrs) : Prop :=
  lookup "_mode" self <> None /\
  lookup "_point_navigation_enabled_threshold" self <> None /\
  lookup "point_focus" self = None /\
  lookup "remmeber_point_focus" self = None.

Definition SolidGauge_backing : list (string * string) :=
  [("inner_radius", "_inner_radius"); ("overshoot", "_overshoot");
   ("radius", "_radius"); ("rounded", "_rounded")].

(** What the numeric validator, with a minimum of zero, makes of a string. *)
Definition numeric_of_string (X : Externals) (s : string) : result pyval :=
  match float_ X s with
  | Some q => if Qlt_bool q 0 then Raise MinimumValueError else Ok (PFloat q)
  | None => Raise CannotCoerceError
  end.

(** The declared constraints, as tests on the stored value. *)
Definition optional (c : pyval -> bool) (v : pyval) : bool :=
  is_None v || c v.

Definition is_percentage (v : pyval) : bool :=
  match v with PStr s => contains "%" s | _ => false end.

Definition is_number (minimum : option Q) (v : pyval) : bool :=
  match num_value v, minimum with
  | Some q, Some lo => negb (Qlt_bool q lo)
  | Some _, None => true
  | None, _ => false
  end.

Definition is_integer (minimum : option Q) (v : pyval) : bool :=
  match v with
  | PInt _ | PBool _ => is_number minimum v
  | _ => false
  end.

Definition is_token (tokens : list string) (v : pyval) : bool :=
  match v with PStr s => in_list s tokens | _ => false end.

Definition is_list (v : pyval) : bool :=
  match v with PList _ => true | _ => false end.

(** The primitive, enumeration and percentage fields of the classes above
    whose setter assigns what it has validated.  The fields that hold
    nested nodes, colours or style dictionaries take what the collaborators
    return; [BreadcrumbOptions.z_index] and [DialOptions.path] are treated
    on their own. *)
Inductive field : Type :=
| Dial_base_length | Dial_base_width | Dial_border_width
| Dial_radius | Dial_rear_length | Dial_top_width
| Pivot_border_width | Pivot_radius
| Gauge_color_index | Gauge_crisp | Gauge_linecap | Gauge_line_width
| Gauge_overshoot | Gauge_point_interval | Gauge_point_interval_unit
| Gauge_point_start | Gauge_relative_x_value | Gauge_wrap
| Solid_inner_radius | Solid_overshoot | Solid_radius | Solid_rounded
| Separator_text_field
| Breadcrumb_button_spacing | Breadcrumb_floating | Breadcrumb_format
| Breadcrumb_formatter | Breadcrumb_relative_to | Breadcrumb_rtl
| Breadcrumb_show_full_path | Breadcrumb_use_html
| ResetZoom_relative_to
| Navigation_mode | Navigation_point_navigation_enabled_threshold
| Navigation_remember_point_focus | Navigation_skip_null_points
| Vector_direction | Vector_length.

Definition field_setter (X : Externals) (f : field) : pyval -> M unit :=
  match f with
  | Dial_base_length => DialOptions_base_length_set
  | Dial_base_width => DialOptions_base_width_set X
  | Dial_border_width => DialOptions_border_width_set X
  | Dial_radius => DialOptions_radius_set
  | Dial_rear_length => DialOptions_rear_length_set
  | Dial_top_width => DialOptions_top_width_set X
  | Pivot_border_width => PivotOptions_border_width_set X
  | Pivot_radius => PivotOptions_radius_set X
  | Gauge_color_index => GaugeOptions_color_index_set X
  | Gauge_crisp => GaugeOptions_crisp_set
  | Gauge_linecap => GaugeOptions_linecap_set
  | Gauge_line_width => GaugeOptions_line_width_set X
  | Gauge_overshoot => GaugeOptions_overshoot_set X
  | Gauge_point_interval => GaugeOptions_point_interval_set X
  | Gauge_point_interval_unit => GaugeOptions_point_interval_unit_set
  | Gauge_point_start => GaugeOptions_point_start_set X
  | Gauge_relative_x_value => GaugeOptions_relative_x_value_set
  | Gauge_wrap => GaugeOptions_wrap_set
  | Solid_inner_radius => SolidGauge_inner_radius_set X
  | Solid_overshoot => SolidGauge_overshoot_set X
  | Solid_radius => SolidGauge_radius_set X
  | Solid_rounded => SolidGauge_rounded_set
  | Separator_text_field => Separator_text_set
  | Breadcrumb_button_spacing => BreadcrumbOptions_button_spacing_set X
  | Breadcrumb_floating => BreadcrumbOptions_floating_set
  | Breadcrumb_format => BreadcrumbOptions_format_set
  | Breadcrumb_formatter => BreadcrumbOptions_formatter_set
  | Breadcrumb_relative_to => BreadcrumbOptions_relative_to_set
  | Breadcrumb_rtl => BreadcrumbOptions_rtl_set
  | Breadcrumb_show_full_path => BreadcrumbOptions_show_full_path_set
  | Breadcrumb_use_html => BreadcrumbOptions_use_html_set
  | ResetZoom_relative_to => ResetZoomButtonOptions_relative_to_set
  | Navigation_mode => SeriesNavigation_mode_set
  | Navigation_point_navigation_enabled_threshold =>
      SeriesNavigation_point_navigation_enabled_threshold_set X
  | Navigation_remember_point_focus =>
      SeriesNavigation_remember_point_focus_set
  | Navigation_skip_null_points => SeriesNavigation_skip_null_points_set
  | Vector_direction => VectorData_direction_set X
  | Vector_length => VectorData_length_set X
  end.

(** The private attribute behind the field. *)
Definition field_attribute (f : field) : string :=
  match f with
  | Dial_base_length => "_base_length"
  | Dial_base_width => "_base_width"
  | Dial_border_width => "_border_width"
  | Dial_radius => "_radius"
  | Dial_rear_length => "_rear_length"
  | Dial_top_width => "_top_width"
  | Pivot_border_width => "_border_width"
  | Pivot_radius => "_radius"
  | Gauge_color_index => "_color_index"
  | Gauge_crisp => "_crisp"
  | Gauge_linecap => "_linecap"
  | Gauge_line_width => "_line_width"
  | Gauge_overshoot => "_overshoot"
  | Gauge_point_interval => "_point_interval"
  | Gauge_point_interval_unit => "_point_interval_unit"
  | Gauge_point_start => "_point_start"
  | Gauge_relative_x_value => "_relative_x_value"
  | Gauge_wrap => "_wrap"
  | Solid_inner_radius => "_inner_radius"
  | Solid_overshoot => "_overshoot"
  | Solid_radius => "_radius"
  | Solid_rounded => "_rounded"
  | Separator_text_field => "_text"
  | Breadcrumb_button_spacing => "_button_spacing"
  | Breadcrumb_floating => "_floating"
  | Breadcrumb_format => "_format"
  | Breadcrumb_formatter => "_formatter"
  | Breadcrumb_relative_to => "_relative_to"
  | Breadcrumb_rtl => "_rtl"
  | Breadcrumb_show_full_path => "_show_full_path"
  | Breadcrumb_use_html => "_use_html"
  | ResetZoom_relative_to => "_relative_to"
  | Navigation_mode => "_mode"
  | Navigation_point_navigation_enabled_threshold =>
      "_point_navigation_enabled_threshold"
  | Navigation_remember_point_focus => "_remember_point_focus"
  | Navigation_skip_null_points => "_skip_null_points"
  | Vector_direction => "_direction"
  | Vector_length => "_length"
  end.

(** The declared type or enumeration of the field. *)
Definition field_constraint (f : field) : pyval -> bool :=
  match f with
  | Dial_base_length | Dial_radius | Dial_rear_length => optional is_percentage
  | Dial_base_width | Dial_border_width | Pivot_border_width
  | Gauge_line_width | Gauge_overshoot | Gauge_point_interval
  | Solid_overshoot => optional (is_number (Some 0%Q))
  | Dial_top_width => is_number (Some 0%Q)
  | Pivot_radius | Gauge_point_start | Breadcrumb_button_spacing
  | Vector_direction | Vector_length => optional (is_number None)
  | Gauge_color_index => optional (is_integer (Some 0%Q))
  | Gauge_crisp | Gauge_relative_x_value | Gauge_wrap | Solid_rounded
  | Breadcrumb_floating | Breadcrumb_rtl | Breadcrumb_show_full_path
  | Breadcrumb_use_html => optional is_bool
  | Gauge_linecap | Gauge_point_interval_unit | Separator_text_field
  | Breadcrumb_format | Breadcrumb_formatter => optional is_str
  | Solid_inner_radius | Solid_radius =>
      optional (fun v => is_percentage v || is_number (Some 0%Q) v)
  | Breadcrumb_relative_to | ResetZoom_relative_to =>
      optional (is_token relative_to_tokens)
  | Navigation_mode => is_token ["normal"; "serialize"]
  | Navigation_point_navigation_enabled_threshold => is_integer None
  | Navigation_remember_point_focus | Navigation_skip_null_points => is_bool
  end.

(** The stored value of the field, if there is one, meets the constraint. *)
Definition field_ok (f : field) (self : attrs) : Prop :=
  forall v, lookup (field_attribute f) self = Some v ->
            field_constraint f v = true.

(** A setter either raises and leaves [self] as it was, or returns having
    assigned to the attribute a value that passes the test. *)
Definition raises_or_commits (m : M unit) (c : pyval -> bool)
    (attribute : string) (self : attrs) : Prop :=
  (exists e, m self = (self, Raise e)) \/
  (exists v, c v = true /\ m self = (store attribute v self, Ok tt)).

(** A stored text: unset, or a string that is not empty. *)
Definition is_text (v : pyval) : bool :=
  match v with
  | PNone => true
  | PStr s => negb (String.eqb s "")
  | _ => false
  end.

(** A stored duration: unset, or an integer that is not negative. *)
Definition is_duration (v : pyval) : bool :=
  optional (is_integer (Some 0%Q)) v.

(** A stored flag: unset, or a boolean. *)
Definition is_flag (v : pyval) : bool := optional is_bool v.

(** [d.get(key, default)]. *)
Definition get (key : string) (default : pyval) (d : dict) : pyval :=
  match lookup key d with
  | Some v => v
  | None => default
  end.

(** The external keys of a dictionary literal of [from_dict]. *)
Definition external_keys (table : list (string * string * pyval))
  : list string :=
  map (fun e => snd (fst e)) table.

(** [consumes table call from_dict d]: the call returns what [from_dict]
    returns and leaves a dictionary that holds none of the external keys of
    [table] and every other key as [d] has it; a second call, on the
    dictionary the first has left, gives what the call gives on the empty
    dictionary and takes nothing more out. *)
Definition consumes (table : list (string * string * pyval))
    (call : dict -> dict * result pyval) (from_dict : dict -> result pyval)
    (d : dict) : Prop :=
  snd (call d) = from_dict d /\
  (forall k, In k (external_keys table) -> lookup k (fst (call d)) = None) /\
  (forall k, ~ In k (external_keys table) ->
             lookup k (fst (call d)) = lookup k d) /\
  snd (call (fst (call d))) = from_dict [] /\
  fst (call (fst (call d))) = fst (call d).

(** [raises m]: from every attribute dictionary, [m] raises. *)
Definition raises {A} (m : M A) : Prop :=
  forall self, exists self' e, m self = (self', Raise e).

(** The four fields of a [SeriesNavigation] hold what they are declared to
    hold. *)
Definition SeriesNavigation_valid (self : attrs) : Prop :=
  (exists m, lookup "_mode" self = Some (PStr m) /\
             (m = "normal" \/ m = "serialize")) /\
  (exists t, lookup "_point_navigation_enabled_threshold" self = Some t /\
             (t = PBool false \/ exists z, t = PInt z)) /\
  (exists b, lookup "_remember_point_focus" self = Some (PBool b)) /\
  (exists b, lookup "_skip_null_points" self = Some (PBool b)).

(** [preserves I]: an attribute dictionary that satisfies [I] is followed
    by one that does. *)
Definition preserves (I : attrs -> Prop) (self self' : attrs) : Prop :=
  I self -> I self'.

(** The external keys of [BreadcrumbOptions._to_untrimmed_dict] and the
    private attributes its getters read; [button_theme] reads [_theme]. *)
Definition BreadcrumbOptions_backing : list (string * string) :=
  [("buttonSpacing", "_button_spacing"); ("buttonTheme", "_theme");
   ("events", "_events"); ("floating", "_floating"); ("format", "_format");
   ("formatter", "_formatter"); ("position", "_position");
   ("relativeTo", "_relative_to"); ("rtl", "_rtl");
   ("separator", "_separator"); ("showFullPath", "_show_full_path");
   ("style", "_style"); ("useHTML", "_use_html"); ("zIndex", "_z_index")].

(** The error of [VectorData.from_setter] for an item it cannot coerce. *)
Definition VectorData_not_coercable (item : pyval) : exn :=
  HighchartsValueError
    "each data point supplied must either be a Vector Data Point or be coercable to one. Could not coerce: "
    item.

Definition is_VectorData (node : pyval) : Prop :=
  is_instance node "VectorData" = true.

(** A stored colour: unset, a gradient or pattern node, or a string that
    holds one of the two marker keys. *)
Definition is_color (v : pyval) : bool :=
  match v with
  | PNone => true
  | PObj _ _ => is_instance v "Gradient" || is_instance v "Pattern"
  | PStr s => contains "linearGradient" s || contains "patternOptions" s
  | _ => false
  end.

(** [builds cls f]: what [f] returns is a node of the class [cls]. *)
Definition builds (cls : string) (f : pyval -> result pyval) : Prop :=
  forall value v, f value = Ok v -> is_instance v cls = true.

(** The constructors and converters of [Gradient] and [Pattern] return
    nodes of their class. *)
Definition builds_colors (X : Externals) : Prop :=
  builds "Gradient" (Gradient_from_json X) /\
  builds "Gradient" (Gradient_from_dict X) /\
  builds "Gradient" (Gradient_new X) /\
  builds "Pattern" (Pattern_from_json X) /\
  builds "Pattern" (Pattern_from_dict X) /\
  builds "Pattern" (Pattern_new X).

(** ** [highcharts_core/options/legend/title.py] *)

(** What an [except TypeError] clause catches. *)
Definition is_TypeError (e : exn) : bool :=
  match e with
  | CannotCoerceError | NotAnIterableError | TypeError _ => true
  | _ => false
  end.

(** [try: body  except (ValueError, TypeError): handler]. *)
Definition try_except_ValueError_TypeError {A} (body handler : M A) : M A :=
  fun self =>
    match body self with
    | (self', Raise e) =>
        if is_ValueError e || is_TypeError e then handler self'
        else (self', Raise e)
    | r => r
    end.

Section LegendTitleModel.

Variable X : Externals.

(** [str(value)] on a value that is not a string. *)
Variable str_ : pyval -> string.

Definition py_str (value : pyval) : string :=
  match value with
  | PStr s => s
  | _ => str_ value
  end.

(** [validators.string(value, allow_empty = ..., coerce_value = True)]. *)
Definition validators_string_coerced (value : pyval) (allow_empty : bool)
  : result pyval :=
  if negb (truthy value) then
    if allow_empty then Ok PNone else Raise EmptyValueError
  else Ok (PStr (py_str value)).

Definition LegendTitle_style : M pyval := getattr "_style".
Definition LegendTitle_style_set (value : pyval) : M unit :=
  try_except_ValueError_TypeError
    (v <- lift (validators_dict X value true) ;; setattr "_style" v)
    (v <- lift (validators_string_coerced value true) ;; setattr "_style" v).

Definition LegendTitle_text : M pyval := getattr "_text".
Definition LegendTitle_text_set := text_setter "_text".

Definition LegendTitle_init (kwargs : dict) : M unit :=
  setattr "_style" PNone ;;
  setattr "_text" PNone ;;
  LegendTitle_style_set (get "style" PNone kwargs) ;;
  LegendTitle_text_set (get "text" PNone kwargs).

Definition LegendTitle_get_kwargs_from_dict (as_dict : dict) : dict :=
  [("style", get "style" PNone as_dict);
   ("text", get "text" PNone as_dict)].

Definition LegendTitle_to_untrimmed_dict : M dict :=
  read_all [("style", LegendTitle_style); ("text", LegendTitle_text)].

End LegendTitleModel.

(** * Properties *)

(** ** Dictionaries *)

Lemma lookup_store_same (k : string) (v : pyval) (d : dict) :
  lookup k (store k v d) = Some v.
Proof.
  induction d as [|[k' w] d IH]; simpl.
  - now rewrite String.eqb_refl.
  - destruct (String.eqb k' k) eqn:E; simpl; rewrite E; auto.
Qed.

Lemma lookup_store_other (k k' : string) (v : pyval) (d : dict) :
  k' <> k -> lookup k' (store k v d) = lookup k' d.
Proof.
  intros Hne. induction d as [|[k0 w] d IH]; simpl.
  - destruct (String.eqb k k') eqn:E; auto.
    apply String.eqb_eq in E. congruence.
  - destruct (String.eqb k0 k) eqn:E; simpl.
    + apply String.eqb_eq in E. subst k0.
      destruct (String.eqb k k') eqn:E'; auto.
      apply String.eqb_eq in E'. congruence.
    + destruct (String.eqb k0 k'); auto.
Qed.

Lemma truthy_PStr (s : string) : s <> "" -> truthy (PStr s) = true.
Proof.
  intros H. simpl. destruct (String.eqb s "") eqn:E; auto.
  apply String.eqb_eq in E. contradiction.
Qed.

(** ** Lower-casing *)

Lemma lower_ascii_idempotent (c : ascii) :
  lower_ascii (lower_ascii c) = lower_ascii c.
Proof.
  destruct c as [[] [] [] [] [] [] [] []]; reflexivity.
Qed.

Lemma lower_idempotent (s : string) : lower (lower s) = lower s.
Proof.
  induction s as [|c s IH]; simpl; [reflexivity|].
  now rewrite lower_ascii_idempotent, IH.
Qed.

(** A token with a capital letter is never the result of [lower]. *)
Lemma lower_misses (s token : string) : lower token <> token -> lower s <> token.
Proof.
  intros Hne Heq. apply Hne. rewrite <- Heq. apply lower_idempotent.
Qed.

Lemma lower_nonempty (s : string) : lower s <> "" -> s <> "".
Proof.
  intros H Hs. subst s. now apply H.
Qed.

(** ** Frames of a computation *)

Section Frames.

Variable P : attrs -> attrs -> Prop.
Hypothesis P_refl : forall self, P self self.
Hypothesis P_trans : forall a b c, P a b -> P b c -> P a c.

Lemma frames_ret {A} (a : A) : frames P (ret a).
Proof. intros self self' r H. inversion H. subst. apply P_refl. Qed.

Lemma frames_raise {A} (e : exn) : frames P (@raise A e).
Proof. intros self self' r H. inversion H. subst. apply P_refl. Qed.

Lemma frames_lift {A} (x : result A) : frames P (lift x).
Proof. intros self self' r H. inversion H. subst. apply P_refl. Qed.

Lemma frames_getattr (name : string) : frames P (getattr name).
Proof.
  intros self self' r H. unfold getattr in H.
  destruct (lookup name self); inversion H; subst; apply P_refl.
Qed.

Lemma frames_setattr (name : string) (v : pyval) :
  (forall self, P self (store name v self)) -> frames P (setattr name v).
Proof. intros Hs self self' r H. inversion H. subst. apply Hs. Qed.

Lemma frames_bind {A B} (m : M A) (k : A -> M B) :
  frames P m -> (forall a, frames P (k a)) -> frames P (bind m k).
Proof.
  intros Hm Hk self self' r H. unfold bind in H.
  destruct (m self) as [s1 [a|e]] eqn:E.
  - eapply P_trans; [eapply Hm; eauto | eapply Hk; eauto].
  - inversion H. subst. eapply Hm; eauto.
Qed.

Lemma frames_try {A} (body handler : M A) :
  frames P body -> frames P handler ->
  frames P (try_except_ValueError body handler).
Proof.
  intros Hb Hh self self' r H. unfold try_except_ValueError in H.
  destruct (body self) as [s1 [a|e]] eqn:E.
  - inversion H. subst. eapply Hb; eauto.
  - destruct (is_ValueError e).
    + eapply P_trans; [eapply Hb; eauto | eapply Hh; eauto].
    + inversion H. subst. eapply Hb; eauto.
Qed.

End Frames.

Lemma keeps_refl k self : keeps k self self.
Proof. reflexivity. Qed.

Lemma keeps_trans k a b c : keeps k a b -> keeps k b c -> keeps k a c.
Proof. unfold keeps. congruence. Qed.

Lemma keeps_store k name v self : k <> name -> keeps k self (store name v self).
Proof. intros H. unfold keeps. now apply lookup_store_other. Qed.

Lemma grows_refl self : grows self self.
Proof. intros k H. exact H. Qed.

Lemma grows_trans a b c : grows a b -> grows b c -> grows a c.
Proof. unfold grows. auto. Qed.

Lemma grows_store name v self : grows self (store name v self).
Proof.
  intros k H. destruct (string_dec k name) as [->|Hne].
  - rewrite lookup_store_same. discriminate.
  - now rewrite lookup_store_other.
Qed.

(** Walks through a method body, one construct at a time. *)
Ltac frames_walk P refl trans on_store :=
  repeat first
    [ apply (frames_bind P trans); [|intro]
    | apply (frames_try P trans)
    | apply (frames_ret P refl)
    | apply (frames_raise P refl)
    | apply (frames_lift P refl)
    | apply (frames_getattr P refl)
    | apply frames_setattr; intro; on_store
    | match goal with
      | |- frames _ (if ?b then _ else _) => destruct b
      | |- frames _ (match ?v with _ => _ end) => destruct v
      end ].

Lemma bind_setattr {B} (name : string) (v : pyval) (k : unit -> M B) self :
  bind (setattr name v) k self = k tt (store name v self).
Proof. reflexivity. Qed.

Ltac keeps_walk k :=
  frames_walk (keeps k) (keeps_refl k) (keeps_trans k)
    ltac:(apply keeps_store; solve [assumption | discriminate]).

Ltac grows_walk :=
  frames_walk grows grows_refl grows_trans ltac:(apply grows_store).

(** ** [SeriesNavigation] *)

Section SeriesNavigationFacts.

Variable X : Externals.

Lemma SeriesNavigation_setter_keeps (k : string) f value :
  k <> "_mode" -> k <> "_point_navigation_enabled_threshold" ->
  k <> "_remember_point_focus" -> k <> "_skip_null_points" ->
  frames (keeps k) (SeriesNavigation_setter X f value).
Proof.
  intros H1 H2 H3 H4.
  destruct f; simpl;
    unfold SeriesNavigation_mode_set,
      SeriesNavigation_point_navigation_enabled_threshold_set,
      SeriesNavigation_remember_point_focus_set,
      SeriesNavigation_skip_null_points_set;
    keeps_walk k.
Qed.

Lemma SeriesNavigation_setter_grows f value :
  frames grows (SeriesNavigation_setter X f value).
Proof.
  destruct f; simpl;
    unfold SeriesNavigation_mode_set,
      SeriesNavigation_point_navigation_enabled_threshold_set,
      SeriesNavigation_remember_point_focus_set,
      SeriesNavigation_skip_null_points_set;
    grows_walk.
Qed.

Lemma SeriesNavigation_init_shape kwargs self r :
  SeriesNavigation_init X kwargs [] = (self, r) ->
  SeriesNavigation_shape self.
Proof.
  intros H. unfold SeriesNavigation_init in H.
  repeat rewrite bind_setattr in H. cbv beta in H.
  match type of H with
  | ?m ?s = _ =>
      assert (Hg : frames grows m)
        by (unfold SeriesNavigation_mode_set,
              SeriesNavigation_point_navigation_enabled_threshold_set,
              SeriesNavigation_remember_point_focus_set,
              SeriesNavigation_skip_null_points_set; grows_walk);
      assert (Hk : forall k,
                 k <> "_mode" ->
                 k <> "_point_navigation_enabled_threshold" ->
                 k <> "_remember_point_focus" ->
                 k <> "_skip_null_points" -> frames (keeps k) m)
        by (intros k H1 H2 H3 H4;
            unfold SeriesNavigation_mode_set,
              SeriesNavigation_point_navigation_enabled_threshold_set,
              SeriesNavigation_remember_point_focus_set,
              SeriesNavigation_skip_null_points_set;
            keeps_walk k)
  end.
  pose proof (Hg _ _ _ H) as G.
  repeat split.
  - apply G. discriminate.
  - apply G. discriminate.
  - rewrite (Hk "point_focus" ltac:(discriminate) ltac:(discriminate)
               ltac:(discriminate) ltac:(discriminate) _ _ _ H).
    reflexivity.
  - rewrite (Hk "remmeber_point_focus" ltac:(discriminate)
               ltac:(discriminate) ltac:(discriminate)
               ltac:(discriminate) _ _ _ H).
    reflexivity.
Qed.

Lemma SeriesNavigation_instance_shape self :
  SeriesNavigation_instance X self -> SeriesNavigation_shape self.
Proof.
  induction 1 as [kwargs self H | f value self self' r _ IH H].
  - eapply SeriesNavigation_init_shape; eauto.
  - destruct IH as (I1 & I2 & I3 & I4).
    pose proof (SeriesNavigation_setter_grows f value _ _ _ H) as G.
    repeat split.
    + now apply G.
    + now apply G.
    + rewrite (SeriesNavigation_setter_keeps "point_focus" f value
                 ltac:(discriminate) ltac:(discriminate)
                 ltac:(discriminate) ltac:(discriminate) _ _ _ H).
      exact I3.
    + rewrite (SeriesNavigation_setter_keeps "remmeber_point_focus" f value
                 ltac:(discriminate) ltac:(discriminate)
                 ltac:(discriminate) ltac:(discriminate) _ _ _ H).
      exact I4.
Qed.

(** A node built by [from_dict] is such an instance. *)
Lemma SeriesNavigation_from_dict_instance as_dict cls self :
  SeriesNavigation_from_dict X as_dict = Ok (PObj cls self) ->
  SeriesNavigation_instance X self.
Proof.
  unfold SeriesNavigation_from_dict, new.
  match goal with
  | |- context [SeriesNavigation_init X ?kw []] =>
      destruct (SeriesNavigation_init X kw []) as [s [[]|e]] eqn:E
  end; [|discriminate].
  intros H. inversion H. subst.
  eapply SeriesNavigation_constructed; eauto.
Qed.

(** C9.  On every [SeriesNavigation] instance, however it was constructed
    and whatever was assigned to it since, reading
    [remember_point_focus] raises [AttributeError] (the getter reads
    [self.point_focus]) and [to_dict()] raises [AttributeError] (it reads
    [self.remmeber_point_focus]); neither changes the instance, and no
    dictionary is ever produced. *)
Theorem SeriesNavigation_cannot_be_serialized self :
  SeriesNavigation_instance X self ->
  SeriesNavigation_remember_point_focus self
    = (self, Raise (AttributeError "point_focus")) /\
  SeriesNavigation_to_dict X self
    = (self, Raise (AttributeError "remmeber_point_focus")).
Proof.
  intros Hi. apply SeriesNavigation_instance_shape in Hi.
  destruct Hi as (I1 & I2 & I3 & I4). split.
  - unfold SeriesNavigation_remember_point_focus, getattr. now rewrite I3.
  - unfold SeriesNavigation_to_dict, SeriesNavigation_mode,
      SeriesNavigation_point_navigation_enabled_threshold.
    cbn [read_all]. unfold bind, getattr.
    destruct (lookup "_mode" self); [|contradiction].
    destruct (lookup "_point_navigation_enabled_threshold" self);
      [|contradiction].
    now rewrite I4.
Qed.

End SeriesNavigationFacts.

(** C9, on the instance that [SeriesNavigation()] constructs. *)
Lemma SeriesNavigation_cannot_be_serialized_witness :
  let self := fst (SeriesNavigation_init reference [] []) in
  SeriesNavigation_instance reference self /\
  SeriesNavigation_remember_point_focus self
    = (self, Raise (AttributeError "point_focus")) /\
  SeriesNavigation_to_dict reference self
    = (self, Raise (AttributeError "remmeber_point_focus")).
Proof.
  intros self.
  assert (Hi : SeriesNavigation_instance reference self)
    by (apply SeriesNavigation_constructed with (kwargs := []); reflexivity).
  split; [exact Hi|].
  exact (SeriesNavigation_cannot_be_serialized reference self Hi).
Defined.

(** ** [BreadcrumbOptions] *)

Ltac unfold_BreadcrumbOptions_setters :=
  unfold BreadcrumbOptions_button_spacing_set,
    BreadcrumbOptions_button_theme_set, BreadcrumbOptions_events_set,
    BreadcrumbOptions_floating_set, BreadcrumbOptions_format_set,
    BreadcrumbOptions_formatter_set, BreadcrumbOptions_position_set,
    BreadcrumbOptions_relative_to_set, BreadcrumbOptions_rtl_set,
    BreadcrumbOptions_separator_set, BreadcrumbOptions_show_full_path_set,
    BreadcrumbOptions_style_set, BreadcrumbOptions_use_html_set,
    BreadcrumbOptions_z_index_set, relative_to_setter, bool_setter.

Section BreadcrumbOptionsFacts.

Variable X : Externals.

(** No setter assigns [_z_index]. *)
Lemma BreadcrumbOptions_setter_keeps_z_index f value :
  frames (keeps "_z_index") (BreadcrumbOptions_setter X f value).
Proof.
  destruct f; simpl; unfold_BreadcrumbOptions_setters;
    keeps_walk "_z_index".
Qed.

Lemma BreadcrumbOptions_init_z_index kwargs self r :
  BreadcrumbOptions_init X kwargs [] = (self, r) ->
  lookup "_z_index" self = Some PNone.
Proof.
  intros H. unfold BreadcrumbOptions_init in H.
  repeat rewrite bind_setattr in H. cbv beta in H.
  match type of H with
  | ?m ?s = _ =>
      assert (Hk : frames (keeps "_z_index") m)
        by (unfold_BreadcrumbOptions_setters; keeps_walk "_z_index")
  end.
  rewrite (Hk _ _ _ H). reflexivity.
Qed.

Lemma BreadcrumbOptions_instance_z_index self :
  BreadcrumbOptions_instance X self -> lookup "_z_index" self = Some PNone.
Proof.
  induction 1 as [kwargs self H | f value self self' r _ IH H].
  - eapply BreadcrumbOptions_init_z_index; eauto.
  - rewrite (BreadcrumbOptions_setter_keeps_z_index f value _ _ _ H).
    exact IH.
Qed.

(** C8.  On every [BreadcrumbOptions] instance and for every integer [v],
    assigning [v] to [z_index] returns and leaves the whole attribute
    dictionary as it was (so no other field is modified), and reading
    [z_index] afterwards still gives [None]. *)
Theorem BreadcrumbOptions_z_index_assignment_is_lost self (v : Z) :
  BreadcrumbOptions_instance X self ->
  BreadcrumbOptions_z_index_set X (PInt v) self = (self, Ok tt) /\
  BreadcrumbOptions_z_index self = (self, Ok PNone).
Proof.
  intros Hi. split.
  - reflexivity.
  - unfold BreadcrumbOptions_z_index, getattr.
    now rewrite (BreadcrumbOptions_instance_z_index self Hi).
Qed.

End BreadcrumbOptionsFacts.

(** C8, on [BreadcrumbOptions(z_index = 7)] followed by [z_index = 3]. *)
Lemma BreadcrumbOptions_z_index_assignment_is_lost_witness :
  let self := fst (BreadcrumbOptions_init reference [("z_index", PInt 7)] []) in
  BreadcrumbOptions_instance reference self /\
  BreadcrumbOptions_z_index_set reference (PInt 3) self = (self, Ok tt) /\
  BreadcrumbOptions_z_index self = (self, Ok PNone).
Proof.
  intros self.
  assert (Hi : BreadcrumbOptions_instance reference self)
    by (apply Breadcrumb_constructed with (kwargs := [("z_index", PInt 7)]);
        reflexivity).
  split; [exact Hi|].
  exact (BreadcrumbOptions_z_index_assignment_is_lost reference self 3 Hi).
Defined.

(** ** [SolidGauge.to_dict] *)

Lemma getattr_cases (name : string) self :
  (exists v, lookup name self = Some v /\ getattr name self = (self, Ok v)) \/
  (lookup name self = None /\
   getattr name self = (self, Raise (AttributeError name))).
Proof.
  unfold getattr. destruct (lookup name self) as [v|]; eauto.
Qed.

Lemma read_all_getattr_frame (table : list (string * string)) self :
  let getters := map (fun kn => (fst kn, getattr (snd kn))) table in
  (exists d, read_all getters self = (self, Ok d) /\
             map fst d = map fst table) \/
  (exists e, read_all getters self = (self, Raise e)).
Proof.
  induction table as [|[key name] table IH]; cbn [map read_all fst snd].
  - left. exists []. split; reflexivity.
  - cbv zeta in IH. unfold bind.
    destruct (getattr_cases name self) as [(v & _ & ->) | (_ & ->)].
    + destruct IH as [(d & -> & Hk) | (e & ->)].
      * left. exists ((key, v) :: d).
        split; [reflexivity | simpl; now rewrite Hk].
      * right. exists e. reflexivity.
    + right. eexists. reflexivity.
Qed.

Lemma read_all_getattr_defined (table : list (string * string)) self :
  (forall key name, In (key, name) table -> lookup name self <> None) ->
  exists d,
    read_all (map (fun kn => (fst kn, getattr (snd kn))) table) self
      = (self, Ok d) /\
    map fst d = map fst table.
Proof.
  induction table as [|[key name] table IH]; cbn [map read_all fst snd];
    intros Hdef.
  - exists []. split; reflexivity.
  - unfold bind.
    destruct (getattr_cases name self) as [(v & _ & ->) | (Hn & _)].
    + destruct IH as (d & -> & Hk); [intros; eapply Hdef; simpl; eauto|].
      exists ((key, v) :: d).
      split; [reflexivity | simpl; now rewrite Hk].
    + exfalso. apply (Hdef key name); simpl; auto.
Qed.

Lemma SolidGauge_untrimmed_eq :
  SolidGauge_untrimmed
  = read_all (map (fun kn => (fst kn, getattr (snd kn))) SolidGauge_backing).
Proof. reflexivity. Qed.

Lemma bind_run {A B} (m : M A) (k : A -> M B) self self' r :
  m self = (self', r) ->
  bind m k self = match r with
                  | Ok a => k a self'
                  | Raise e => (self', Raise e)
                  end.
Proof. intros H. unfold bind. now rewrite H. Qed.

(** C10.  On every attribute dictionary, [SolidGauge.to_dict()] raises and
    produces no dictionary.  On an instance, whose four backing attributes
    are set, the dictionary literal is built with the keys [inner_radius],
    [overshoot], [radius] and [rounded] (the first one in snake case), and
    the exception is the [TypeError] of [super(self)], raised before the
    parent is asked for its dictionary. *)
Theorem SolidGauge_to_dict_always_raises (X : Externals) (self : attrs) :
  (exists e, SolidGauge_to_dict X self = (self, Raise e)) /\
  ((forall name, In name ["_inner_radius"; "_overshoot"; "_radius"; "_rounded"] ->
                 lookup name self <> None) ->
   SolidGauge_to_dict X self
     = (self, Raise (TypeError "super() argument 1 must be a type")) /\
   exists untrimmed,
     SolidGauge_untrimmed self = (self, Ok untrimmed) /\
     map fst untrimmed = ["inner_radius"; "overshoot"; "radius"; "rounded"]).
Proof.
  unfold SolidGauge_to_dict. rewrite SolidGauge_untrimmed_eq. split.
  - destruct (read_all_getattr_frame SolidGauge_backing self)
      as [(d & Hd & _) | (e & He)]; cbv zeta in *.
    + exists (TypeError "super() argument 1 must be a type").
      now rewrite (bind_run _ _ _ _ _ Hd).
    + exists e. now rewrite (bind_run _ _ _ _ _ He).
  - intros Hdef.
    destruct (read_all_getattr_defined SolidGauge_backing self)
      as (d & Hd & Hk).
    { intros key name Hin. apply Hdef. simpl in Hin. simpl.
      intuition congruence. }
    split.
    + now rewrite (bind_run _ _ _ _ _ Hd).
    + exists d. split; [exact Hd | exact Hk].
Qed.

(** C10, on a solid gauge with [inner_radius = '60%'] and the other three
    fields unset. *)
Lemma SolidGauge_to_dict_always_raises_witness :
  let self := [("_inner_radius", PStr "60%"); ("_overshoot", PNone);
               ("_radius", PNone); ("_rounded", PNone)] in
  SolidGauge_to_dict reference self
    = (self, Raise (TypeError "super() argument 1 must be a type")) /\
  exists untrimmed,
    SolidGauge_untrimmed self = (self, Ok untrimmed) /\
    map fst untrimmed = ["inner_radius"; "overshoot"; "radius"; "rounded"].
Proof.
  intros self.
  apply (proj2 (SolidGauge_to_dict_always_raises reference self)).
  intros name Hin. simpl in Hin.
  destruct Hin as [<- | [<- | [<- | [<- | []]]]]; discriminate.
Defined.

(** ** Construction without keyword arguments *)

(** C5.  [Separator()] does not succeed: the [style] setter hands the
    absent value to [validators.dict] without [allow_empty], which raises
    [EmptyValueError] before [text] is assigned; no node is produced.  The
    [text] setter, which does pass [allow_empty = True], stores the unset
    sentinel for the same absent value. *)
Theorem Separator_construction_raises (X : Externals) :
  Separator_init X [] []
    = ([("_style", PNone); ("_text", PNone)], Raise EmptyValueError) /\
  new "Separator" (Separator_init X) [] = Raise EmptyValueError /\
  forall self,
    Separator_text_set PNone self = (store "_text" PNone self, Ok tt).
Proof. repeat split. Qed.

(** The same happens to [DialOptions()], through [top_width]. *)
Lemma DialOptions_construction_raises (X : Externals) :
  new "DialOptions" (DialOptions_init X) [] = Raise EmptyValueError.
Proof. reflexivity. Qed.

(** Where every setter allows the absent value, construction without
    keyword arguments gives the node with every field unset. *)
Lemma PivotOptions_construction (X : Externals) :
  new "PivotOptions" (PivotOptions_init X) []
  = Ok (PObj "PivotOptions"
          [("_background_color", PNone); ("_border_color", PNone);
           ("_border_width", PNone); ("_radius", PNone)]).
Proof. reflexivity. Qed.

(** [SeriesNavigation()] gives the documented defaults, not [None]. *)
Lemma SeriesNavigation_construction (X : Externals) :
  new "SeriesNavigation" (SeriesNavigation_init X) []
  = Ok (PObj "SeriesNavigation"
          [("_mode", PStr "normal");
           ("_point_navigation_enabled_threshold", PBool false);
           ("_remember_point_focus", PBool false);
           ("_skip_null_points", PBool true)]).
Proof. reflexivity. Qed.

(** ** Closed enumerations *)

Lemma relative_to_setter_on_string (s : string) self :
  s <> "" ->
  relative_to_setter (PStr s) self
  = if in_list (lower s) relative_to_tokens
    then (store "_relative_to" (PStr (lower s)) self, Ok tt)
    else (self, Raise (relative_to_error (lower s))).
Proof.
  intros Hs. unfold relative_to_setter, validators_string.
  rewrite (truthy_PStr s Hs). cbn [negb]. unfold bind, lift.
  destruct (in_list (lower s) relative_to_tokens); reflexivity.
Qed.

Lemma in_list_cases (s : string) (l : list string) :
  in_list s l = true -> In s l.
Proof.
  unfold in_list. rewrite existsb_exists. intros (x & Hin & Heq).
  apply String.eqb_eq in Heq. now subst.
Qed.

(** What [relative_to] can hold after an assignment that returned. *)
Lemma relative_to_setter_stores value self self' :
  relative_to_setter value self = (self', Ok tt) ->
  exists v, self' = store "_relative_to" v self /\
            (v = PNone \/ v = PStr "plot" \/ v = PStr "chart").
Proof.
  unfold relative_to_setter.
  destruct (truthy value) eqn:T; cbn [negb].
  - unfold validators_string. rewrite T. cbn [negb].
    destruct value; unfold bind, lift, raise; try discriminate.
    destruct (in_list (lower s) relative_to_tokens) eqn:E; cbn [negb];
      try discriminate.
    intros H. inversion H. subst. exists (PStr (lower s)). split; auto.
    apply in_list_cases in E. simpl in E.
    destruct E as [E | [E | [E | [E | []]]]].
    + rewrite <- E. auto.
    + rewrite <- E. auto.
    + exfalso. symmetry in E. revert E. apply lower_misses. discriminate.
    + exfalso. symmetry in E. revert E. apply lower_misses. discriminate.
  - intros H. inversion H. subst. exists PNone. auto.
Qed.

(** C3.  The [relative_to] setters of [BreadcrumbOptions] and
    [ResetZoomButtonOptions] lower-case the value and then look it up among
    ['plot'], ['chart'], ['plotBox'], ['spacingBox']: every casing of
    ['plotBox'] and of ['spacingBox'] is rejected with the enumeration
    error, and an assignment that returns has stored [None], ['plot'] or
    ['chart']. *)
Theorem relative_to_rejects_plotBox_and_spacingBox (s : string) (self : attrs) :
  lower s = "plotbox" \/ lower s = "spacingbox" ->
  BreadcrumbOptions_relative_to_set (PStr s) self
    = (self, Raise (relative_to_error (lower s))) /\
  ResetZoomButtonOptions_relative_to_set (PStr s) self
    = (self, Raise (relative_to_error (lower s))) /\
  forall value self',
    BreadcrumbOptions_relative_to_set value self = (self', Ok tt) ->
    exists v, self' = store "_relative_to" v self /\
              (v = PNone \/ v = PStr "plot" \/ v = PStr "chart").
Proof.
  intros H.
  assert (Hs : s <> "")
    by (apply lower_nonempty; destruct H as [-> | ->]; discriminate).
  unfold BreadcrumbOptions_relative_to_set,
    ResetZoomButtonOptions_relative_to_set.
  rewrite (relative_to_setter_on_string s self Hs).
  repeat split.
  - destruct H as [-> | ->]; reflexivity.
  - destruct H as [-> | ->]; reflexivity.
  - intros value self'. apply relative_to_setter_stores.
Qed.

(** C3, on ['plotBox'], ['PLOTBOX'] and ['spacingBox']. *)
Lemma relative_to_rejects_plotBox_and_spacingBox_witness :
  BreadcrumbOptions_relative_to_set (PStr "plotBox") []
    = ([], Raise (relative_to_error "plotbox")) /\
  BreadcrumbOptions_relative_to_set (PStr "PLOTBOX") []
    = ([], Raise (relative_to_error "plotbox")) /\
  ResetZoomButtonOptions_relative_to_set (PStr "spacingBox") []
    = ([], Raise (relative_to_error "spacingbox")).
Proof.
  split; [|split].
  - exact (proj1 (relative_to_rejects_plotBox_and_spacingBox
                    "plotBox" [] (or_introl eq_refl))).
  - exact (proj1 (relative_to_rejects_plotBox_and_spacingBox
                    "PLOTBOX" [] (or_introl eq_refl))).
  - exact (proj1 (proj2 (relative_to_rejects_plotBox_and_spacingBox
                           "spacingBox" [] (or_intror eq_refl)))).
Defined.

(** Where the tokens are lower-case, the enumeration law holds: every
    casing of ['plot'] and ['chart'] is accepted and stored lower-cased. *)
Lemma relative_to_accepts_plot_and_chart (s : string) self :
  lower s = "plot" \/ lower s = "chart" ->
  relative_to_setter (PStr s) self
  = (store "_relative_to" (PStr (lower s)) self, Ok tt).
Proof.
  intros H.
  assert (Hs : s <> "")
    by (apply lower_nonempty; destruct H as [-> | ->]; discriminate).
  rewrite (relative_to_setter_on_string s self Hs).
  destruct H as [-> | ->]; reflexivity.
Qed.

(** [SeriesNavigation.mode]: a non-empty string is accepted exactly when
    its lower-casing is one of the two tokens, and that is what is stored. *)
Lemma SeriesNavigation_mode_enumeration (s : string) self :
  s <> "" ->
  SeriesNavigation_mode_set (PStr s) self
  = if in_list (lower s) ["normal"; "serialize"]
    then (store "_mode" (PStr (lower s)) self, Ok tt)
    else (self,
          Raise (HighchartsValueError
                   "Expects either 'normal' or 'serialize'. Received: "
                   (PStr (lower s)))).
Proof.
  intros Hs. unfold SeriesNavigation_mode_set, validators_string.
  rewrite (truthy_PStr s Hs). cbn [negb]. unfold bind, lift.
  destruct (in_list (lower s) ["normal"; "serialize"]); reflexivity.
Qed.

(** ** Polymorphic colours *)

Lemma color_setter_plain_string (X : Externals) attribute (s : string) self :
  s <> "" ->
  contains "linearGradient" s = false ->
  contains "patternOptions" s = false ->
  color_setter X attribute (PStr s) self
  = (self, Raise (unresolved_color (PStr s))).
Proof.
  intros Hs Hg Hp. unfold color_setter.
  rewrite (truthy_PStr s Hs). simpl. rewrite Hg, Hp. reflexivity.
Qed.

(** C2.  A non-empty string that contains neither [linearGradient] nor
    [patternOptions] is not stored by the colour setters of [DialOptions]
    and [PivotOptions]: it falls through every branch to the final [else],
    which raises the resolution error and leaves the field as it was. *)
Theorem color_setters_reject_plain_color_string
    (X : Externals) (s : string) (self : attrs) :
  s <> "" ->
  contains "linearGradient" s = false ->
  contains "patternOptions" s = false ->
  DialOptions_background_color_set X (PStr s) self
    = (self, Raise (unresolved_color (PStr s))) /\
  DialOptions_border_color_set X (PStr s) self
    = (self, Raise (unresolved_color (PStr s))) /\
  PivotOptions_background_color_set X (PStr s) self
    = (self, Raise (unresolved_color (PStr s))) /\
  PivotOptions_border_color_set X (PStr s) self
    = (self, Raise (unresolved_color (PStr s))).
Proof.
  intros Hs Hg Hp.
  repeat split; apply color_setter_plain_string; assumption.
Qed.

(** C2, on ['#ccc']. *)
Lemma color_setters_reject_plain_color_string_witness :
  DialOptions_background_color_set reference (PStr "#ccc") []
    = ([], Raise (unresolved_color (PStr "#ccc"))) /\
  PivotOptions_background_color_set reference (PStr "#ccc") []
    = ([], Raise (unresolved_color (PStr "#ccc"))).
Proof.
  pose proof (color_setters_reject_plain_color_string reference "#ccc" []
                ltac:(discriminate) eq_refl eq_refl) as (H1 & _ & H3 & _).
  split; [exact H1 | exact H3].
Defined.

(** A list is rejected by the same branch. *)
Lemma color_setter_rejects_list (X : Externals) attribute v l self :
  color_setter X attribute (PList (v :: l)) self
  = (self, Raise (unresolved_color (PList (v :: l)))).
Proof. reflexivity. Qed.

(** ** Percentages *)

Lemma contains_percent_nonempty (s : string) : contains "%" s = true -> s <> "".
Proof. intros H Hs. subst s. discriminate. Qed.

Lemma percentage_string_on_string field attribute (s : string) self :
  s <> "" ->
  percentage_string field attribute (PStr s) self
  = if contains "%" s then (store attribute (PStr s) self, Ok tt)
    else (self, Raise (percentage_error field s)).
Proof.
  intros Hs. unfold percentage_string, validators_string.
  rewrite (truthy_PStr s Hs). cbn [negb]. unfold bind, lift.
  destruct (contains "%" s); reflexivity.
Qed.

Lemma percentage_or_number_on_string X attribute (s : string) self :
  percentage_or_number_setter X attribute (PStr s) self
  = if contains "%" s then (store attribute (PStr s) self, Ok tt)
    else match numeric_of_string X s with
         | Ok v => (store attribute v self, Ok tt)
         | Raise e => (self, Raise e)
         end.
Proof.
  unfold percentage_or_number_setter, numeric_of_string. cbn [is_None].
  unfold try_except_ValueError, bind, lift, validators_string,
    validators_numeric, rbind.
  cbn [truthy py_in is_ValueError num_value].
  destruct (String.eqb s "") eqn:E; cbn [negb].
  - apply String.eqb_eq in E. subst s. cbn [contains String.prefix].
    destruct (float_ X "") as [q|]; cbn [is_ValueError num_value];
      [destruct (Qlt_bool q 0)|]; reflexivity.
  - change (py_in "%" (PStr s)) with (contains "%" s).
    destruct (contains "%" s); cbn [negb]; [reflexivity|].
    unfold raise. cbn [is_ValueError].
    destruct (float_ X s) as [q|]; cbn [is_ValueError num_value];
      [destruct (Qlt_bool q 0)|]; reflexivity.
Qed.

(** C4, as the code has it.  On a percentage-string field
    ([DialOptions.base_length], [radius], [rear_length]) a non-empty string
    without a percent sign raises the percentage error and the field is
    left as it was; a string with a percent sign is stored verbatim, there
    and on the percentage-or-number fields ([SolidGauge.inner_radius],
    [SolidGauge.radius]).  On the latter a string without a percent sign is
    handed to the numeric validator: it is stored as the number it denotes,
    and is rejected only when it denotes no number or a negative one. *)
Theorem percentage_fields_on_strings (X : Externals) (s : string) (self : attrs) :
  (contains "%" s = true ->
   DialOptions_base_length_set (PStr s) self
     = (store "_base_length" (PStr s) self, Ok tt) /\
   DialOptions_radius_set (PStr s) self
     = (store "_radius" (PStr s) self, Ok tt) /\
   DialOptions_rear_length_set (PStr s) self
     = (store "_rear_length" (PStr s) self, Ok tt) /\
   SolidGauge_inner_radius_set X (PStr s) self
     = (store "_inner_radius" (PStr s) self, Ok tt) /\
   SolidGauge_radius_set X (PStr s) self
     = (store "_radius" (PStr s) self, Ok tt)) /\
  (contains "%" s = false ->
   (s <> "" ->
    DialOptions_base_length_set (PStr s) self
      = (self, Raise (percentage_error "base_length" s)) /\
    DialOptions_radius_set (PStr s) self
      = (self, Raise (percentage_error "radius" s)) /\
    DialOptions_rear_length_set (PStr s) self
      = (self, Raise (percentage_error "rear_length" s))) /\
   SolidGauge_inner_radius_set X (PStr s) self
     = match numeric_of_string X s with
       | Ok v => (store "_inner_radius" v self, Ok tt)
       | Raise e => (self, Raise e)
       end /\
   SolidGauge_radius_set X (PStr s) self
     = match numeric_of_string X s with
       | Ok v => (store "_radius" v self, Ok tt)
       | Raise e => (self, Raise e)
       end).
Proof.
  unfold DialOptions_base_length_set, DialOptions_radius_set,
    DialOptions_rear_length_set, SolidGauge_inner_radius_set,
    SolidGauge_radius_set.
  cbn [is_None]. rewrite !percentage_or_number_on_string.
  split; intros Hp; rewrite Hp.
  - assert (Hs : s <> "") by now apply contains_percent_nonempty.
    rewrite (truthy_PStr s Hs). cbn [negb].
    rewrite !percentage_string_on_string by assumption.
    rewrite Hp. repeat split.
  - split; [|split; reflexivity].
    intros Hs. rewrite (truthy_PStr s Hs). cbn [negb].
    rewrite !percentage_string_on_string by assumption.
    rewrite Hp. repeat split.
Qed.

(** C4, on ['80%'] and ['80']. *)
Lemma percentage_fields_on_strings_witness :
  DialOptions_base_length_set (PStr "80%") []
    = ([("_base_length", PStr "80%")], Ok tt) /\
  SolidGauge_inner_radius_set reference (PStr "80%") []
    = ([("_inner_radius", PStr "80%")], Ok tt) /\
  DialOptions_base_length_set (PStr "80") []
    = ([], Raise (percentage_error "base_length" "80")) /\
  SolidGauge_inner_radius_set reference (PStr "80") []
    = ([("_inner_radius", PFloat 80)], Ok tt).
Proof.
  destruct (percentage_fields_on_strings reference "80%" []) as (Hyes & _).
  destruct (Hyes eq_refl) as (H1 & _ & _ & H2 & _).
  destruct (percentage_fields_on_strings reference "80" []) as (_ & Hno).
  destruct (Hno eq_refl) as (H3 & H4 & _).
  split; [exact H1|]. split; [exact H2|].
  split; [exact (proj1 (H3 ltac:(discriminate))) | exact H4].
Defined.

(** C4 as stated fails on [SolidGauge.inner_radius]: the numeric string
    ['80'] raises nothing and is stored as the number 80.0. *)
Lemma SolidGauge_inner_radius_accepts_numeric_string :
  SolidGauge_inner_radius_set reference (PStr "80") []
    = ([("_inner_radius", PFloat 80)], Ok tt) /\
  ~ (exists e, snd (SolidGauge_inner_radius_set reference (PStr "80") [])
               = Raise e).
Proof.
  split; [reflexivity|].
  intros (e & He). vm_compute in He. discriminate.
Qed.

(** ** [VectorData.from_setter] *)

Lemma VectorData_collect_nth (X : Externals) (items nodes : list pyval) :
  VectorData_collect X items = Ok nodes ->
  forall i item,
    nth_error items i = Some item ->
    exists node,
      nth_error nodes i = Some node /\ VectorData_coerce X item = Ok node.
Proof.
  revert nodes. induction items as [|first rest IH]; intros nodes H i item Hi.
  - destruct i; discriminate.
  - cbn [VectorData_collect] in H. unfold rbind in H.
    destruct (VectorData_coerce X first) as [node|] eqn:E1; [|discriminate].
    destruct (VectorData_collect X rest) as [collection|] eqn:E2;
      [|discriminate].
    inversion H. subst nodes. destruct i as [|i]; simpl in Hi.
    + inversion Hi. subst. exists node. auto.
    + simpl. eapply IH; eauto.
Qed.

Lemma VectorData_collect_length (X : Externals) (items nodes : list pyval) :
  VectorData_collect X items = Ok nodes -> length nodes = length items.
Proof.
  revert nodes. induction items as [|first rest IH]; intros nodes H.
  - inversion H. reflexivity.
  - cbn [VectorData_collect] in H. unfold rbind in H.
    destruct (VectorData_coerce X first); [|discriminate].
    destruct (VectorData_collect X rest) eqn:E; [|discriminate].
    inversion H. simpl. f_equal. now apply IH.
Qed.

Lemma VectorData_from_setter_list (X : Externals) (item : pyval) items :
  VectorData_from_setter X (PList (item :: items))
  = VectorData_collect X (item :: items).
Proof. reflexivity. Qed.

(** C7.  With [CartesianData] keeping [x] and [y],
    [VectorData.from_setter([[1,2,3,4],[5,6,7,8]])] returns exactly two
    [VectorData] nodes, with [x=1, y=2, length=3, direction=4] and
    [x=5, y=6, length=7, direction=8].  Whatever the parent class does, a
    four-element list [[a, b, c, d]] is turned into
    [VectorData(x=a, y=b, length=c, direction=d)], the result has one node
    per item in the order of the items, and the node at the position of a
    [None] item is the one that [VectorData()] constructs; with the parent
    as above, that node has [x], [y], [length] and [direction] unset. *)
Theorem VectorData_from_setter_positional :
  (exists first second,
     VectorData_from_setter reference
       (PList [PList [PInt 1; PInt 2; PInt 3; PInt 4];
               PList [PInt 5; PInt 6; PInt 7; PInt 8]])
     = Ok [first; second] /\
     is_instance first "VectorData" = true /\
     is_instance second "VectorData" = true /\
     call_on first CartesianData_x = Ok (PInt 1) /\
     call_on first CartesianData_y = Ok (PInt 2) /\
     call_on first VectorData_length = Ok (PInt 3) /\
     call_on first VectorData_direction = Ok (PInt 4) /\
     call_on second CartesianData_x = Ok (PInt 5) /\
     call_on second CartesianData_y = Ok (PInt 6) /\
     call_on second VectorData_length = Ok (PInt 7) /\
     call_on second VectorData_direction = Ok (PInt 8)) /\
  (forall (X : Externals) a b c d,
     VectorData_coerce X (PList [a; b; c; d])
     = new "VectorData" (VectorData_init X)
           [("x", a); ("y", b); ("length", c); ("direction", d)]) /\
  (forall (X : Externals) items nodes,
     VectorData_from_setter X (PList items) = Ok nodes ->
     length nodes = length items /\
     forall i,
       nth_error items i = Some PNone ->
       exists placeholder,
         nth_error nodes i = Some placeholder /\
         new "VectorData" (VectorData_init X) [] = Ok placeholder) /\
  (exists placeholder,
     new "VectorData" (VectorData_init reference) [] = Ok placeholder /\
     is_instance placeholder "VectorData" = true /\
     call_on placeholder CartesianData_x = Ok PNone /\
     call_on placeholder CartesianData_y = Ok PNone /\
     call_on placeholder VectorData_length = Ok PNone /\
     call_on placeholder VectorData_direction = Ok PNone).
Proof.
  split; [|split; [|split]].
  - eexists. eexists. split; [vm_compute; reflexivity|].
    repeat split.
  - reflexivity.
  - intros X items nodes H. destruct items as [|item items].
    + inversion H. split; [reflexivity|]. intros [|i]; discriminate.
    + rewrite VectorData_from_setter_list in H. split.
      * now apply VectorData_collect_length in H.
      * intros i Hi.
        destruct (VectorData_collect_nth X _ _ H i PNone Hi)
          as (node & Hn & Hc).
        exists node. split; [exact Hn | exact Hc].
  - eexists. split; [vm_compute; reflexivity|]. repeat split.
Qed.

(** C7, on [[None, [1, 2, 3, 4]]]. *)
Lemma VectorData_from_setter_positional_witness :
  exists placeholder node,
    VectorData_from_setter reference
      (PList [PNone; PList [PInt 1; PInt 2; PInt 3; PInt 4]])
    = Ok [placeholder; node] /\
    new "VectorData" (VectorData_init reference) [] = Ok placeholder.
Proof.
  destruct VectorData_from_setter_positional as (_ & _ & Hnone & _).
  destruct (VectorData_from_setter reference
              (PList [PNone; PList [PInt 1; PInt 2; PInt 3; PInt 4]]))
    as [nodes|e] eqn:E; [|vm_compute in E; discriminate].
  destruct (Hnone reference _ nodes E) as (Hlen & Hat).
  destruct (Hat 0%nat eq_refl) as (placeholder & Hp & Hnew).
  destruct nodes as [|n0 [|n1 [|n2 nodes]]]; try discriminate.
  simpl in Hp. inversion Hp. subst n0.
  exists placeholder, n1. split; [reflexivity | exact Hnew].
Defined.

(** ** Round trip of [GaugeOptions] *)

Lemma pop_all_names table (as_dict : dict) :
  map fst (fst (pop_all table as_dict)) = map (fun e => fst (fst e)) table.
Proof.
  revert as_dict. induction table as [|[[name key] default] rest IH];
    intros as_dict; cbn [pop_all].
  - reflexivity.
  - destruct (pop key default as_dict) as [v d1].
    specialize (IH d1). destruct (pop_all rest d1) as [kwargs d2].
    simpl in *. now rewrite IH.
Qed.

Lemma lookup_absent (k : string) (d : dict) :
  ~ In k (map fst d) -> lookup k d = None.
Proof.
  induction d as [|[k' v] d IH]; simpl; intros H; [reflexivity|].
  destruct (String.eqb k' k) eqn:E.
  - apply String.eqb_eq in E. exfalso. auto.
  - apply IH. auto.
Qed.

Lemma lookup_remove_other (k k' : string) (d : dict) :
  lookup k d = None -> lookup k (remove k' d) = None.
Proof.
  induction d as [|[k0 v] d IH]; simpl; [reflexivity|].
  destruct (String.eqb k0 k) eqn:E; [discriminate|].
  intros H. destruct (String.eqb k0 k'); simpl; [exact H|].
  rewrite E. now apply IH.
Qed.

Lemma pop_other (k k' : string) default (d d' : dict) v :
  lookup k d = None -> pop k' default d = (v, d') -> lookup k d' = None.
Proof.
  unfold pop. intros H. destruct (lookup k' d); intros E; inversion E; subst.
  - now apply lookup_remove_other.
  - exact H.
Qed.

Lemma pop_absent (k : string) default (d d' : dict) v :
  lookup k d = None -> pop k default d = (v, d') -> v = default.
Proof.
  unfold pop. intros ->. intros E. now inversion E.
Qed.

(** Whatever the collaborators are, as long as the constructor of the
    parent class leaves [_point_start] alone: a node built by
    [GaugeOptions.from_dict] has [point_start] unset, whatever the
    dictionary holds under [pointStart]. *)
Lemma GaugeOptions_from_dict_point_start (X : Externals) as_dict cls self :
  (forall kwargs, frames (keeps "_point_start") (GenericTypeOptions_init X kwargs)) ->
  GaugeOptions_from_dict X as_dict = Ok (PObj cls self) ->
  lookup "_point_start" self = Some PNone.
Proof.
  intros Hparent. unfold GaugeOptions_from_dict, new.
  assert (Hk : lookup "point_start" (GaugeOptions_get_kwargs_from_dict as_dict)
               = None).
  { apply lookup_absent.
    unfold GaugeOptions_get_kwargs_from_dict. rewrite pop_all_names.
    simpl. intuition discriminate. }
  generalize dependent (GaugeOptions_get_kwargs_from_dict as_dict).
  intros kwargs Hk.
  destruct (GaugeOptions_init X kwargs []) as [s [[]|e]] eqn:E; [|discriminate].
  intros H. inversion H. subst s cls. clear H.
  unfold GaugeOptions_init in E.
  repeat rewrite bind_setattr in E. cbv beta in E.
  repeat match type of E with
         | context [pop ?k PNone ?d] =>
             let v := fresh "v" in
             let d' := fresh "kw" in
             let P := fresh "P" in
             destruct (pop k PNone d) as [v d'] eqn:P;
             try (assert (lookup "point_start" d' = None)
                    by (eapply pop_other; [|exact P]; assumption))
         end.
  match goal with
  | P : pop "point_start" PNone ?d = (?v, _), H : lookup "point_start" ?d = None |- _ =>
      pose proof (pop_absent _ _ _ _ _ H P); subst v
  end.
  set (stays := fun a b : attrs =>
                  lookup "_point_start" a = Some PNone ->
                  lookup "_point_start" b = Some PNone).
  assert (Hrefl : forall a, stays a a) by (intros a Ha; exact Ha).
  assert (Htrans : forall a b c, stays a b -> stays b c -> stays a c)
    by (intros a b c Hab Hbc Ha; auto).
  match type of E with
  | ?m ?s = _ =>
      assert (Hm : frames stays m)
  end.
  { change (GaugeOptions_point_start_set X PNone)
      with (setattr "_point_start" PNone).
    unfold GaugeOptions_color_index_set, GaugeOptions_crisp_set,
      GaugeOptions_dial_set, GaugeOptions_linecap_set,
      GaugeOptions_line_width_set, GaugeOptions_overshoot_set,
      GaugeOptions_pivot_set, GaugeOptions_point_interval_set,
      GaugeOptions_point_interval_unit_set,
      GaugeOptions_relative_x_value_set, GaugeOptions_shadow_set,
      GaugeOptions_wrap_set, bool_setter.
    frames_walk stays Hrefl Htrans
      ltac:(first [ intro Ha; rewrite lookup_store_other by discriminate;
                    exact Ha
                  | intro Ha; apply lookup_store_same ]).
    intros ? ? ? Hab Ha. rewrite (Hparent _ _ _ _ Hab). exact Ha. }
  apply (Hm _ _ _ E). reflexivity.
Qed.

(** C1.  [GaugeOptions._get_kwargs_from_dict] never produces the keyword
    [point_start], whatever the dictionary holds, although
    [GaugeOptions.to_dict] emits [pointStart].  So the round trip drops the
    field; with [GenericTypeOptions] keeping its keyword arguments,
    [GaugeOptions(point_start = 5).to_dict()] is
    [{'pointStart': 5}], the node rebuilt from it by [from_dict] has
    [point_start] unset, and its [to_dict()] has no [pointStart] entry. *)
Theorem GaugeOptions_round_trip_drops_point_start :
  (forall as_dict,
     lookup "point_start" (GaugeOptions_get_kwargs_from_dict as_dict) = None) /\
  exists node as_dict node' as_dict',
    new "GaugeOptions" (GaugeOptions_init reference) [("point_start", PInt 5)]
      = Ok node /\
    call_on node (GaugeOptions_to_dict reference) = Ok as_dict /\
    as_dict = [("pointStart", PInt 5)] /\
    GaugeOptions_from_dict reference as_dict = Ok node' /\
    call_on node' GaugeOptions_point_start = Ok PNone /\
    call_on node' (GaugeOptions_to_dict reference) = Ok as_dict' /\
    lookup "pointStart" as_dict' = None.
Proof.
  split.
  - intros as_dict. apply lookup_absent.
    unfold GaugeOptions_get_kwargs_from_dict. rewrite pop_all_names.
    simpl. intuition discriminate.
  - eexists. eexists. eexists. eexists.
    split; [vm_compute; reflexivity|].
    split; [vm_compute; reflexivity|].
    split; [reflexivity|].
    split; [vm_compute; reflexivity|].
    split; [vm_compute; reflexivity|].
    split; [vm_compute; reflexivity|].
    reflexivity.
Qed.

(** ** Setters: fail fast, and keep the declared constraint *)

Lemma validated_assignment (r : result pyval) c attribute self :
  (forall v, r = Ok v -> c v = true) ->
  raises_or_commits (v <- lift r ;; setattr attribute v) c attribute self.
Proof.
  intros H. destruct r as [v|e]; [right | left].
  - exists v. split; [now apply H | reflexivity].
  - exists e. reflexivity.
Qed.

Lemma validators_numeric_ok X value allow_empty minimum v :
  validators_numeric X value allow_empty minimum = Ok v ->
  (v = PNone /\ allow_empty = true) \/ is_number minimum v = true.
Proof.
  unfold validators_numeric, is_number, rbind.
  destruct value; try discriminate.
  - destruct allow_empty; [|discriminate].
    intros H. inversion H. auto.
  - cbn [num_value]. destruct minimum as [lo|].
    + destruct (Qlt_bool _ lo) eqn:E; [discriminate|].
      intros H. inversion H. subst. right. cbn [num_value]. now rewrite E.
    + intros H. inversion H. auto.
  - cbn [num_value]. destruct minimum as [lo|].
    + destruct (Qlt_bool _ lo) eqn:E; [discriminate|].
      intros H. inversion H. subst. right. cbn [num_value]. now rewrite E.
    + intros H. inversion H. auto.
  - cbn [num_value]. destruct minimum as [lo|].
    + destruct (Qlt_bool q lo) eqn:E; [discriminate|].
      intros H. inversion H. subst. right. cbn [num_value]. now rewrite E.
    + intros H. inversion H. auto.
  - destruct (float_ X s) as [q|]; [|discriminate].
    cbn [num_value]. destruct minimum as [lo|].
    + destruct (Qlt_bool q lo) eqn:E; [discriminate|].
      intros H. inversion H. subst. right. cbn [num_value]. now rewrite E.
    + intros H. inversion H. auto.
Qed.

Lemma validators_string_ok value allow_empty v :
  validators_string value allow_empty = Ok v ->
  (v = PNone /\ allow_empty = true) \/
  (exists s, v = PStr s /\ value = PStr s /\ s <> "").
Proof.
  unfold validators_string. destruct (truthy value) eqn:T; cbn [negb].
  - destruct value; try discriminate. intros H. inversion H. subst.
    right. exists s. repeat split. intros Hs. subst s. discriminate.
  - destruct allow_empty; [|discriminate]. intros H. inversion H. auto.
Qed.

Lemma Qlt_bool_false (a b : Q) : Qlt_bool a b = false <-> (b <= a)%Q.
Proof.
  unfold Qlt_bool. rewrite negb_false_iff. apply Qle_bool_iff.
Qed.

Lemma is_number_at_least (minimum : option Q) (q : Q) (z : Z) :
  is_number minimum (PFloat q) = true -> (q <= inject_Z z)%Q ->
  is_number minimum (PInt z) = true.
Proof.
  unfold is_number. cbn [num_value]. destruct minimum as [lo|]; auto.
  rewrite !negb_true_iff, !Qlt_bool_false. intros H1 H2.
  eapply Qle_trans; eauto.
Qed.

Lemma validators_integer_ok X value allow_empty coerce_value minimum v :
  validators_integer X value allow_empty coerce_value minimum = Ok v ->
  (v = PNone /\ allow_empty = true) \/ is_integer minimum v = true.
Proof.
  unfold validators_integer, rbind.
  destruct (validators_numeric X value allow_empty minimum) as [w|] eqn:E;
    [|discriminate].
  apply validators_numeric_ok in E. destruct E as [(-> & ->) | E].
  - intros H. inversion H. auto.
  - destruct w; try discriminate E.
    + destruct coerce_value; intros H; inversion H; subst; right.
      * unfold is_integer. destruct b; revert E; unfold is_number;
          cbn [num_value]; auto.
      * exact E.
    + intros H. inversion H. subst. right. exact E.
    + destruct (Q_is_integer q) eqn:I.
      * intros H. inversion H. subst. right. unfold is_integer.
        apply (is_number_at_least minimum q); [exact E|].
        unfold Q_is_integer in I. apply Qeq_bool_iff in I.
        rewrite I at 1. apply Qle_refl.
      * destruct coerce_value; [|discriminate].
        intros H. inversion H. subst. right. unfold is_integer.
        apply (is_number_at_least minimum q); [exact E|].
        apply Qle_ceiling.
Qed.

Lemma bool_setter_contract attribute value self :
  raises_or_commits (bool_setter attribute value) (optional is_bool)
    attribute self.
Proof.
  right. unfold bool_setter. destruct (is_None value).
  - exists PNone. split; reflexivity.
  - exists (PBool (truthy value)). split; reflexivity.
Qed.

Lemma percentage_string_contract field attribute value self :
  raises_or_commits (percentage_string field attribute value)
    (optional is_percentage) attribute self.
Proof.
  unfold percentage_string.
  destruct (validators_string value false) as [v|e] eqn:E.
  - apply validators_string_ok in E.
    destruct E as [(_ & E) | (s & -> & -> & Hs)]; [discriminate|].
    unfold bind, lift. destruct (contains "%" s) eqn:C; cbn [negb].
    + right. exists (PStr s). split; [|reflexivity].
      unfold optional. simpl. exact C.
    + left. eexists. reflexivity.
  - left. exists e. reflexivity.
Qed.

Lemma percentage_or_number_contract X attribute value self :
  raises_or_commits (percentage_or_number_setter X attribute value)
    (optional (fun v => is_percentage v || is_number (Some 0%Q) v))
    attribute self.
Proof.
  unfold raises_or_commits.
  destruct value;
    try (left; eexists; reflexivity);
    try (right; eexists; split; [|reflexivity]; reflexivity).
  - (* bool *)
    destruct b; [left; eexists; reflexivity|].
    right. eexists. split; [|reflexivity]. reflexivity.
  - (* int *)
    unfold percentage_or_number_setter, try_except_ValueError, bind, lift,
      validators_string. cbn [is_None truthy].
    destruct (z =? 0) eqn:Z0; cbn [negb is_ValueError].
    + apply Z.eqb_eq in Z0. subst z. right. eexists.
      split; [|reflexivity]. reflexivity.
    + left. eexists. reflexivity.
  - (* float *)
    unfold percentage_or_number_setter, try_except_ValueError, bind, lift,
      validators_string, validators_numeric, rbind.
    cbn [is_None truthy num_value].
    destruct (Qeq_bool q 0) eqn:Q0; cbn [negb is_ValueError].
    + destruct (Qlt_bool q 0) eqn:L.
      * left. eexists. reflexivity.
      * right. eexists. split; [|reflexivity].
        unfold optional, is_number. cbn [is_None is_percentage num_value].
        now rewrite L.
    + left. eexists. reflexivity.
  - (* str *)
    rewrite percentage_or_number_on_string.
    destruct (contains "%" s) eqn:C.
    + right. exists (PStr s). split; [|reflexivity].
      unfold optional. simpl. now rewrite C.
    + unfold numeric_of_string.
      destruct (float_ X s) as [q|]; [|left; eexists; reflexivity].
      destruct (Qlt_bool q 0) eqn:L; [left; eexists; reflexivity|].
      right. exists (PFloat q). split; [|reflexivity].
      unfold optional, is_number. cbn [is_None is_percentage num_value].
      now rewrite L.
  - (* list *)
    destruct l; left; eexists; reflexivity.
  - (* dict *)
    destruct d; left; eexists; reflexivity.
Qed.

Lemma optional_of_validator (c : pyval -> bool) (allow_empty : bool) v :
  (v = PNone /\ allow_empty = true) \/ c v = true -> optional c v = true.
Proof.
  unfold optional. intros [(-> & _) | ->]; [reflexivity | apply orb_true_r].
Qed.

Lemma required_of_validator (c : pyval -> bool) v :
  (v = PNone /\ false = true) \/ c v = true -> c v = true.
Proof. intros [(_ & H) | H]; [discriminate | exact H]. Qed.

Lemma numeric_setter_contract X attribute minimum value self :
  raises_or_commits
    (v <- lift (validators_numeric X value true minimum) ;; setattr attribute v)
    (optional (is_number minimum)) attribute self.
Proof.
  apply validated_assignment. intros v H.
  apply (optional_of_validator _ true). eapply validators_numeric_ok; eauto.
Qed.

Lemma string_setter_contract attribute value self :
  raises_or_commits
    (v <- lift (validators_string value true) ;; setattr attribute v)
    (optional is_str) attribute self.
Proof.
  apply validated_assignment. intros v H.
  apply (optional_of_validator _ true).
  apply validators_string_ok in H.
  destruct H as [H | (s & -> & _)]; [left; exact H | right; reflexivity].
Qed.

Lemma relative_to_contract value self :
  raises_or_commits (relative_to_setter value)
    (optional (is_token relative_to_tokens)) "_relative_to" self.
Proof.
  unfold relative_to_setter. destruct (truthy value) eqn:T; cbn [negb].
  - destruct (validators_string value false) as [v|e] eqn:E.
    + apply validators_string_ok in E.
      destruct E as [(_ & E) | (s & -> & -> & Hs)]; [discriminate|].
      unfold bind, lift.
      destruct (in_list (lower s) relative_to_tokens) eqn:I; cbn [negb].
      * right. exists (PStr (lower s)). split; [|reflexivity].
        unfold optional. simpl is_None. cbn [orb is_token]. exact I.
      * left. eexists. reflexivity.
    + left. exists e. reflexivity.
  - right. exists PNone. split; reflexivity.
Qed.

Lemma mode_contract value self :
  raises_or_commits (SeriesNavigation_mode_set value)
    (is_token ["normal"; "serialize"]) "_mode" self.
Proof.
  unfold SeriesNavigation_mode_set.
  destruct (validators_string value false) as [v|e] eqn:E.
  - apply validators_string_ok in E.
    destruct E as [(_ & E) | (s & -> & -> & Hs)]; [discriminate|].
    unfold bind, lift.
    destruct (in_list (lower s) ["normal"; "serialize"]) eqn:I; cbn [negb].
    + right. exists (PStr (lower s)). split; [exact I | reflexivity].
    + left. eexists. reflexivity.
  - left. exists e. reflexivity.
Qed.

(** For each of the fields above, every value and every attribute
    dictionary: either the setter raises and the attribute dictionary is
    exactly as it was, or it returns having assigned to the private
    attribute of the field a value [v] that meets the declared constraint
    of the field.  Consequently a stored value that meets the constraint is
    followed, after any call of the setter, by a stored value that meets
    it. *)
Theorem field_setters_raise_or_store
    (X : Externals) (f : field) (value : pyval) (self : attrs) :
  ((exists e, field_setter X f value self = (self, Raise e)) \/
   (exists v, field_constraint f v = true /\
              field_setter X f value self
              = (store (field_attribute f) v self, Ok tt))) /\
  (field_ok f self -> field_ok f (fst (field_setter X f value self))).
Proof.
  assert (H :
    (exists e, field_setter X f value self = (self, Raise e)) \/
    (exists v, field_constraint f v = true /\
               field_setter X f value self
               = (store (field_attribute f) v self, Ok tt))).
  { destruct f; cbn [field_setter field_constraint field_attribute];
      try apply numeric_setter_contract;
      try apply string_setter_contract;
      try apply bool_setter_contract;
      try apply relative_to_contract;
      try apply mode_contract;
      try apply percentage_or_number_contract.
    - (* DialOptions.base_length *)
      unfold DialOptions_base_length_set. destruct (is_None value).
      + right. exists PNone. split; reflexivity.
      + apply percentage_string_contract.
    - (* DialOptions.radius *)
      unfold DialOptions_radius_set. destruct (truthy value); cbn [negb].
      + apply percentage_string_contract.
      + right. exists PNone. split; reflexivity.
    - (* DialOptions.rear_length *)
      unfold DialOptions_rear_length_set. destruct (truthy value); cbn [negb].
      + apply percentage_string_contract.
      + right. exists PNone. split; reflexivity.
    - (* DialOptions.top_width *)
      apply validated_assignment. intros v H.
      apply required_of_validator. eapply validators_numeric_ok; eauto.
    - (* GaugeOptions.color_index *)
      apply validated_assignment. intros v H.
      apply (optional_of_validator _ true).
      eapply validators_integer_ok; eauto.
    - (* SeriesNavigation.point_navigation_enabled_threshold *)
      unfold SeriesNavigation_point_navigation_enabled_threshold_set.
      assert (G : raises_or_commits
                    (v <- lift (validators_integer X value false true None) ;;
                     setattr "_point_navigation_enabled_threshold" v)
                    (is_integer None)
                    "_point_navigation_enabled_threshold" self).
      { apply validated_assignment. intros v H.
        apply required_of_validator. eapply validators_integer_ok; eauto. }
      destruct value; try exact G. destruct b; [exact G|].
      right. exists (PBool false). split; reflexivity.
    - (* SeriesNavigation.remember_point_focus *)
      right. eexists. split; [|reflexivity]. reflexivity.
    - (* SeriesNavigation.skip_null_points *)
      right. eexists. split; [|reflexivity]. reflexivity. }
  split; [exact H|].
  intros Hok. destruct H as [(e & ->) | (v & Hc & ->)]; [exact Hok|].
  cbn [fst]. intros w Hw.
  rewrite lookup_store_same in Hw. inversion Hw. subst w. exact Hc.
Qed.

(** On [base_length = '80%'], [base_length = '80'] and
    [relative_to = 'Chart'] assigned to a node with nothing stored. *)
Lemma field_setters_raise_or_store_witness :
  field_ok Dial_base_length
    (fst (field_setter reference Dial_base_length (PStr "80%") [])) /\
  field_ok Dial_base_length
    (fst (field_setter reference Dial_base_length (PStr "80") [])) /\
  field_ok Breadcrumb_relative_to
    (fst (field_setter reference Breadcrumb_relative_to (PStr "Chart") [])).
Proof.
  assert (H0 : forall f, field_ok f []) by (intros f v Hv; discriminate).
  split; [|split].
  - exact (proj2 (field_setters_raise_or_store reference Dial_base_length
                    (PStr "80%") []) (H0 _)).
  - exact (proj2 (field_setters_raise_or_store reference Dial_base_length
                    (PStr "80") []) (H0 _)).
  - exact (proj2 (field_setters_raise_or_store reference
                    Breadcrumb_relative_to (PStr "Chart") []) (H0 _)).
Defined.

(** ** Where the setter contract fails *)

(** [DialOptions.path] on a dictionary that is not empty:
    [validators.iterable] lets it through and the setter stores it. *)
Lemma DialOptions_path_set_dict entry entries self :
  DialOptions_path_set (PDict (entry :: entries)) self
  = (store "_path" (PDict (entry :: entries)) self, Ok tt).
Proof. reflexivity. Qed.

(** C6.  The setter of [BreadcrumbOptions.z_index] breaks the contract
    "raise, or commit the validated value".  On every [BreadcrumbOptions]
    instance and for every integer [z]: the validator accepts [z] and
    returns it, the setter returns without raising, and the field still
    holds [None], not [z]; the sibling setter of [button_spacing], given
    the same value on the same instance, stores it.  A second field misses
    its declared constraint: [DialOptions.path], declared a list, stores a
    dictionary that is not empty. *)
Theorem z_index_setter_neither_raises_nor_commits
    (X : Externals) (self : attrs) (z : Z) :
  BreadcrumbOptions_instance X self ->
  validators_integer X (PInt z) true false None = Ok (PInt z) /\
  snd (BreadcrumbOptions_z_index_set X (PInt z) self) = Ok tt /\
  lookup "_z_index" (fst (BreadcrumbOptions_z_index_set X (PInt z) self))
  = Some PNone /\
  lookup "_button_spacing"
         (fst (BreadcrumbOptions_button_spacing_set X (PInt z) self))
  = Some (PInt z) /\
  (forall entry entries node,
     is_list (PDict (entry :: entries)) = false /\
     lookup "_path"
            (fst (DialOptions_path_set (PDict (entry :: entries)) node))
     = Some (PDict (entry :: entries))).
Proof.
  intros Hi. split; [reflexivity|]. split; [reflexivity|]. split.
  - cbn [BreadcrumbOptions_z_index_set bind lift ret fst].
    exact (BreadcrumbOptions_instance_z_index X self Hi).
  - split.
    + cbn. apply lookup_store_same.
    + intros entry entries node. split; [reflexivity|].
      rewrite DialOptions_path_set_dict. apply lookup_store_same.
Qed.

(** C6, on [BreadcrumbOptions()] followed by [z_index = 5]. *)
Lemma z_index_setter_neither_raises_nor_commits_witness :
  let self := fst (BreadcrumbOptions_init reference [] []) in
  BreadcrumbOptions_instance reference self /\
  snd (BreadcrumbOptions_z_index_set reference (PInt 5) self) = Ok tt /\
  lookup "_z_index"
         (fst (BreadcrumbOptions_z_index_set reference (PInt 5) self))
  = Some PNone /\
  lookup "_button_spacing"
         (fst (BreadcrumbOptions_button_spacing_set reference (PInt 5) self))
  = Some (PInt 5).
Proof.
  intros self.
  assert (Hi : BreadcrumbOptions_instance reference self)
    by (apply Breadcrumb_constructed with (kwargs := []); reflexivity).
  split; [exact Hi|].
  destruct (z_index_setter_neither_raises_nor_commits reference self 5 Hi)
    as (_ & Hr & Hz & Hb & _).
  split; [exact Hr|]. split; [exact Hz | exact Hb].
Defined.

(** ** Round trips of the text, flag and duration classes *)

Lemma validators_string_is_text value v :
  validators_string value true = Ok v -> is_text v = true.
Proof.
  intros H. apply validators_string_ok in H.
  destruct H as [(-> & _) | (s & -> & _ & Hs)]; [reflexivity|].
  simpl. destruct (String.eqb s "") eqn:E; [|reflexivity].
  apply String.eqb_eq in E. contradiction.
Qed.

Lemma validators_string_fixed v :
  is_text v = true -> validators_string v true = Ok v.
Proof.
  destruct v; try discriminate; [reflexivity|].
  unfold is_text, validators_string, truthy. intros ->. reflexivity.
Qed.

Lemma text_setter_run attribute value self self' r :
  text_setter attribute value self = (self', r) ->
  (exists e, r = Raise e /\ self' = self) \/
  (exists v, r = Ok tt /\ is_text v = true /\ self' = store attribute v self).
Proof.
  unfold text_setter, bind, lift, setattr.
  destruct (validators_string value true) as [v|e] eqn:E;
    intros H; inversion H; subst.
  - right. exists v. repeat split. eapply validators_string_is_text; eauto.
  - left. exists e. auto.
Qed.

Lemma text_setter_fixed attribute v self :
  is_text v = true ->
  text_setter attribute v self = (store attribute v self, Ok tt).
Proof.
  intros H. unfold text_setter, bind, lift.
  now rewrite (validators_string_fixed v H).
Qed.

Lemma bool_setter_run attribute value self self' r :
  bool_setter attribute value self = (self', r) ->
  exists v, r = Ok tt /\ is_flag v = true /\ self' = store attribute v self.
Proof.
  unfold bool_setter. destruct (is_None value); intros H; inversion H; subst.
  - exists PNone. repeat split.
  - exists (PBool (truthy value)). repeat split.
Qed.

Lemma bool_setter_fixed attribute v self :
  is_flag v = true ->
  bool_setter attribute v self = (store attribute v self, Ok tt).
Proof.
  destruct v; try discriminate; intros _; [reflexivity|].
  unfold bool_setter. simpl. destruct b; reflexivity.
Qed.

Lemma ZoomLanguageOptions_shape self :
  instance_of ZoomLanguageOptions_init ZoomLanguageOptions_setters self ->
  exists a b c,
    self = [("_map_zoom_in", a); ("_map_zoom_out", b);
            ("_reset_zoom_button", c)] /\
    is_text a = true /\ is_text b = true /\ is_text c = true.
Proof.
  induction 1 as [kwargs self H | set value self self' r Hin _ IH H].
  - unfold ZoomLanguageOptions_init in H.
    repeat rewrite bind_setattr in H. cbv beta in H.
    destruct (pop "map_zoom_in" PNone kwargs) as [v1 k1].
    destruct (pop "map_zoom_out" PNone k1) as [v2 k2].
    destruct (pop "reset_zoom_button" PNone k2) as [v3 k3].
    unfold bind at 1 in H.
    match type of H with
    | context [ZoomLanguageOptions_map_zoom_in_set v1 ?s] =>
        destruct (ZoomLanguageOptions_map_zoom_in_set v1 s)
          as [s1 r1] eqn:E1
    end.
    apply text_setter_run in E1.
    destruct E1 as [(e & -> & _) | (a & -> & Ha & ->)]; [discriminate|].
    unfold bind at 1 in H.
    match type of H with
    | context [ZoomLanguageOptions_map_zoom_out_set v2 ?s] =>
        destruct (ZoomLanguageOptions_map_zoom_out_set v2 s)
          as [s2 r2] eqn:E2
    end.
    apply text_setter_run in E2.
    destruct E2 as [(e & -> & _) | (b & -> & Hb & ->)]; [discriminate|].
    apply text_setter_run in H.
    destruct H as [(e & He & _) | (c & _ & Hc & ->)]; [discriminate|].
    exists a, b, c. repeat split; assumption.
  - destruct IH as (a & b & c & -> & Ha & Hb & Hc).
    simpl in Hin.
    destruct Hin as [<- | [<- | [<- | []]]];
      apply text_setter_run in H;
      destruct H as [(e & _ & ->) | (v & _ & Hv & ->)];
      try (exists a, b, c; repeat split; assumption).
    + exists v, b, c. repeat split; assumption.
    + exists a, v, c. repeat split; assumption.
    + exists a, b, v. repeat split; assumption.
Qed.

(** On every [ZoomLanguageOptions] instance, [_to_untrimmed_dict] returns
    the three external keys, and [from_dict] on that dictionary builds a
    node with the very same attribute dictionary. *)
Theorem ZoomLanguageOptions_round_trip self :
  instance_of ZoomLanguageOptions_init ZoomLanguageOptions_setters self ->
  exists untrimmed,
    ZoomLanguageOptions_to_untrimmed_dict self = (self, Ok untrimmed) /\
    map fst untrimmed = ["mapZoomIn"; "mapZoomOut"; "resetZoomButton"] /\
    ZoomLanguageOptions_from_dict untrimmed
      = Ok (PObj "ZoomLanguageOptions" self).
Proof.
  intros Hi. apply ZoomLanguageOptions_shape in Hi.
  destruct Hi as (a & b & c & -> & Ha & Hb & Hc).
  eexists. split; [reflexivity|]. split; [reflexivity|].
  unfold ZoomLanguageOptions_from_dict, new, ZoomLanguageOptions_init,
    ZoomLanguageOptions_map_zoom_in_set, ZoomLanguageOptions_map_zoom_out_set,
    ZoomLanguageOptions_reset_zoom_button_set.
  cbn -[text_setter].
  rewrite (bind_run _ _ _ _ _ (text_setter_fixed _ a _ Ha)).
  rewrite (bind_run _ _ _ _ _ (text_setter_fixed _ b _ Hb)).
  rewrite (text_setter_fixed _ c _ Hc). reflexivity.
Qed.

(** On [ZoomLanguageOptions(map_zoom_in = 'Zoom in')] after
    [reset_zoom_button = 'Reset'] is assigned. *)
Lemma ZoomLanguageOptions_round_trip_witness :
  exists untrimmed,
    ZoomLanguageOptions_to_untrimmed_dict
      [("_map_zoom_in", PStr "Zoom in"); ("_map_zoom_out", PNone);
       ("_reset_zoom_button", PStr "Reset")]
    = ([("_map_zoom_in", PStr "Zoom in"); ("_map_zoom_out", PNone);
        ("_reset_zoom_button", PStr "Reset")], Ok untrimmed) /\
    map fst untrimmed = ["mapZoomIn"; "mapZoomOut"; "resetZoomButton"] /\
    ZoomLanguageOptions_from_dict untrimmed
    = Ok (PObj "ZoomLanguageOptions"
            [("_map_zoom_in", PStr "Zoom in"); ("_map_zoom_out", PNone);
             ("_reset_zoom_button", PStr "Reset")]).
Proof.
  apply ZoomLanguageOptions_round_trip.
  apply (assigned ZoomLanguageOptions_init ZoomLanguageOptions_setters
           ZoomLanguageOptions_reset_zoom_button_set (PStr "Reset")
           [("_map_zoom_in", PStr "Zoom in"); ("_map_zoom_out", PNone);
            ("_reset_zoom_button", PNone)] _ (Ok tt)).
  - simpl. auto.
  - apply (constructed ZoomLanguageOptions_init ZoomLanguageOptions_setters
             [("map_zoom_in", PStr "Zoom in")]).
    reflexivity.
  - reflexivity.
Defined.

Lemma validators_integer_fixed (X : Externals) v :
  is_duration v = true ->
  validators_integer X v true false (Some 0%Q) = Ok v.
Proof.
  unfold is_duration, optional, is_integer, is_number, validators_integer,
    validators_numeric, rbind.
  destruct v; try discriminate; cbn [is_None orb num_value]; intros H;
    try reflexivity;
    apply negb_true_iff in H; rewrite H; reflexivity.
Qed.

Lemma duration_setter_run (X : Externals) attribute value self self' r :
  duration_setter X attribute value self = (self', r) ->
  (exists e, r = Raise e /\ self' = self) \/
  (exists v, r = Ok tt /\ is_duration v = true /\
             self' = store attribute v self).
Proof.
  unfold duration_setter, bind, lift, setattr.
  destruct (validators_integer X value true false (Some 0%Q)) as [v|e] eqn:E;
    intros H; inversion H; subst.
  - right. exists v. repeat split.
    apply (optional_of_validator _ true).
    eapply validators_integer_ok; eauto.
  - left. exists e. auto.
Qed.

Lemma duration_setter_fixed (X : Externals) attribute v self :
  is_duration v = true ->
  duration_setter X attribute v self = (store attribute v self, Ok tt).
Proof.
  intros H. unfold duration_setter, bind, lift.
  now rewrite (validators_integer_fixed X v H).
Qed.

Lemma RangeSelectorLanguageOptions_shape self :
  instance_of RangeSelectorLanguageOptions_init RangeSelectorLanguageOptions_setters self ->
  exists v0 v1 v2 v3,
    self = [("_click_button_announcement", v0); ("_dropdown_label", v1);
            ("_max_input_label", v2); ("_min_input_label", v3)] /\
    is_text v0 = true /\
    is_text v1 = true /\
    is_text v2 = true /\
    is_text v3 = true.
Proof.
  induction 1 as [kwargs self H | set value self self' r Hin _ IH H].
  - unfold RangeSelectorLanguageOptions_init in H.
    repeat rewrite bind_setattr in H. cbv beta in H.
    repeat match type of H with
           | context [pop ?k PNone ?d] => destruct (pop k PNone d) as [? ?]
           end.
    unfold RangeSelectorLanguageOptions_click_button_announcement_set,
      RangeSelectorLanguageOptions_dropdown_label_set,
      RangeSelectorLanguageOptions_max_input_label_set,
      RangeSelectorLanguageOptions_min_input_label_set in H.
    unfold bind at 1 in H.
    match type of H with
    | context [text_setter "_click_button_announcement" ?v ?s] =>
        destruct (text_setter "_click_button_announcement" v s) as [s0 r0] eqn:E0
    end.
    apply text_setter_run in E0.
    destruct E0 as [(e & -> & _) | (v0 & -> & H0 & ->)]; [discriminate|].
    unfold bind at 1 in H.
    match type of H with
    | context [text_setter "_dropdown_label" ?v ?s] =>
        destruct (text_setter "_dropdown_label" v s) as [s1 r1] eqn:E1
    end.
    apply text_setter_run in E1.
    destruct E1 as [(e & -> & _) | (v1 & -> & H1 & ->)]; [discriminate|].
    unfold bind at 1 in H.
    match type of H with
    | context [text_setter "_max_input_label" ?v ?s] =>
        destruct (text_setter "_max_input_label" v s) as [s2 r2] eqn:E2
    end.
    apply text_setter_run in E2.
    destruct E2 as [(e & -> & _) | (v2 & -> & H2 & ->)]; [discriminate|].
    apply text_setter_run in H.
    destruct H as [(e & He & _) | (v3 & _ & H3 & ->)]; [discriminate|].
    exists v0, v1, v2, v3. repeat split; assumption.
  - destruct IH as (v0 & v1 & v2 & v3 & -> & H0 & H1 & H2 & H3).
    simpl in Hin.
    destruct Hin as [<- | [<- | [<- | [<- | []]]]].
    + apply text_setter_run in H.
      destruct H as [(e & _ & ->) | (w & _ & Hw & ->)].
      * exists v0, v1, v2, v3. repeat split; assumption.
      * exists w, v1, v2, v3. repeat split; assumption.
    + apply text_setter_run in H.
      destruct H as [(e & _ & ->) | (w & _ & Hw & ->)].
      * exists v0, v1, v2, v3. repeat split; assumption.
      * exists v0, w, v2, v3. repeat split; assumption.
    + apply text_setter_run in H.
      destruct H as [(e & _ & ->) | (w & _ & Hw & ->)].
      * exists v0, v1, v2, v3. repeat split; assumption.
      * exists v0, v1, w, v3. repeat split; assumption.
    + apply text_setter_run in H.
      destruct H as [(e & _ & ->) | (w & _ & Hw & ->)].
      * exists v0, v1, v2, v3. repeat split; assumption.
      * exists v0, v1, v2, w. repeat split; assumption.
Qed.

(** On every [RangeSelectorLanguageOptions] instance, [_to_untrimmed_dict]
    returns the four external keys, and [from_dict] on that dictionary
    builds a node with the very same attribute dictionary. *)
Theorem RangeSelectorLanguageOptions_round_trip self :
  instance_of RangeSelectorLanguageOptions_init RangeSelectorLanguageOptions_setters self ->
  exists untrimmed,
    RangeSelectorLanguageOptions_to_untrimmed_dict self = (self, Ok untrimmed) /\
    map fst untrimmed
    = ["clickButtonAnnouncement"; "dropdownLabel"; "maxInputLabel";
       "minInputLabel"] /\
    RangeSelectorLanguageOptions_from_dict untrimmed
    = Ok (PObj "RangeSelectorLanguageOptions" self).
Proof.
  intros Hi. apply RangeSelectorLanguageOptions_shape in Hi.
  destruct Hi as (v0 & v1 & v2 & v3 & -> & H0 & H1 & H2 & H3).
  eexists. split; [reflexivity|]. split; [reflexivity|].
  unfold RangeSelectorLanguageOptions_from_dict, new,
    RangeSelectorLanguageOptions_init,
    RangeSelectorLanguageOptions_click_button_announcement_set,
    RangeSelectorLanguageOptions_dropdown_label_set,
    RangeSelectorLanguageOptions_max_input_label_set,
    RangeSelectorLanguageOptions_min_input_label_set.
  cbn -[text_setter bool_setter duration_setter].
  rewrite (bind_run _ _ _ _ _ (text_setter_fixed _ v0 _ H0)).
  rewrite (bind_run _ _ _ _ _ (text_setter_fixed _ v1 _ H1)).
  rewrite (bind_run _ _ _ _ _ (text_setter_fixed _ v2 _ H2)).
  rewrite (text_setter_fixed _ v3 _ H3). reflexivity.
Qed.

(** On [RangeSelectorLanguageOptions(dropdown_label = 'Range')]. *)
Lemma RangeSelectorLanguageOptions_round_trip_witness :
  exists untrimmed,
    RangeSelectorLanguageOptions_to_untrimmed_dict
      [("_click_button_announcement", PNone);
       ("_dropdown_label", PStr "Range");
       ("_max_input_label", PNone); ("_min_input_label", PNone)]
    = ([("_click_button_announcement", PNone);
        ("_dropdown_label", PStr "Range");
        ("_max_input_label", PNone); ("_min_input_label", PNone)],
       Ok untrimmed) /\
    map fst untrimmed
    = ["clickButtonAnnouncement"; "dropdownLabel"; "maxInputLabel";
       "minInputLabel"] /\
    RangeSelectorLanguageOptions_from_dict untrimmed
    = Ok (PObj "RangeSelectorLanguageOptions"
            [("_click_button_announcement", PNone);
             ("_dropdown_label", PStr "Range");
             ("_max_input_label", PNone); ("_min_input_label", PNone)]).
Proof.
  apply RangeSelectorLanguageOptions_round_trip.
  apply (constructed RangeSelectorLanguageOptions_init
           RangeSelectorLanguageOptions_setters
           [("dropdown_label", PStr "Range")]).
  reflexivity.
Defined.

Lemma DataPointAccessibility_shape self :
  instance_of DataPointAccessibility_init DataPointAccessibility_setters self ->
  exists v0 v1,
    self = [("_description", v0); ("_enabled", v1)] /\
    is_text v0 = true /\
    is_flag v1 = true.
Proof.
  induction 1 as [kwargs self H | set value self self' r Hin _ IH H].
  - unfold DataPointAccessibility_init in H.
    repeat rewrite bind_setattr in H. cbv beta in H.
    repeat match type of H with
           | context [pop ?k PNone ?d] => destruct (pop k PNone d) as [? ?]
           end.
    unfold DataPointAccessibility_description_set, DataPointAccessibility_enabled_set in H.
    unfold bind at 1 in H.
    match type of H with
    | context [text_setter "_description" ?v ?s] =>
        destruct (text_setter "_description" v s) as [s0 r0] eqn:E0
    end.
    apply text_setter_run in E0.
    destruct E0 as [(e & -> & _) | (v0 & -> & H0 & ->)]; [discriminate|].
    apply bool_setter_run in H.
    destruct H as (v1 & _ & H1 & ->).
    exists v0, v1. repeat split; assumption.
  - destruct IH as (v0 & v1 & -> & H0 & H1).
    simpl in Hin.
    destruct Hin as [<- | [<- | []]].
    + apply text_setter_run in H.
      destruct H as [(e & _ & ->) | (w & _ & Hw & ->)].
      * exists v0, v1. repeat split; assumption.
      * exists w, v1. repeat split; assumption.
    + apply bool_setter_run in H.
      destruct H as (w & _ & Hw & ->).
      exists v0, w. repeat split; assumption.
Qed.

(** On every [DataPointAccessibility] instance, [_to_untrimmed_dict]
    returns the two external keys, and [from_dict] on that dictionary
    builds a node with the very same attribute dictionary: the description
    is unset or a non-empty string, the flag unset or a boolean. *)
Theorem DataPointAccessibility_round_trip self :
  instance_of DataPointAccessibility_init DataPointAccessibility_setters self ->
  exists untrimmed,
    DataPointAccessibility_to_untrimmed_dict self = (self, Ok untrimmed) /\
    map fst untrimmed = ["description"; "enabled"] /\
    DataPointAccessibility_from_dict untrimmed = Ok (PObj "DataPointAccessibility" self).
Proof.
  intros Hi. apply DataPointAccessibility_shape in Hi.
  destruct Hi as (v0 & v1 & -> & H0 & H1).
  eexists. split; [reflexivity|]. split; [reflexivity|].
  unfold DataPointAccessibility_from_dict, new, DataPointAccessibility_init,
    DataPointAccessibility_description_set,
    DataPointAccessibility_enabled_set.
  cbn -[text_setter bool_setter duration_setter].
  rewrite (bind_run _ _ _ _ _ (text_setter_fixed _ v0 _ H0)).
  rewrite (bool_setter_fixed _ v1 _ H1). reflexivity.
Qed.

(** On [DataPointAccessibility(description = 'Peak', enabled = 1)], whose
    flag is stored as [True]. *)
Lemma DataPointAccessibility_round_trip_witness :
  exists untrimmed,
    DataPointAccessibility_to_untrimmed_dict
      [("_description", PStr "Peak"); ("_enabled", PBool true)]
    = ([("_description", PStr "Peak"); ("_enabled", PBool true)],
       Ok untrimmed) /\
    map fst untrimmed = ["description"; "enabled"] /\
    DataPointAccessibility_from_dict untrimmed
    = Ok (PObj "DataPointAccessibility"
            [("_description", PStr "Peak"); ("_enabled", PBool true)]).
Proof.
  apply DataPointAccessibility_round_trip.
  apply (constructed DataPointAccessibility_init
           DataPointAccessibility_setters
           [("description", PStr "Peak"); ("enabled", PInt 1)]).
  reflexivity.
Defined.

Lemma Loading_shape (X : Externals) self :
  instance_of (Loading_init X) (Loading_setters X) self ->
  exists v0 v1 v2 v3,
    self = [("_hide_duration", v0); ("_label_style", v1); ("_show_duration", v2); ("_style", v3)] /\
    is_duration v0 = true /\
    is_text v1 = true /\
    is_duration v2 = true /\
    is_text v3 = true.
Proof.
  induction 1 as [kwargs self H | set value self self' r Hin _ IH H].
  - unfold Loading_init in H.
    repeat rewrite bind_setattr in H. cbv beta in H.
    repeat match type of H with
           | context [pop ?k PNone ?d] => destruct (pop k PNone d) as [? ?]
           end.
    unfold Loading_hide_duration_set, Loading_label_style_set,
      Loading_show_duration_set, Loading_style_set in H.
    unfold bind at 1 in H.
    match type of H with
    | context [duration_setter X "_hide_duration" ?v ?s] =>
        destruct (duration_setter X "_hide_duration" v s) as [s0 r0] eqn:E0
    end.
    apply (duration_setter_run X) in E0.
    destruct E0 as [(e & -> & _) | (v0 & -> & H0 & ->)]; [discriminate|].
    unfold bind at 1 in H.
    match type of H with
    | context [text_setter "_label_style" ?v ?s] =>
        destruct (text_setter "_label_style" v s) as [s1 r1] eqn:E1
    end.
    apply text_setter_run in E1.
    destruct E1 as [(e & -> & _) | (v1 & -> & H1 & ->)]; [discriminate|].
    unfold bind at 1 in H.
    match type of H with
    | context [duration_setter X "_show_duration" ?v ?s] =>
        destruct (duration_setter X "_show_duration" v s) as [s2 r2] eqn:E2
    end.
    apply (duration_setter_run X) in E2.
    destruct E2 as [(e & -> & _) | (v2 & -> & H2 & ->)]; [discriminate|].
    apply text_setter_run in H.
    destruct H as [(e & He & _) | (v3 & _ & H3 & ->)]; [discriminate|].
    exists v0, v1, v2, v3. repeat split; assumption.
  - destruct IH as (v0 & v1 & v2 & v3 & -> & H0 & H1 & H2 & H3).
    simpl in Hin.
    destruct Hin as [<- | [<- | [<- | [<- | []]]]].
    + apply (duration_setter_run X) in H.
      destruct H as [(e & _ & ->) | (w & _ & Hw & ->)].
      * exists v0, v1, v2, v3. repeat split; assumption.
      * exists w, v1, v2, v3. repeat split; assumption.
    + apply text_setter_run in H.
      destruct H as [(e & _ & ->) | (w & _ & Hw & ->)].
      * exists v0, v1, v2, v3. repeat split; assumption.
      * exists v0, w, v2, v3. repeat split; assumption.
    + apply (duration_setter_run X) in H.
      destruct H as [(e & _ & ->) | (w & _ & Hw & ->)].
      * exists v0, v1, v2, v3. repeat split; assumption.
      * exists v0, v1, w, v3. repeat split; assumption.
    + apply text_setter_run in H.
      destruct H as [(e & _ & ->) | (w & _ & Hw & ->)].
      * exists v0, v1, v2, v3. repeat split; assumption.
      * exists v0, v1, v2, w. repeat split; assumption.
Qed.

(** On every [Loading] instance the two durations are unset or integers
    that are not negative and the two styles are unset or non-empty
    strings; [_to_untrimmed_dict] returns the four external keys, and
    [from_dict] on that dictionary builds a node with the very same
    attribute dictionary. *)
Theorem Loading_round_trip (X : Externals) self :
  instance_of (Loading_init X) (Loading_setters X) self ->
  exists untrimmed,
    Loading_to_untrimmed_dict self = (self, Ok untrimmed) /\
    map fst untrimmed = ["hideDuration"; "labelStyle"; "showDuration"; "style"] /\
    Loading_from_dict X untrimmed = Ok (PObj "Loading" self).
Proof.
  intros Hi. apply Loading_shape in Hi.
  destruct Hi as (v0 & v1 & v2 & v3 & -> & H0 & H1 & H2 & H3).
  eexists. split; [reflexivity|]. split; [reflexivity|].
  unfold Loading_from_dict, new, Loading_init, Loading_hide_duration_set,
    Loading_label_style_set, Loading_show_duration_set, Loading_style_set.
  cbn -[text_setter bool_setter duration_setter].
  rewrite (bind_run _ _ _ _ _ (duration_setter_fixed X _ v0 _ H0)).
  rewrite (bind_run _ _ _ _ _ (text_setter_fixed _ v1 _ H1)).
  rewrite (bind_run _ _ _ _ _ (duration_setter_fixed X _ v2 _ H2)).
  rewrite (text_setter_fixed _ v3 _ H3). reflexivity.
Qed.

(** On [Loading(hide_duration = 100, style = 'opacity: 0.5')]. *)
Lemma Loading_round_trip_witness :
  exists untrimmed,
    Loading_to_untrimmed_dict
      [("_hide_duration", PInt 100); ("_label_style", PNone);
       ("_show_duration", PNone); ("_style", PStr "opacity: 0.5")]
    = ([("_hide_duration", PInt 100); ("_label_style", PNone);
        ("_show_duration", PNone); ("_style", PStr "opacity: 0.5")],
       Ok untrimmed) /\
    map fst untrimmed
    = ["hideDuration"; "labelStyle"; "showDuration"; "style"] /\
    Loading_from_dict reference untrimmed
    = Ok (PObj "Loading"
            [("_hide_duration", PInt 100); ("_label_style", PNone);
             ("_show_duration", PNone); ("_style", PStr "opacity: 0.5")]).
Proof.
  apply (Loading_round_trip reference).
  apply (constructed (Loading_init reference) (Loading_setters reference)
           [("hide_duration", PInt 100); ("style", PStr "opacity: 0.5")]).
  reflexivity.
Defined.

(** ** What [from_dict] reads and what it leaves *)

Lemma lookup_remove_neq (k k' : string) (d : dict) :
  k <> k' -> lookup k (remove k' d) = lookup k d.
Proof.
  intros Hne. induction d as [|[k0 v] d IH]; simpl; [reflexivity|].
  destruct (String.eqb k0 k') eqn:E'.
  - apply String.eqb_eq in E'. subst k0.
    destruct (String.eqb k' k) eqn:E; [|reflexivity].
    apply String.eqb_eq in E. congruence.
  - simpl. destruct (String.eqb k0 k); [reflexivity | exact IH].
Qed.

Lemma pop_value key default d : fst (pop key default d) = get key default d.
Proof. unfold pop, get. destruct (lookup key d); reflexivity. Qed.

Lemma pop_rest_neq key default d k :
  k <> key -> lookup k (snd (pop key default d)) = lookup k d.
Proof.
  intros H. unfold pop. destruct (lookup key d); simpl; [|reflexivity].
  now apply lookup_remove_neq.
Qed.

(** With distinct external keys, each keyword gets what [get] finds under
    its key in the dictionary as it was given. *)
Lemma pop_all_fst table (d : dict) :
  NoDup (external_keys table) ->
  fst (pop_all table d)
  = map (fun e => (fst (fst e), get (snd (fst e)) (snd e) d)) table.
Proof.
  revert d. induction table as [|[[name key] default] rest IH];
    intros d Hnd; cbn [pop_all map fst snd].
  - reflexivity.
  - inversion Hnd as [|? ? Hnotin Hrest]. subst.
    pose proof (pop_value key default d) as Hv.
    pose proof (fun k => pop_rest_neq key default d k) as Hr.
    destruct (pop key default d) as [v d1]. cbn [fst snd] in Hv, Hr.
    specialize (IH d1 Hrest). destruct (pop_all rest d1) as [kwargs d2].
    cbn [fst] in *. subst v. f_equal. rewrite IH.
    apply map_ext_in. intros [[n k] dflt] Hin. cbn [fst snd]. f_equal.
    unfold get. rewrite Hr; [reflexivity|].
    intros Heq. subst k. apply Hnotin.
    exact (in_map (fun e => snd (fst e)) rest (n, key, dflt) Hin).
Qed.

Lemma pop_all_agree table (d d' : dict) :
  NoDup (external_keys table) ->
  (forall k, In k (external_keys table) -> lookup k d = lookup k d') ->
  fst (pop_all table d) = fst (pop_all table d').
Proof.
  intros Hnd H. rewrite !pop_all_fst by assumption.
  apply map_ext_in. intros [[n k] dflt] Hin. cbn [fst snd]. f_equal.
  unfold get. rewrite (H k); [reflexivity|].
  exact (in_map (fun e => snd (fst e)) table (n, k, dflt) Hin).
Qed.

Ltac distinct_keys :=
  unfold external_keys; cbn [map fst snd];
  repeat (constructor; [simpl; intuition discriminate|]); constructor.

(** The same with [get]: what counts is what each key gives once an
    absent key has been replaced by its default. *)
Lemma pop_all_agree_get table (d d' : dict) :
  NoDup (external_keys table) ->
  (forall name key default,
     In (name, key, default) table -> get key default d = get key default d') ->
  fst (pop_all table d) = fst (pop_all table d').
Proof.
  intros Hnd H. rewrite !pop_all_fst by assumption.
  apply map_ext_in. intros [[n k] dflt] Hin. cbn [fst snd]. f_equal.
  now apply (H n k dflt).
Qed.

(** Closes [from_dict d = from_dict d'] from the agreement [H] of the two
    dictionaries under [get], key by key. *)
Ltac agree_under_get H :=
  cbv zeta; f_equal; apply pop_all_agree_get; [distinct_keys|];
  let name := fresh "name" in
  let key := fresh "key" in
  let default := fresh "default" in
  let Hin := fresh "Hin" in
  let E := fresh "E" in
  intros name key default Hin; simpl in Hin;
  repeat (destruct Hin as [E | Hin];
          [inversion E; subst; first [apply H; simpl; tauto | tauto]|]);
  destruct Hin.

(** [from_dict] depends on the dictionary only through [get] at the
    external keys it names, each with the default written in the source:
    two dictionaries that give the same there are converted to the same
    result, a node or an exception.  Every other key is ignored, and a key
    that is absent counts as one that holds its default, so that
    [SeriesNavigation.from_dict] does not tell [{}] from
    [{'mode': 'normal'}]. *)
Theorem from_dict_reads_recognised_keys (X : Externals) (d d' : dict) :
  ((forall k, In k ["backgroundColor"; "baseLength"; "baseWidth";
                    "borderColor"; "borderWidth"; "path"; "radius";
                    "rearLength"; "topWidth"] ->
              get k PNone d = get k PNone d') ->
   DialOptions_from_dict X d = DialOptions_from_dict X d') /\
  ((forall k, In k ["backgroundColor"; "borderColor"; "borderWidth";
                    "radius"] ->
              get k PNone d = get k PNone d') ->
   PivotOptions_from_dict X d = PivotOptions_from_dict X d') /\
  ((forall k, In k ["style"; "text"] -> get k PNone d = get k PNone d') ->
   Separator_from_dict X d = Separator_from_dict X d') /\
  ((forall k, In k ["buttonSpacing"; "buttonTheme"; "events"; "floating";
                    "format"; "formatter"; "position"; "relativeTo"; "rtl";
                    "separator"; "showFullPath"; "style"; "useHTML";
                    "zIndex"] ->
              get k PNone d = get k PNone d') ->
   BreadcrumbOptions_from_dict X d = BreadcrumbOptions_from_dict X d') /\
  ((forall k, In k ["position"; "relativeTo"; "theme"] ->
              get k PNone d = get k PNone d') ->
   ResetZoomButtonOptions_from_dict X d
   = ResetZoomButtonOptions_from_dict X d') /\
  (get "mode" (PStr "normal") d = get "mode" (PStr "normal") d' /\
   get "pointNavigationEnabledThreshold" (PBool false) d
   = get "pointNavigationEnabledThreshold" (PBool false) d' /\
   get "rememberPointFocus" (PBool false) d
   = get "rememberPointFocus" (PBool false) d' /\
   get "skipNullPoints" (PBool true) d = get "skipNullPoints" (PBool true) d' ->
   SeriesNavigation_from_dict X d = SeriesNavigation_from_dict X d') /\
  ((forall k, In k ["clickButtonAnnouncement"; "dropdownLabel";
                    "maxInputLabel"; "minInputLabel"] ->
              get k PNone d = get k PNone d') ->
   RangeSelectorLanguageOptions_from_dict d
   = RangeSelectorLanguageOptions_from_dict d') /\
  ((forall k, In k ["mapZoomIn"; "mapZoomOut"; "resetZoomButton"] ->
              get k PNone d = get k PNone d') ->
   ZoomLanguageOptions_from_dict d = ZoomLanguageOptions_from_dict d') /\
  ((forall k, In k ["description"; "enabled"] ->
              get k PNone d = get k PNone d') ->
   DataPointAccessibility_from_dict d = DataPointAccessibility_from_dict d') /\
  ((forall k, In k ["hideDuration"; "labelStyle"; "showDuration"; "style"] ->
              get k PNone d = get k PNone d') ->
   Loading_from_dict X d = Loading_from_dict X d').
Proof.
  repeat match goal with |- _ /\ _ => split end; intros H.
  - unfold DialOptions_from_dict. agree_under_get H.
  - unfold PivotOptions_from_dict. agree_under_get H.
  - unfold Separator_from_dict. agree_under_get H.
  - unfold BreadcrumbOptions_from_dict. agree_under_get H.
  - unfold ResetZoomButtonOptions_from_dict. agree_under_get H.
  - unfold SeriesNavigation_from_dict. agree_under_get H.
  - unfold RangeSelectorLanguageOptions_from_dict,
      RangeSelectorLanguageOptions_keys. agree_under_get H.
  - unfold ZoomLanguageOptions_from_dict, ZoomLanguageOptions_keys.
    agree_under_get H.
  - unfold DataPointAccessibility_from_dict, DataPointAccessibility_keys.
    agree_under_get H.
  - unfold Loading_from_dict, Loading_keys. agree_under_get H.
Qed.

(** [SeriesNavigation.from_dict] on [{}] and on
    [{'mode': 'normal', 'chart': 1}]: the key that is absent from the first
    holds its default in the second, and [chart] is not a key of the
    class. *)
Lemma from_dict_reads_recognised_keys_witness :
  SeriesNavigation_from_dict reference []
  = SeriesNavigation_from_dict reference
      [("mode", PStr "normal"); ("chart", PInt 1)].
Proof.
  apply (from_dict_reads_recognised_keys reference
           [] [("mode", PStr "normal"); ("chart", PInt 1)]).
  repeat split.
Defined.

Lemma remove_keys_subset (k k' : string) (d : dict) :
  In k (map fst (remove k' d)) -> In k (map fst d).
Proof.
  induction d as [|[k0 v] d IH]; simpl; [auto|].
  destruct (String.eqb k0 k'); simpl; intuition.
Qed.

Lemma remove_NoDup (k : string) (d : dict) :
  NoDup (map fst d) -> NoDup (map fst (remove k d)).
Proof.
  induction d as [|[k0 v] d IH]; simpl; intros H; [constructor|].
  inversion H as [|? ? Hnotin Hrest]. subst.
  destruct (String.eqb k0 k); simpl; [exact Hrest|].
  constructor; [|now apply IH].
  intros Hin. apply Hnotin. eapply remove_keys_subset; eauto.
Qed.

Lemma lookup_remove_same (k : string) (d : dict) :
  NoDup (map fst d) -> lookup k (remove k d) = None.
Proof.
  induction d as [|[k0 v] d IH]; simpl; intros H; [reflexivity|].
  inversion H as [|? ? Hnotin Hrest]. subst.
  destruct (String.eqb k0 k) eqn:E.
  - apply String.eqb_eq in E. subst k0. now apply lookup_absent.
  - simpl. rewrite E. now apply IH.
Qed.

Lemma pop_NoDup key default (d : dict) :
  NoDup (map fst d) -> NoDup (map fst (snd (pop key default d))).
Proof.
  intros H. unfold pop. destruct (lookup key d); simpl; [|exact H].
  now apply remove_NoDup.
Qed.

Lemma pop_rest_same key default (d : dict) :
  NoDup (map fst d) -> lookup key (snd (pop key default d)) = None.
Proof.
  intros H. unfold pop. destruct (lookup key d) eqn:E; simpl; [|exact E].
  now apply lookup_remove_same.
Qed.

Lemma pop_all_keeps_absent table (d : dict) (k : string) :
  lookup k d = None -> lookup k (snd (pop_all table d)) = None.
Proof.
  revert d. induction table as [|[[name key] default] rest IH];
    intros d H; cbn [pop_all]; [exact H|].
  destruct (pop key default d) as [v d1] eqn:P.
  pose proof (pop_other k key default d d1 v H P) as H1.
  specialize (IH d1 H1). destruct (pop_all rest d1) as [kwargs d2].
  exact IH.
Qed.

(** What [from_dict] leaves of the dictionary it was given: the recognised
    keys are gone, the others are as they were. *)
Lemma pop_all_snd table (d : dict) :
  NoDup (map fst d) ->
  forall k,
    (In k (external_keys table) -> lookup k (snd (pop_all table d)) = None) /\
    (~ In k (external_keys table) ->
     lookup k (snd (pop_all table d)) = lookup k d).
Proof.
  revert d. induction table as [|[[name key] default] rest IH];
    intros d Hnd k; cbn [pop_all external_keys map fst snd].
  - split; [intros [] | reflexivity].
  - pose proof (pop_NoDup key default d Hnd) as Hnd1.
    pose proof (pop_rest_same key default d Hnd) as Hsame.
    pose proof (fun k => pop_rest_neq key default d k) as Hneq.
    destruct (pop key default d) as [v d1]. cbn [snd] in *.
    pose proof (IH d1 Hnd1 k) as [IHin IHout].
    pose proof (pop_all_keeps_absent rest d1 key Hsame) as Hkeep.
    destruct (pop_all rest d1) as [kwargs d2]. cbn [snd] in *.
    split.
    + intros [<- | Hin]; [exact Hkeep | now apply IHin].
    + intros Hout. rewrite IHout by (intros Hin; apply Hout; now right).
      apply Hneq. intros ->. apply Hout. now left.
Qed.

Lemma remove_absent (k : string) (d : dict) :
  lookup k d = None -> remove k d = d.
Proof.
  induction d as [|[k' v] d IH]; simpl; [reflexivity|].
  destruct (String.eqb k' k); [discriminate|].
  intros H. now rewrite IH.
Qed.

(** Nothing is taken out of a dictionary that holds none of the keys. *)
Lemma pop_all_nothing table (d : dict) :
  (forall k, In k (external_keys table) -> lookup k d = None) ->
  snd (pop_all table d) = d.
Proof.
  induction table as [|[[name key] default] rest IH];
    cbn [pop_all external_keys map fst snd]; intros H; [reflexivity|].
  unfold pop. rewrite (H key) by now left.
  specialize (IH (fun k Hin => H k (or_intror Hin))).
  destruct (pop_all rest d) as [kwargs d']. cbn [snd] in *. exact IH.
Qed.

Lemma consumes_pop_all table (construct : dict -> result pyval) (d : dict) :
  NoDup (external_keys table) ->
  NoDup (map fst d) ->
  consumes table
    (fun as_dict => (snd (pop_all table as_dict),
                     construct (fst (pop_all table as_dict))))
    (fun as_dict => construct (fst (pop_all table as_dict)))
    d.
Proof.
  intros Ht Hd. unfold consumes. cbn [fst snd].
  assert (Hgone : forall k, In k (external_keys table) ->
                            lookup k (snd (pop_all table d)) = None)
    by (intros k; apply (pop_all_snd table d Hd k)).
  split; [reflexivity|]. split; [exact Hgone|]. split.
  - intros k. apply (pop_all_snd table d Hd k).
  - split.
    + f_equal. apply pop_all_agree; [exact Ht|].
      intros k Hin. now rewrite Hgone.
    + now apply pop_all_nothing.
Qed.

Ltac consumes_by_pop_all table construct d Hd :=
  let H := fresh "H" in
  pose proof (consumes_pop_all table construct d ltac:(distinct_keys) Hd)
    as H;
  unfold consumes in *; cbn [fst snd] in H;
  destruct (pop_all table d) as [? ?] eqn:?;
  cbn [fst snd] in *;
  repeat match goal with
         | |- context [let '(_, _) := pop_all table ?x in _] =>
             destruct (pop_all table x) as [? ?]
         end;
  exact H.

(** [from_dict] takes the keys it recognises out of the dictionary of the
    caller.  On a dictionary (its keys are distinct), the call leaves none
    of them and every other key as it was, whether it returns a node or
    raises; so a second conversion of the same dictionary gives what
    [from_dict] gives on the empty dictionary, and takes nothing more
    out. *)
Theorem from_dict_consumes_recognised_keys (X : Externals) (d : dict) :
  NoDup (map fst d) ->
  consumes RangeSelectorLanguageOptions_keys
    RangeSelectorLanguageOptions_from_dict_call
    RangeSelectorLanguageOptions_from_dict d /\
  consumes ZoomLanguageOptions_keys
    ZoomLanguageOptions_from_dict_call ZoomLanguageOptions_from_dict d /\
  consumes DataPointAccessibility_keys
    DataPointAccessibility_from_dict_call DataPointAccessibility_from_dict
    d /\
  consumes Loading_keys (Loading_from_dict_call X) (Loading_from_dict X) d.
Proof.
  intros Hd. split; [|split; [|split]].
  - unfold RangeSelectorLanguageOptions_from_dict_call,
      RangeSelectorLanguageOptions_from_dict.
    consumes_by_pop_all RangeSelectorLanguageOptions_keys
      (new "RangeSelectorLanguageOptions" RangeSelectorLanguageOptions_init)
      d Hd.
  - unfold ZoomLanguageOptions_from_dict_call, ZoomLanguageOptions_from_dict.
    consumes_by_pop_all ZoomLanguageOptions_keys
      (new "ZoomLanguageOptions" ZoomLanguageOptions_init) d Hd.
  - unfold DataPointAccessibility_from_dict_call,
      DataPointAccessibility_from_dict.
    consumes_by_pop_all DataPointAccessibility_keys
      (new "DataPointAccessibility" DataPointAccessibility_init) d Hd.
  - unfold Loading_from_dict_call, Loading_from_dict.
    consumes_by_pop_all Loading_keys (new "Loading" (Loading_init X)) d Hd.
Qed.

(** [Loading.from_dict] on [{'hideDuration': 100, 'chart': 1}]: the call
    leaves [{'chart': 1}], and a second conversion gives the node without a
    duration. *)
Lemma from_dict_consumes_recognised_keys_witness :
  NoDup (map fst [("hideDuration", PInt 100); ("chart", PInt 1)]) /\
  fst (Loading_from_dict_call reference
         [("hideDuration", PInt 100); ("chart", PInt 1)])
  = [("chart", PInt 1)] /\
  consumes Loading_keys (Loading_from_dict_call reference)
    (Loading_from_dict reference)
    [("hideDuration", PInt 100); ("chart", PInt 1)].
Proof.
  assert (Hnd : NoDup (map fst [("hideDuration", PInt 100);
                                ("chart", PInt 1)])).
  { repeat (constructor; [simpl; intuition discriminate|]). constructor. }
  split; [exact Hnd|]. split; [reflexivity|].
  exact (proj2 (proj2 (proj2
           (from_dict_consumes_recognised_keys reference _ Hnd)))).
Defined.

(** ** Constructors that need an argument *)

Lemma raises_bind_r {A B} (m : M A) (k : A -> M B) :
  (forall a, raises (k a)) -> raises (bind m k).
Proof.
  intros H self. unfold bind. destruct (m self) as [s1 [a|e]].
  - apply H.
  - eauto.
Qed.

Lemma new_raises cls init kwargs :
  raises (init kwargs) -> exists e, new cls init kwargs = Raise e.
Proof.
  intros H. unfold new. destruct (H []) as (s & e & ->). eauto.
Qed.

Lemma get_after_pop k key default (d : dict) dflt :
  k <> key -> get k dflt (snd (pop key default d)) = get k dflt d.
Proof.
  intros H. unfold get. now rewrite pop_rest_neq.
Qed.

(** Steps through an [__init__]: past the assignments and the setters that
    come before the one of interest, keeping track of what [kwargs] holds
    under [k]. *)
Ltac init_walk k Hg :=
  repeat first
    [ match goal with
      | |- raises (bind _ _) => apply raises_bind_r; intros _
      end
    | match goal with
      | |- raises (let '(_, _) := pop k ?dflt ?d in _) => fail 1
      | |- raises (let '(_, _) := pop ?key ?dflt ?d in _) =>
          let H := fresh "Hpop" in
          pose proof (get_after_pop k key dflt d PNone
                        ltac:(discriminate)) as H;
          destruct (pop key dflt d) as [? ?]; cbn [snd] in H;
          rewrite <- H in Hg; clear H
      end ].

Lemma DialOptions_init_raises (X : Externals) kwargs :
  get "top_width" PNone kwargs = PNone ->
  raises (DialOptions_init X kwargs).
Proof.
  intros Hg. unfold DialOptions_init. init_walk "top_width" Hg.
  match goal with
  | |- raises (let '(_, _) := pop _ _ ?d in _) =>
      pose proof (pop_value "top_width" PNone d) as Hv;
      destruct (pop "top_width" PNone d) as [v rest]
  end.
  cbn [fst] in Hv. rewrite Hg in Hv. subst v.
  intros self. eexists. eexists. reflexivity.
Qed.

(** [DialOptions] cannot be built without [top_width]: when the keyword is
    absent or [None], the constructor raises, and so does [from_dict] on a
    dictionary where [topWidth] is absent or [None], whatever else is
    given. *)
Theorem DialOptions_requires_top_width (X : Externals) :
  (forall kwargs,
     get "top_width" PNone kwargs = PNone ->
     exists e, new "DialOptions" (DialOptions_init X) kwargs = Raise e) /\
  (forall as_dict,
     get "topWidth" PNone as_dict = PNone ->
     exists e, DialOptions_from_dict X as_dict = Raise e).
Proof.
  split.
  - intros kwargs Hg. apply new_raises. now apply DialOptions_init_raises.
  - intros as_dict Hg. unfold DialOptions_from_dict. cbv zeta.
    apply new_raises. apply DialOptions_init_raises.
    rewrite pop_all_fst by distinct_keys. exact Hg.
Qed.

Lemma Separator_init_run (X : Externals) kwargs :
  Separator_init X kwargs []
  = (Separator_style_set X (get "style" PNone kwargs) ;;
     Separator_text_set (get "text" PNone kwargs))
      [("_style", PNone); ("_text", PNone)].
Proof.
  unfold Separator_init. repeat rewrite bind_setattr. cbv beta.
  pose proof (pop_value "style" PNone kwargs) as Hs.
  pose proof (get_after_pop "text" "style" PNone kwargs PNone
                ltac:(discriminate)) as Ht.
  destruct (pop "style" PNone kwargs) as [v1 k1]. cbn [fst snd] in Hs, Ht.
  pose proof (pop_value "text" PNone k1) as Hv.
  destruct (pop "text" PNone k1) as [v2 k2]. cbn [fst] in Hv.
  subst v1 v2. rewrite Ht. reflexivity.
Qed.

(** [Separator] needs a style.  When the [style] keyword is absent or
    falsy ([None], an empty dictionary, an empty string), the constructor
    raises [EmptyValueError] whatever [text] is; when it is a dictionary
    that is not empty and [text] is absent or a string, the node is built
    with that dictionary and that text ([None] for an absent or empty
    text). *)
Theorem Separator_requires_style (X : Externals) (kwargs : dict) :
  (truthy (get "style" PNone kwargs) = false ->
   new "Separator" (Separator_init X) kwargs = Raise EmptyValueError) /\
  (forall entry entries text,
     get "style" PNone kwargs = PDict (entry :: entries) ->
     validators_string (get "text" PNone kwargs) true = Ok text ->
     new "Separator" (Separator_init X) kwargs
     = Ok (PObj "Separator"
             [("_style", PDict (entry :: entries)); ("_text", text)])).
Proof.
  unfold new. rewrite Separator_init_run. split.
  - intros Hs. unfold bind, Separator_style_set, lift, validators_dict.
    rewrite Hs. reflexivity.
  - intros entry entries text Hs Ht.
    unfold bind, Separator_style_set, Separator_text_set, lift.
    rewrite Hs, Ht. reflexivity.
Qed.

(** On [Separator()], and on [Separator(style = {'color': '#333'},
    text = '/')]. *)
Lemma Separator_requires_style_witness :
  new "Separator" (Separator_init reference) [] = Raise EmptyValueError /\
  new "Separator" (Separator_init reference)
      [("style", PDict [("color", PStr "#333")]); ("text", PStr "/")]
  = Ok (PObj "Separator"
          [("_style", PDict [("color", PStr "#333")]); ("_text", PStr "/")]).
Proof.
  split.
  - exact (proj1 (Separator_requires_style reference []) eq_refl).
  - exact (proj2 (Separator_requires_style reference
                    [("style", PDict [("color", PStr "#333")]);
                     ("text", PStr "/")])
             _ _ _ eq_refl eq_refl).
Defined.

(** On [DialOptions(radius = '80%')] and on
    [DialOptions.from_dict({'radius': '80%'})]. *)
Lemma DialOptions_requires_top_width_witness :
  (exists e, new "DialOptions" (DialOptions_init reference)
                 [("radius", PStr "80%")] = Raise e) /\
  (exists e, DialOptions_from_dict reference [("radius", PStr "80%")]
             = Raise e).
Proof.
  split.
  - exact (proj1 (DialOptions_requires_top_width reference)
             [("radius", PStr "80%")] eq_refl).
  - exact (proj2 (DialOptions_requires_top_width reference)
             [("radius", PStr "80%")] eq_refl).
Defined.

(** ** The invariant of [SeriesNavigation] *)

Lemma preserves_refl I self : preserves I self self.
Proof. intros H. exact H. Qed.

Lemma preserves_trans I a b c :
  preserves I a b -> preserves I b c -> preserves I a c.
Proof. unfold preserves. auto. Qed.

Lemma validators_integer_coerced (X : Externals) value v :
  validators_integer X value false true None = Ok v -> exists z, v = PInt z.
Proof.
  unfold validators_integer, rbind.
  destruct (validators_numeric X value false None) as [w|] eqn:E;
    [|discriminate].
  apply validators_numeric_ok in E.
  destruct E as [(_ & E) | E]; [discriminate|].
  destruct w; try discriminate E.
  - intros H. inversion H. eauto.
  - intros H. inversion H. eauto.
  - destruct (Q_is_integer q); intros H; inversion H; eauto.
Qed.

Lemma SeriesNavigation_valid_mode self m :
  SeriesNavigation_valid self -> m = "normal" \/ m = "serialize" ->
  SeriesNavigation_valid (store "_mode" (PStr m) self).
Proof.
  intros (_ & H2 & H3 & H4) Hm. unfold SeriesNavigation_valid.
  rewrite lookup_store_same.
  rewrite !lookup_store_other by discriminate.
  repeat split; eauto.
Qed.

Lemma SeriesNavigation_valid_threshold self t :
  SeriesNavigation_valid self -> t = PBool false \/ (exists z, t = PInt z) ->
  SeriesNavigation_valid
    (store "_point_navigation_enabled_threshold" t self).
Proof.
  intros (H1 & _ & H3 & H4) Ht. unfold SeriesNavigation_valid.
  rewrite lookup_store_same.
  rewrite !lookup_store_other by discriminate.
  repeat split; eauto.
Qed.

Lemma SeriesNavigation_valid_remember self b :
  SeriesNavigation_valid self ->
  SeriesNavigation_valid (store "_remember_point_focus" (PBool b) self).
Proof.
  intros (H1 & H2 & _ & H4). unfold SeriesNavigation_valid.
  rewrite lookup_store_same.
  rewrite !lookup_store_other by discriminate.
  repeat split; eauto.
Qed.

Lemma SeriesNavigation_valid_skip self b :
  SeriesNavigation_valid self ->
  SeriesNavigation_valid (store "_skip_null_points" (PBool b) self).
Proof.
  intros (H1 & H2 & H3 & _). unfold SeriesNavigation_valid.
  rewrite lookup_store_same.
  rewrite !lookup_store_other by discriminate.
  repeat split; eauto.
Qed.

Lemma SeriesNavigation_setter_valid (X : Externals) f value :
  frames (preserves SeriesNavigation_valid) (SeriesNavigation_setter X f value).
Proof.
  intros self self' r H Hv. destruct f; cbn [SeriesNavigation_setter] in H.
  - destruct (mode_contract value self) as [(e & He) | (v & Hc & Hs)];
      rewrite H in *.
    + inversion He. subst. exact Hv.
    + inversion Hs. subst. destruct v; try discriminate Hc.
      apply SeriesNavigation_valid_mode; [exact Hv|].
      apply in_list_cases in Hc. simpl in Hc. intuition.
  - unfold SeriesNavigation_point_navigation_enabled_threshold_set in H.
    assert (G : forall w,
               (v <- lift (validators_integer X w false true None) ;;
                setattr "_point_navigation_enabled_threshold" v) self
               = (self', r) ->
               SeriesNavigation_valid self').
    { intros w. unfold bind, lift, setattr.
      destruct (validators_integer X w false true None) as [v|e] eqn:E;
        intros G; inversion G; subst; [|exact Hv].
      apply SeriesNavigation_valid_threshold; [exact Hv|].
      right. eapply validators_integer_coerced; eauto. }
    destruct value; try (eapply G; exact H).
    destruct b; [eapply G; exact H|].
    inversion H. subst.
    apply SeriesNavigation_valid_threshold; [exact Hv | now left].
  - inversion H. subst. now apply SeriesNavigation_valid_remember.
  - inversion H. subst. now apply SeriesNavigation_valid_skip.
Qed.

Lemma SeriesNavigation_init_valid (X : Externals) kwargs self r :
  SeriesNavigation_init X kwargs [] = (self, r) ->
  SeriesNavigation_valid self.
Proof.
  intros H. unfold SeriesNavigation_init in H.
  repeat rewrite bind_setattr in H. cbv beta in H.
  destruct (pop "mode" (PStr "normal") kwargs) as [v1 k1].
  destruct (pop "point_navigation_enabled_threshold" (PBool false) k1)
    as [v2 k2].
  destruct (pop "remember_point_focus" (PBool false) k2) as [v3 k3].
  destruct (pop "skip_null_points" (PBool true) k3) as [v4 k4].
  match type of H with
  | ?m ?s = _ =>
      assert (Hm : frames (preserves SeriesNavigation_valid) m)
  end.
  { repeat (apply (frames_bind _ (preserves_trans SeriesNavigation_valid));
            [|intros _]).
    - apply (SeriesNavigation_setter_valid X sn_mode).
    - apply (SeriesNavigation_setter_valid X
               sn_point_navigation_enabled_threshold).
    - apply (SeriesNavigation_setter_valid X sn_remember_point_focus).
    - apply (SeriesNavigation_setter_valid X sn_skip_null_points). }
  apply (Hm _ _ _ H). unfold SeriesNavigation_valid. simpl.
  repeat split; eauto.
Qed.

(** Whatever is passed to the constructor or to [from_dict], and whatever
    is assigned afterwards, a [SeriesNavigation] holds a mode that is
    ['normal'] or ['serialize'], a threshold that is [False] or an integer,
    and two booleans. *)
Theorem SeriesNavigation_fields_stay_valid (X : Externals) (self : attrs) :
  SeriesNavigation_instance X self -> SeriesNavigation_valid self.
Proof.
  induction 1 as [kwargs self H | f value self self' r _ IH H].
  - eapply SeriesNavigation_init_valid; eauto.
  - exact (SeriesNavigation_setter_valid X f value _ _ _ H IH).
Qed.

(** On [SeriesNavigation(mode = 'SERIALIZE',
    point_navigation_enabled_threshold = '20')]. *)
Lemma SeriesNavigation_fields_stay_valid_witness :
  SeriesNavigation_valid
    (fst (SeriesNavigation_init reference
            [("mode", PStr "SERIALIZE");
             ("point_navigation_enabled_threshold", PStr "20")] [])).
Proof.
  apply (SeriesNavigation_fields_stay_valid reference).
  apply SeriesNavigation_constructed
    with (kwargs := [("mode", PStr "SERIALIZE");
                     ("point_navigation_enabled_threshold", PStr "20")]).
  reflexivity.
Defined.

(** ** [BreadcrumbOptions._to_untrimmed_dict] *)

Lemma read_all_getattr_values (table : list (string * string)) self :
  (forall key name, In (key, name) table -> lookup name self <> None) ->
  read_all (map (fun kn => (fst kn, getattr (snd kn))) table) self
  = (self, Ok (map (fun kn => (fst kn, get (snd kn) PNone self)) table)).
Proof.
  induction table as [|[key name] table IH]; cbn [map read_all fst snd];
    intros Hdef; [reflexivity|].
  unfold bind.
  destruct (getattr_cases name self) as [(v & Hv & ->) | (Hn & _)].
  - rewrite IH by (intros; eapply Hdef; simpl; eauto).
    unfold get. rewrite Hv. reflexivity.
  - exfalso. apply (Hdef key name); simpl; auto.
Qed.

Lemma BreadcrumbOptions_setter_grows (X : Externals) f value :
  frames grows (BreadcrumbOptions_setter X f value).
Proof.
  destruct f; simpl; unfold_BreadcrumbOptions_setters; grows_walk.
Qed.

Lemma BreadcrumbOptions_setter_keeps_button_theme (X : Externals) f value :
  frames (keeps "_button_theme") (BreadcrumbOptions_setter X f value).
Proof.
  destruct f; simpl; unfold_BreadcrumbOptions_setters;
    keeps_walk "_button_theme".
Qed.

Lemma BreadcrumbOptions_init_attributes (X : Externals) kwargs self :
  BreadcrumbOptions_init X kwargs [] = (self, Ok tt) ->
  (forall key name, In (key, name) BreadcrumbOptions_backing ->
                    lookup name self <> None) /\
  lookup "_button_theme" self = Some PNone.
Proof.
  intros H. unfold BreadcrumbOptions_init in H.
  repeat rewrite bind_setattr in H. cbv beta in H.
  repeat match type of H with
         | context [pop ?k PNone ?d] => destruct (pop k PNone d) as [? ?]
         end.
  match type of H with
  | ?m ?s = _ =>
      assert (Hg : frames grows m)
        by (unfold_BreadcrumbOptions_setters; grows_walk);
      assert (Hk : frames (keeps "_button_theme") m)
        by (unfold_BreadcrumbOptions_setters; keeps_walk "_button_theme")
  end.
  pose proof (Hg _ _ _ H) as G. pose proof (Hk _ _ _ H) as K.
  split; [|rewrite K; reflexivity].
  assert (Htheme : lookup "_theme" self <> None).
  { unfold bind at 1 in H.
    match type of H with
    | context [BreadcrumbOptions_button_spacing_set X ?v ?s] =>
        destruct (BreadcrumbOptions_button_spacing_set X v s)
          as [s1 [[]|e1]]; [|discriminate]
    end.
    unfold bind at 1 in H.
    match type of H with
    | context [BreadcrumbOptions_button_theme_set X ?v ?s] =>
        destruct (BreadcrumbOptions_button_theme_set X v s)
          as [s2 [[]|e2]] eqn:E2; [|discriminate]
    end.
    unfold BreadcrumbOptions_button_theme_set, bind, lift, setattr in E2.
    match type of E2 with
    | context [validators_dict X ?v true] =>
        destruct (validators_dict X v true) as [w|]; [|discriminate]
    end.
    inversion E2. subst s2.
    match type of H with
    | ?m ?s = _ =>
        assert (Hrest : frames grows m)
          by (unfold_BreadcrumbOptions_setters; grows_walk)
    end.
    apply (Hrest _ _ _ H). rewrite lookup_store_same. discriminate. }
  intros key name Hin. simpl in Hin.
  repeat (destruct Hin as [Hin | Hin];
          [inversion Hin; subst;
           first [exact Htheme | apply G; discriminate]|]).
  destruct Hin.
Qed.

Lemma BreadcrumbOptions_instance_attributes (X : Externals) self :
  BreadcrumbOptions_instance X self ->
  (forall key name, In (key, name) BreadcrumbOptions_backing ->
                    lookup name self <> None) /\
  lookup "_button_theme" self = Some PNone.
Proof.
  induction 1 as [kwargs self H | f value self self' r _ IH H].
  - eapply BreadcrumbOptions_init_attributes; eauto.
  - destruct IH as (Hdef & Hbt). split.
    + intros key name Hin.
      apply (BreadcrumbOptions_setter_grows X f value _ _ _ H).
      eapply Hdef; eauto.
    + rewrite (BreadcrumbOptions_setter_keeps_button_theme X f value _ _ _ H).
      exact Hbt.
Qed.

Lemma BreadcrumbOptions_from_dict_instance (X : Externals) as_dict cls self :
  BreadcrumbOptions_from_dict X as_dict = Ok (PObj cls self) ->
  BreadcrumbOptions_instance X self.
Proof.
  unfold BreadcrumbOptions_from_dict, new. cbv zeta.
  match goal with
  | |- context [BreadcrumbOptions_init X ?kw []] =>
      destruct (BreadcrumbOptions_init X kw []) as [s [[]|e]] eqn:E
  end; [|discriminate].
  intros H. inversion H. subst.
  eapply Breadcrumb_constructed; eauto.
Qed.

(** A [BreadcrumbOptions] built by [from_dict] is an instance, and on every
    instance [_to_untrimmed_dict] returns, without changing the instance, a
    dictionary with the fourteen external keys in the order of the source,
    in which [buttonTheme] is what [_theme] holds, and [zIndex] is [None]:
    a [zIndex] given to the constructor or to [from_dict], or assigned
    later, never reaches the output.  The attribute [_button_theme] that
    the constructor initialises is never written again. *)
Theorem BreadcrumbOptions_untrimmed_dict (X : Externals) :
  (forall as_dict cls self,
     BreadcrumbOptions_from_dict X as_dict = Ok (PObj cls self) ->
     BreadcrumbOptions_instance X self) /\
  (forall self,
     BreadcrumbOptions_instance X self ->
     exists untrimmed,
       BreadcrumbOptions_to_untrimmed_dict self = (self, Ok untrimmed) /\
       map fst untrimmed = map fst BreadcrumbOptions_backing /\
       lookup "zIndex" untrimmed = Some PNone /\
       lookup "buttonTheme" untrimmed = lookup "_theme" self /\
       lookup "_button_theme" self = Some PNone).
Proof.
  split; [apply BreadcrumbOptions_from_dict_instance|].
  intros self Hi.
  pose proof (BreadcrumbOptions_instance_z_index X self Hi) as Hz.
  destruct (BreadcrumbOptions_instance_attributes X self Hi) as (Hdef & Hbt).
  pose proof (read_all_getattr_values BreadcrumbOptions_backing self Hdef)
    as Hr.
  eexists. split; [exact Hr|].
  split; [rewrite map_map; reflexivity|].
  split; [|split; [|exact Hbt]].
  - cbn [map BreadcrumbOptions_backing fst snd lookup String.eqb Ascii.eqb
           Bool.eqb].
    unfold get. now rewrite Hz.
  - cbn [map BreadcrumbOptions_backing fst snd lookup String.eqb Ascii.eqb
           Bool.eqb].
    unfold get. destruct (lookup "_theme" self) eqn:E; [reflexivity|].
    exfalso. apply (Hdef "buttonTheme" "_theme"); [simpl; auto | exact E].
Qed.

(** On [BreadcrumbOptions.from_dict({'zIndex': 7, 'rtl': True})]. *)
Lemma BreadcrumbOptions_untrimmed_dict_witness :
  exists self untrimmed,
    BreadcrumbOptions_from_dict reference
      [("zIndex", PInt 7); ("rtl", PBool true)]
    = Ok (PObj "BreadcrumbOptions" self) /\
    BreadcrumbOptions_to_untrimmed_dict self = (self, Ok untrimmed) /\
    lookup "zIndex" untrimmed = Some PNone.
Proof.
  destruct (BreadcrumbOptions_from_dict reference
              [("zIndex", PInt 7); ("rtl", PBool true)])
    as [[| | | | | | |cls self]|e] eqn:E;
    try (vm_compute in E; discriminate).
  assert (Hc : cls = "BreadcrumbOptions")
    by (vm_compute in E; inversion E; reflexivity).
  subst cls.
  destruct (BreadcrumbOptions_untrimmed_dict reference) as (Hfrom & Hshape).
  destruct (Hshape self (Hfrom _ _ _ E)) as (u & Hu & _ & Hz & _).
  exists self, u. split; [reflexivity|]. split; [exact Hu | exact Hz].
Defined.

(** ** More of [VectorData.from_setter] *)

Lemma new_instance cls init kwargs node :
  new cls init kwargs = Ok node -> is_instance node cls = true.
Proof.
  unfold new. destruct (init kwargs []) as [self [[]|e]]; [|discriminate].
  intros H. inversion H. simpl. apply String.eqb_refl.
Qed.

Lemma VectorData_coerce_instance (X : Externals) item node :
  VectorData_coerce X item = Ok node -> is_VectorData node.
Proof.
  unfold VectorData_coerce, is_VectorData, checkers_is_type.
  destruct (is_instance item "VectorData") eqn:I.
  - intros H. inversion H. subst. exact I.
  - destruct (checkers_is_dict X item).
    + unfold VectorData_from_dict. destruct item; try discriminate.
      apply new_instance.
    + destruct (is_None item || is_instance item "EnforcedNullType").
      * apply new_instance.
      * unfold rbind. destruct (py_len item) as [n|]; [|discriminate].
        destruct (n =? 4)%nat.
        { destruct (py_index item 0); [|discriminate].
          destruct (py_index item 1); [|discriminate].
          destruct (py_index item 2); [|discriminate].
          destruct (py_index item 3); [|discriminate].
          apply new_instance. }
        destruct (n =? 3)%nat; [|discriminate].
        destruct (py_index item 0); [|discriminate].
        destruct (py_index item 1); [|discriminate].
        destruct (py_index item 2); [|discriminate].
        apply new_instance.
Qed.

Lemma VectorData_coerce_node (X : Externals) node :
  is_VectorData node -> VectorData_coerce X node = Ok node.
Proof.
  unfold VectorData_coerce, is_VectorData, checkers_is_type.
  intros ->. reflexivity.
Qed.

Lemma VectorData_collect_instances (X : Externals) items nodes :
  VectorData_collect X items = Ok nodes -> Forall is_VectorData nodes.
Proof.
  revert nodes. induction items as [|item items IH]; intros nodes H.
  - inversion H. constructor.
  - cbn [VectorData_collect] in H. unfold rbind in H.
    destruct (VectorData_coerce X item) as [node|] eqn:E; [|discriminate].
    destruct (VectorData_collect X items) as [rest|]; [|discriminate].
    inversion H. subst. constructor; [|now apply IH].
    eapply VectorData_coerce_instance; eauto.
Qed.

Lemma VectorData_collect_nodes (X : Externals) nodes :
  Forall is_VectorData nodes -> VectorData_collect X nodes = Ok nodes.
Proof.
  induction 1 as [|node nodes Hn _ IH]; [reflexivity|].
  cbn [VectorData_collect]. unfold rbind.
  rewrite (VectorData_coerce_node X node Hn), IH. reflexivity.
Qed.

Lemma VectorData_from_setter_instances (X : Externals) value nodes :
  VectorData_from_setter X value = Ok nodes -> Forall is_VectorData nodes.
Proof.
  unfold VectorData_from_setter.
  destruct (negb (truthy value)).
  - intros H. inversion H. constructor.
  - apply VectorData_collect_instances.
Qed.

(** Whatever [VectorData.from_setter] is given, the list it returns holds
    [VectorData] nodes only, and handing that list back to [from_setter]
    returns it unchanged; a single node is returned in a list of its
    own. *)
Theorem VectorData_from_setter_idempotent (X : Externals) :
  (forall value nodes,
     VectorData_from_setter X value = Ok nodes ->
     Forall is_VectorData nodes /\
     VectorData_from_setter X (PList nodes) = Ok nodes) /\
  (forall attributes,
     VectorData_from_setter X (PObj "VectorData" attributes)
     = Ok [PObj "VectorData" attributes]).
Proof.
  split; [|reflexivity].
  intros value nodes H.
  pose proof (VectorData_from_setter_instances X value nodes H) as Hn.
  split; [exact Hn|].
  destruct nodes as [|node nodes]; [reflexivity|].
  rewrite VectorData_from_setter_list.
  now apply VectorData_collect_nodes.
Qed.

(** On [[[1, 2, 3, 4], None]]. *)
Lemma VectorData_from_setter_idempotent_witness :
  exists nodes,
    VectorData_from_setter reference
      (PList [PList [PInt 1; PInt 2; PInt 3; PInt 4]; PNone]) = Ok nodes /\
    length nodes = 2%nat /\
    VectorData_from_setter reference (PList nodes) = Ok nodes.
Proof.
  destruct (VectorData_from_setter reference
              (PList [PList [PInt 1; PInt 2; PInt 3; PInt 4]; PNone]))
    as [nodes|e] eqn:E; [|vm_compute in E; discriminate].
  exists nodes. split; [reflexivity|]. split.
  - vm_compute in E. inversion E. reflexivity.
  - exact (proj2 (proj1 (VectorData_from_setter_idempotent reference)
                    _ nodes E)).
Defined.

Lemma VectorData_collect_raises (X : Externals) items e :
  VectorData_collect X items = Raise e <->
  exists before item after,
    items = (before ++ item :: after)%list /\
    Forall (fun it => exists node, VectorData_coerce X it = Ok node) before /\
    VectorData_coerce X item = Raise e.
Proof.
  split.
  - induction items as [|first rest IH]; [discriminate|].
    cbn [VectorData_collect]. unfold rbind.
    destruct (VectorData_coerce X first) as [node|e1] eqn:E1.
    + destruct (VectorData_collect X rest) as [nodes|e2] eqn:E2;
        [discriminate|].
      intros H. inversion H. subst e2.
      destruct (IH eq_refl) as (before & item & after & -> & Hb & Hi).
      exists (first :: before), item, after.
      repeat split; [|exact Hi]. constructor; eauto.
    + intros H. inversion H. subst e1.
      exists [], first, rest. repeat split; [constructor | exact E1].
  - intros (before & item & after & -> & Hb & Hi).
    induction Hb as [|first before (node & Hn) _ IH]; simpl.
    + unfold rbind. now rewrite Hi.
    + unfold rbind in *. rewrite Hn. now rewrite IH.
Qed.

Lemma VectorData_coerce_list (X : Externals) (l : list pyval) :
  length l <> 3%nat -> length l <> 4%nat ->
  VectorData_coerce X (PList l) = Raise (VectorData_not_coercable (PList l)).
Proof.
  intros H3 H4. unfold VectorData_coerce, checkers_is_dict, validators_dict.
  cbn [checkers_is_type is_instance is_None orb py_len rbind].
  assert (D : (if negb (truthy (PList l))
               then Raise EmptyValueError
               else @Raise pyval NotADictError)
              = Raise (if negb (truthy (PList l)) then EmptyValueError
                       else NotADictError))
    by (destruct (negb (truthy (PList l))); reflexivity).
  rewrite D.
  apply Nat.eqb_neq in H3, H4. rewrite H3, H4. reflexivity.
Qed.

(** [VectorData.from_setter] on a list stops at the first item it cannot
    coerce: it raises [e] exactly when some item raises [e] and every item
    before it is coerced.  A list item [[y, length, direction]] is coerced
    as [VectorData(x = None, y = ..., length = ..., direction = ...)], and
    a list item with neither three nor four elements is refused with the
    error that names it. *)
Theorem VectorData_from_setter_stops_at_first_failure (X : Externals) :
  (forall first items e,
     VectorData_from_setter X (PList (first :: items)) = Raise e <->
     exists before item after,
       first :: items = (before ++ item :: after)%list /\
       Forall (fun it => exists node, VectorData_coerce X it = Ok node)
              before /\
       VectorData_coerce X item = Raise e) /\
  (forall y length direction,
     VectorData_coerce X (PList [y; length; direction])
     = new "VectorData" (VectorData_init X)
           [("x", PNone); ("y", y); ("length", length);
            ("direction", direction)]) /\
  (forall l,
     List.length l <> 3%nat -> List.length l <> 4%nat ->
     VectorData_coerce X (PList l)
     = Raise (VectorData_not_coercable (PList l))).
Proof.
  split; [|split].
  - intros first items e. rewrite VectorData_from_setter_list.
    apply VectorData_collect_raises.
  - reflexivity.
  - apply VectorData_coerce_list.
Qed.

(** On [[[1, 2, 3, 4], [1, 2], [5, 6, 7, 8]]]. *)
Lemma VectorData_from_setter_stops_at_first_failure_witness :
  VectorData_from_setter reference
    (PList [PList [PInt 1; PInt 2; PInt 3; PInt 4];
            PList [PInt 1; PInt 2];
            PList [PInt 5; PInt 6; PInt 7; PInt 8]])
  = Raise (VectorData_not_coercable (PList [PInt 1; PInt 2])).
Proof.
  destruct (VectorData_from_setter_stops_at_first_failure reference)
    as (Hstop & _ & Harity).
  apply Hstop.
  exists [PList [PInt 1; PInt 2; PInt 3; PInt 4]],
         (PList [PInt 1; PInt 2]),
         [PList [PInt 5; PInt 6; PInt 7; PInt 8]].
  split; [reflexivity|]. split.
  - constructor; [|constructor]. eexists. vm_compute. reflexivity.
  - apply Harity; simpl; discriminate.
Defined.

(** ** [ConnectionData.from_setter] *)

Section ConnectionDataFacts.

Variable X : Externals.
Variable DataBase_init : dict -> M unit.

Lemma ConnectionData_coerce_accepts item node :
  ConnectionData_coerce X DataBase_init item = Ok node ->
  is_instance node "ConnectionData" = true /\
  (is_instance item "ConnectionData" = true \/
   (exists d, item = PDict d) \/
   item = PNone \/
   is_instance item "EnforcedNullType" = true).
Proof.
  unfold ConnectionData_coerce, checkers_is_type.
  destruct (is_instance item "ConnectionData") eqn:I.
  - intros H. inversion H. subst. auto.
  - destruct (checkers_is_dict X item).
    + unfold ConnectionData_from_dict. destruct item; try discriminate.
      intros H. split; [eapply new_instance; eauto | eauto].
    + destruct (is_None item || is_instance item "EnforcedNullType") eqn:N;
        [|discriminate].
      intros H. split; [eapply new_instance; eauto|].
      apply orb_true_iff in N. destruct N as [N | N]; [|auto].
      destruct item; try discriminate. auto.
Qed.

Lemma ConnectionData_collect_nodes nodes :
  Forall (fun n => is_instance n "ConnectionData" = true) nodes ->
  ConnectionData_collect X DataBase_init nodes = Ok nodes.
Proof.
  induction 1 as [|node nodes Hn _ IH]; [reflexivity|].
  cbn [ConnectionData_collect]. unfold rbind, ConnectionData_coerce,
    checkers_is_type.
  rewrite Hn, IH. reflexivity.
Qed.

Lemma ConnectionData_collect_instances items nodes :
  ConnectionData_collect X DataBase_init items = Ok nodes ->
  Forall (fun n => is_instance n "ConnectionData" = true) nodes.
Proof.
  revert nodes. induction items as [|item items IH]; intros nodes H.
  - inversion H. constructor.
  - cbn [ConnectionData_collect] in H. unfold rbind in H.
    destruct (ConnectionData_coerce X DataBase_init item) as [node|] eqn:E;
      [|discriminate].
    destruct (ConnectionData_collect X DataBase_init items) as [rest|];
      [|discriminate].
    inversion H. subst. constructor; [|now apply IH].
    now apply ConnectionData_coerce_accepts in E.
Qed.

(** [ConnectionData.from_setter] has no positional form: an item that is a
    list, a number or a boolean is refused with the error that names it,
    so a list that holds one is refused as a whole; a node is coerced only
    from a [ConnectionData], a dictionary, [None] or the enforced null.
    The list returned holds [ConnectionData] nodes only, and handing it
    back to [from_setter] returns it unchanged. *)
Theorem ConnectionData_from_setter_has_no_positional_form :
  (forall item,
     match item with
     | PList _ | PInt _ | PFloat _ | PBool _ =>
         ConnectionData_coerce X DataBase_init item
         = Raise (ConnectionData_not_coercable item)
     | _ => True
     end) /\
  (forall item node,
     ConnectionData_coerce X DataBase_init item = Ok node ->
     is_instance item "ConnectionData" = true \/
     (exists d, item = PDict d) \/
     item = PNone \/
     is_instance item "EnforcedNullType" = true) /\
  (forall value nodes,
     ConnectionData_from_setter X DataBase_init value = Ok nodes ->
     Forall (fun n => is_instance n "ConnectionData" = true) nodes /\
     ConnectionData_from_setter X DataBase_init (PList nodes) = Ok nodes).
Proof.
  split; [|split].
  - intros item. destruct item; try exact I.
    + destruct b; reflexivity.
    + unfold ConnectionData_coerce, checkers_is_dict, validators_dict.
      cbn [checkers_is_type is_instance is_None orb truthy].
      destruct (negb (negb (z =? 0))); reflexivity.
    + unfold ConnectionData_coerce, checkers_is_dict, validators_dict.
      cbn [checkers_is_type is_instance is_None orb truthy].
      destruct (negb (negb (Qeq_bool q 0))); reflexivity.
    + destruct l; reflexivity.
  - intros item node H. now apply ConnectionData_coerce_accepts in H.
  - intros value nodes H.
    assert (Hn : Forall (fun n => is_instance n "ConnectionData" = true)
                        nodes).
    { unfold ConnectionData_from_setter in H.
      destruct (negb (truthy value)).
      - inversion H. constructor.
      - eapply ConnectionData_collect_instances; eauto. }
    split; [exact Hn|].
    destruct nodes as [|node nodes]; [reflexivity|].
    change (ConnectionData_from_setter X DataBase_init
              (PList (node :: nodes)))
      with (ConnectionData_collect X DataBase_init (node :: nodes)).
    now apply ConnectionData_collect_nodes.
Qed.

End ConnectionDataFacts.

(** On [[None, {'from': 'a', 'to': 'b'}]], with a parent class that has
    nothing to set. *)
Lemma ConnectionData_from_setter_has_no_positional_form_witness :
  exists nodes,
    ConnectionData_from_setter reference (fun _ => ret tt)
      (PList [PNone; PDict [("from", PStr "a"); ("to", PStr "b")]])
    = Ok nodes /\
    ConnectionData_from_setter reference (fun _ => ret tt) (PList nodes)
    = Ok nodes.
Proof.
  destruct (ConnectionData_from_setter reference (fun _ => ret tt)
              (PList [PNone; PDict [("from", PStr "a"); ("to", PStr "b")]]))
    as [nodes|e] eqn:E; [|vm_compute in E; discriminate].
  exists nodes. split; [reflexivity|].
  exact (proj2 (proj2 (proj2
           (ConnectionData_from_setter_has_no_positional_form
              reference (fun _ => ret tt))) _ nodes E)).
Defined.

(** ** What a colour setter stores *)

Lemma instance_is_color v :
  is_instance v "Gradient" || is_instance v "Pattern" = true ->
  is_color v = true.
Proof. destruct v; try discriminate. intros H. exact H. Qed.

Lemma built_is_color cls (f : pyval -> result pyval) value v :
  builds cls f -> f value = Ok v ->
  cls = "Gradient" \/ cls = "Pattern" ->
  is_color v = true /\ is_str v = false.
Proof.
  intros Hb Hf Hc. apply Hb in Hf. split.
  - apply instance_is_color. destruct Hc; subst cls; rewrite Hf;
      auto using orb_true_r.
  - destruct v; try discriminate. reflexivity.
Qed.

Ltac color_built Hb E :=
  let Hc := fresh "Hc" in
  let Hn := fresh "Hn" in
  destruct (built_is_color _ _ _ _ Hb E) as [Hc Hn]; [auto|];
  right; eexists; split; [exact Hc|]; split; [reflexivity|];
  split; [intros; discriminate|];
  intros ? ->; discriminate.

(** Under [builds_colors]: the setter raises and leaves the attribute
    dictionary as it was, or assigns a colour. *)
Lemma color_setter_contract
    (X : Externals) (attribute : string) (value : pyval) (self : attrs) :
  builds_colors X ->
  (exists e, color_setter X attribute value self = (self, Raise e)) \/
  (exists v,
     is_color v = true /\
     color_setter X attribute value self = (store attribute v self, Ok tt) /\
     (truthy value = false -> v = PNone) /\
     (forall s, v = PStr s ->
        value = PStr s /\
        exists e, is_ValueError e = true /\
                  (Gradient_from_json X value = Raise e \/
                   Pattern_from_json X value = Raise e))).
Proof.
  intros (Hgj & Hgd & Hgn & Hpj & Hpd & Hpn). unfold color_setter.
  destruct (truthy value) eqn:T; cbn [negb].
  2: { right. exists PNone. split; [reflexivity|]. split; [reflexivity|].
       split; [reflexivity|]. intros s H. discriminate. }
  destruct (is_instance value "Gradient" || is_instance value "Pattern")
    eqn:I.
  { right. exists value. split; [now apply instance_is_color|].
    split; [reflexivity|]. split; [discriminate|].
    intros s ->. discriminate. }
  destruct ((is_dict_instance value || is_str value)
            && py_in "linearGradient" value) eqn:G.
  { unfold try_except_ValueError, bind, lift.
    destruct (Gradient_from_json X value) as [g|e] eqn:E.
    { color_built Hgj E. }
    destruct (is_ValueError e) eqn:V; [|left; eauto].
    destruct (is_dict_instance value) eqn:D.
    - destruct (Gradient_from_dict X value) as [g|e'] eqn:E';
        [color_built Hgd E' | left; eauto].
    - apply andb_prop in G. destruct G as [G1 G2]. cbn [orb] in G1.
      destruct value; try discriminate.
      unfold validators_string. rewrite T. cbn [negb].
      right. exists (PStr s). split.
      + cbn [is_color]. cbn [py_in] in G2. rewrite G2. reflexivity.
      + split; [reflexivity|]. split; [discriminate|].
        intros s' Hs. inversion Hs. subst s'. split; [reflexivity|].
        exists e. auto. }
  destruct (is_dict_instance value && py_in "linear_gradient" value).
  { unfold bind, lift.
    destruct (Gradient_new X value) as [g|e] eqn:E;
      [color_built Hgn E | left; eauto]. }
  destruct ((is_dict_instance value || is_str value)
            && py_in "patternOptions" value) eqn:P.
  { unfold try_except_ValueError, bind, lift.
    destruct (Pattern_from_json X value) as [g|e] eqn:E.
    { color_built Hpj E. }
    destruct (is_ValueError e) eqn:V; [|left; eauto].
    destruct (is_dict_instance value) eqn:D.
    - destruct (Pattern_from_dict X value) as [g|e'] eqn:E';
        [color_built Hpd E' | left; eauto].
    - apply andb_prop in P. destruct P as [P1 P2]. cbn [orb] in P1.
      destruct value; try discriminate.
      unfold validators_string. rewrite T. cbn [negb].
      right. exists (PStr s). split.
      + cbn [is_color]. cbn [py_in] in P2. rewrite P2.
        apply orb_true_r.
      + split; [reflexivity|]. split; [discriminate|].
        intros s' Hs. inversion Hs. subst s'. split; [reflexivity|].
        exists e. auto. }
  destruct (is_dict_instance value && py_in "pattern_options" value).
  { unfold bind, lift.
    destruct (Pattern_new X value) as [g|e] eqn:E;
      [color_built Hpn E | left; eauto]. }
  left. eexists. reflexivity.
Qed.

Lemma color_setter_string_fallback (X : Externals) attribute s e self :
  s <> "" ->
  (contains "linearGradient" s = true /\
   Gradient_from_json X (PStr s) = Raise e) \/
  (contains "linearGradient" s = false /\
   contains "patternOptions" s = true /\
   Pattern_from_json X (PStr s) = Raise e) ->
  is_ValueError e = true ->
  color_setter X attribute (PStr s) self
  = (store attribute (PStr s) self, Ok tt).
Proof.
  intros Hs H V. unfold color_setter.
  rewrite (truthy_PStr s Hs).
  cbn [negb is_instance orb is_dict_instance is_str andb py_in].
  destruct H as [(G & E) | (G & P & E)]; rewrite G; [|rewrite P];
    unfold try_except_ValueError, bind, lift; rewrite E, V;
    unfold validators_string; rewrite (truthy_PStr s Hs); reflexivity.
Qed.

(** The colour setters of [DialOptions] and [PivotOptions], whose body is
    [color_setter], where [Gradient] and [Pattern] build nodes of their
    class.
    - A falsy value, whatever its type, clears the field: the setter
      returns and [None] is stored.
    - A [Gradient] or a [Pattern] is stored as it is.
    - A string that holds [linearGradient] (or, failing that,
      [patternOptions]) and on which [from_json] raises a [ValueError] is
      stored as it is.
    - A number or boolean that is not falsy, and a list that is not empty,
      are refused with the resolution error, and the field is as it was.
    - In every case the setter either raises and leaves the attribute
      dictionary as it was, or assigns [None], a [Gradient], a [Pattern] or
      a string holding one of the two markers; a string is stored only
      when it is the value given and [from_json] raised a [ValueError] on
      it. *)
Theorem color_setters_raise_or_commit
    (X : Externals) (attribute : string) (value : pyval) (self : attrs) :
  builds_colors X ->
  (truthy value = false ->
   color_setter X attribute value self
   = (store attribute PNone self, Ok tt)) /\
  (is_instance value "Gradient" || is_instance value "Pattern" = true ->
   color_setter X attribute value self
   = (store attribute value self, Ok tt)) /\
  (forall s e,
     value = PStr s -> s <> "" ->
     (contains "linearGradient" s = true /\
      Gradient_from_json X value = Raise e) \/
     (contains "linearGradient" s = false /\
      contains "patternOptions" s = true /\
      Pattern_from_json X value = Raise e) ->
     is_ValueError e = true ->
     color_setter X attribute value self
     = (store attribute value self, Ok tt)) /\
  (truthy value = true ->
   match value with
   | PInt _ | PFloat _ | PBool _ | PList _ =>
       color_setter X attribute value self
       = (self, Raise (unresolved_color value))
   | _ => True
   end) /\
  ((exists e, color_setter X attribute value self = (self, Raise e)) \/
   (exists v,
      is_color v = true /\
      color_setter X attribute value self
      = (store attribute v self, Ok tt) /\
      (truthy value = false -> v = PNone) /\
      (forall s, v = PStr s ->
         value = PStr s /\
         exists e, is_ValueError e = true /\
                   (Gradient_from_json X value = Raise e \/
                    Pattern_from_json X value = Raise e)))).
Proof.
  intros Hb. split; [|split; [|split; [|split]]].
  - intros T. unfold color_setter. rewrite T. reflexivity.
  - intros I. destruct value; try discriminate.
    unfold color_setter. cbn [truthy negb]. rewrite I. reflexivity.
  - intros s e -> Hs H V.
    now apply (color_setter_string_fallback X attribute s e self).
  - intros T. destruct value; try exact I;
      unfold color_setter; rewrite T; reflexivity.
  - now apply color_setter_contract.
Qed.

Lemma reference_builds_colors : builds_colors reference.
Proof.
  repeat split; intros value v H; destruct value; try discriminate;
    inversion H; reflexivity.
Qed.

(** On [background_color = 0], which clears the field of a [DialOptions]
    that holds a gradient, and on [background_color = '{linearGradient'],
    which no decoder reads and which is stored as a string. *)
Lemma color_setters_raise_or_commit_witness :
  builds_colors reference /\
  DialOptions_background_color_set reference (PInt 0)
    [("_background_color", PObj "Gradient" [])]
  = ([("_background_color", PNone)], Ok tt) /\
  DialOptions_background_color_set reference (PStr "{linearGradient")
    [("_background_color", PNone)]
  = ([("_background_color", PStr "{linearGradient")], Ok tt).
Proof.
  split; [exact reference_builds_colors|]. split.
  - exact (proj1 (color_setters_raise_or_commit reference
                    "_background_color" (PInt 0)
                    [("_background_color", PObj "Gradient" [])]
                    reference_builds_colors) eq_refl).
  - refine (proj1 (proj2 (proj2 (color_setters_raise_or_commit reference
                    "_background_color" (PStr "{linearGradient")
                    [("_background_color", PNone)]
                    reference_builds_colors)))
              "{linearGradient" (ExternalError true "JSONDecodeError")
              eq_refl _ (or_introl (conj eq_refl eq_refl)) eq_refl).
    discriminate.
Defined.

(** ** [relative_to] at construction and in [from_dict] *)

Lemma raises_bind_l {A B} (m : M A) (k : A -> M B) :
  raises m -> raises (bind m k).
Proof.
  intros H self. unfold bind. destruct (H self) as (s1 & e & ->). eauto.
Qed.

Lemma relative_to_setter_raises (s : string) :
  s <> "" -> lower s <> "plot" -> lower s <> "chart" ->
  raises (relative_to_setter (PStr s)).
Proof.
  intros Hs Hp Hc self. rewrite (relative_to_setter_on_string s self Hs).
  destruct (in_list (lower s) relative_to_tokens) eqn:E; [|eauto].
  exfalso. apply in_list_cases in E. simpl in E.
  destruct E as [E | [E | [E | [E | []]]]]; try congruence;
    symmetry in E; revert E; apply lower_misses; discriminate.
Qed.

Lemma BreadcrumbOptions_init_raises (X : Externals) kwargs s :
  get "relative_to" PNone kwargs = PStr s ->
  s <> "" -> lower s <> "plot" -> lower s <> "chart" ->
  raises (BreadcrumbOptions_init X kwargs).
Proof.
  intros Hg Hs Hp Hc. unfold BreadcrumbOptions_init.
  init_walk "relative_to" Hg.
  match goal with
  | |- raises (let '(_, _) := pop _ _ ?d in _) =>
      pose proof (pop_value "relative_to" PNone d) as Hv;
      destruct (pop "relative_to" PNone d) as [v rest]
  end.
  cbn [fst] in Hv. rewrite Hg in Hv. subst v.
  apply raises_bind_l. now apply relative_to_setter_raises.
Qed.

Lemma ResetZoomButtonOptions_init_raises (X : Externals) kwargs s :
  get "relative_to" PNone kwargs = PStr s ->
  s <> "" -> lower s <> "plot" -> lower s <> "chart" ->
  raises (ResetZoomButtonOptions_init X kwargs).
Proof.
  intros Hg Hs Hp Hc. unfold ResetZoomButtonOptions_init.
  init_walk "relative_to" Hg.
  match goal with
  | |- raises (let '(_, _) := pop _ _ ?d in _) =>
      pose proof (pop_value "relative_to" PNone d) as Hv;
      destruct (pop "relative_to" PNone d) as [v rest]
  end.
  cbn [fst] in Hv. rewrite Hg in Hv. subst v.
  apply raises_bind_l. now apply relative_to_setter_raises.
Qed.

(** A [relative_to] that is a non-empty string other than a casing of
    ['plot'] or ['chart'] (so ['plotBox'] and ['spacingBox'] too) stops the
    construction of a [BreadcrumbOptions] and of a
    [ResetZoomButtonOptions], whatever the other keywords are, and
    [from_dict] raises on every dictionary that holds such a string under
    [relativeTo]. *)
Theorem relative_to_stops_construction
    (X : Externals) (kwargs : dict) (s : string) :
  s <> "" -> lower s <> "plot" -> lower s <> "chart" ->
  (get "relative_to" PNone kwargs = PStr s ->
   (exists e,
      new "BreadcrumbOptions" (BreadcrumbOptions_init X) kwargs = Raise e) /\
   (exists e,
      new "ResetZoomButtonOptions" (ResetZoomButtonOptions_init X) kwargs
      = Raise e)) /\
  (get "relativeTo" PNone kwargs = PStr s ->
   (exists e, BreadcrumbOptions_from_dict X kwargs = Raise e) /\
   (exists e, ResetZoomButtonOptions_from_dict X kwargs = Raise e)).
Proof.
  intros Hs Hp Hc. split; intros Hg; split.
  - apply new_raises. eapply BreadcrumbOptions_init_raises; eauto.
  - apply new_raises. eapply ResetZoomButtonOptions_init_raises; eauto.
  - unfold BreadcrumbOptions_from_dict. cbv zeta. apply new_raises.
    apply (BreadcrumbOptions_init_raises X _ s); try assumption.
    rewrite pop_all_fst by distinct_keys. exact Hg.
  - unfold ResetZoomButtonOptions_from_dict. cbv zeta. apply new_raises.
    apply (ResetZoomButtonOptions_init_raises X _ s); try assumption.
    rewrite pop_all_fst by distinct_keys. exact Hg.
Qed.

(** On [{'floating': True, 'relativeTo': 'spacingBox'}]. *)
Lemma relative_to_stops_construction_witness :
  (exists e,
     BreadcrumbOptions_from_dict reference
       [("floating", PBool true); ("relativeTo", PStr "spacingBox")]
     = Raise e) /\
  (exists e,
     ResetZoomButtonOptions_from_dict reference
       [("floating", PBool true); ("relativeTo", PStr "spacingBox")]
     = Raise e).
Proof.
  apply (relative_to_stops_construction reference
           [("floating", PBool true); ("relativeTo", PStr "spacingBox")]
           "spacingBox");
    solve [discriminate | reflexivity].
Defined.

(** ** [LegendTitle] *)

Section LegendTitleFacts.

Variable X : Externals.
Variable str_ : pyval -> string.

(** What [json.loads] behind [validators.dict] raises reaches the caller
    as a [ValueError] or a [TypeError]. *)
Hypothesis dict_of_json_errors :
  forall s e, dict_of_json X s = Raise e ->
              is_ValueError e || is_TypeError e = true.

Lemma validators_dict_errors value allow_empty e :
  validators_dict X value allow_empty = Raise e ->
  truthy value = true \/ allow_empty = false.
Proof.
  unfold validators_dict. destruct (truthy value); [auto|].
  destruct allow_empty; [discriminate | auto].
Qed.

Lemma validators_dict_caught value allow_empty e :
  validators_dict X value allow_empty = Raise e ->
  is_ValueError e || is_TypeError e = true.
Proof.
  unfold validators_dict. destruct (negb (truthy value)).
  - destruct allow_empty; [discriminate|]. intros H. inversion H.
    reflexivity.
  - destruct value; try (intros H; inversion H; reflexivity).
    apply dict_of_json_errors.
Qed.

Lemma LegendTitle_style_set_run value self :
  LegendTitle_style_set X str_ value self
  = (store "_style"
       match validators_dict X value true with
       | Ok v => v
       | Raise _ => PStr (py_str str_ value)
       end self, Ok tt).
Proof.
  unfold LegendTitle_style_set, try_except_ValueError_TypeError, bind, lift.
  destruct (validators_dict X value true) as [v|e] eqn:E; [reflexivity|].
  rewrite (validators_dict_caught _ _ _ E).
  apply validators_dict_errors in E. destruct E as [T | ?]; [|discriminate].
  unfold validators_string_coerced. rewrite T. reflexivity.
Qed.

(** [LegendTitle.style] takes every value: the setter never raises.  It
    stores what [validators.dict] returns where that validator accepts the
    value, and [str(value)] where it raises.  So:
    - a falsy value clears the field;
    - a dictionary that is not empty is stored as it is;
    - a non-empty string that the JSON decoder refuses is stored as it is;
    - a number that [text] refuses with [CannotCoerceError] is stored by
      [style] as its string;
    - a [LegendTitle] is built from every [style], with the value above in
      [_style], as long as [text] is absent, falsy or a string. *)
Theorem LegendTitle_style_accepts_every_value :
  (forall value self,
     LegendTitle_style_set X str_ value self
     = (store "_style"
          match validators_dict X value true with
          | Ok v => v
          | Raise _ => PStr (py_str str_ value)
          end self, Ok tt)) /\
  (forall value self,
     truthy value = false ->
     LegendTitle_style_set X str_ value self
     = (store "_style" PNone self, Ok tt)) /\
  (forall entry entries self,
     LegendTitle_style_set X str_ (PDict (entry :: entries)) self
     = (store "_style" (PDict (entry :: entries)) self, Ok tt)) /\
  (forall s e self,
     s <> "" -> dict_of_json X s = Raise e ->
     LegendTitle_style_set X str_ (PStr s) self
     = (store "_style" (PStr s) self, Ok tt)) /\
  (forall z self,
     z <> 0%Z ->
     LegendTitle_style_set X str_ (PInt z) self
     = (store "_style" (PStr (str_ (PInt z))) self, Ok tt) /\
     LegendTitle_text_set (PInt z) self = (self, Raise CannotCoerceError)) /\
  (forall kwargs text,
     validators_string (get "text" PNone kwargs) true = Ok text ->
     new "LegendTitle" (LegendTitle_init X str_) kwargs
     = Ok (PObj "LegendTitle"
             [("_style",
               match validators_dict X (get "style" PNone kwargs) true with
               | Ok v => v
               | Raise _ => PStr (py_str str_ (get "style" PNone kwargs))
               end);
              ("_text", text)])).
Proof.
  split; [exact LegendTitle_style_set_run|].
  split; [|split; [|split; [|split]]].
  - intros value self T. rewrite LegendTitle_style_set_run.
    unfold validators_dict. rewrite T. reflexivity.
  - intros entry entries self. rewrite LegendTitle_style_set_run.
    reflexivity.
  - intros s e self Hs E. rewrite LegendTitle_style_set_run.
    unfold validators_dict. rewrite (truthy_PStr s Hs). cbn [negb].
    rewrite E. reflexivity.
  - intros z self Hz. rewrite LegendTitle_style_set_run.
    assert (T : (z =? 0)%Z = false) by now apply Z.eqb_neq.
    unfold validators_dict, LegendTitle_text_set, text_setter,
      validators_string, bind, lift.
    cbn [truthy]. rewrite T. split; reflexivity.
  - intros kwargs text Ht. unfold new, LegendTitle_init.
    repeat rewrite bind_setattr. cbv beta.
    rewrite (bind_run _ _ _ _ _ (LegendTitle_style_set_run _ _)).
    unfold LegendTitle_text_set, text_setter, bind, lift, setattr.
    rewrite Ht. reflexivity.
Qed.

End LegendTitleFacts.

(** On [style = 12] and [text = 12], where [str] gives ['12'], and on
    [style = {'color': '#333'}]. *)
Lemma LegendTitle_style_accepts_every_value_witness :
  (forall s e, dict_of_json reference s = Raise e ->
               is_ValueError e || is_TypeError e = true) /\
  (LegendTitle_style_set reference (fun _ => "12") (PInt 12) []
   = ([("_style", PStr "12")], Ok tt) /\
   LegendTitle_text_set (PInt 12) [] = ([], Raise CannotCoerceError)) /\
  LegendTitle_style_set reference (fun _ => "12")
    (PDict [("color", PStr "#333")]) []
  = ([("_style", PDict [("color", PStr "#333")])], Ok tt).
Proof.
  assert (H : forall s e, dict_of_json reference s = Raise e ->
                          is_ValueError e || is_TypeError e = true)
    by (intros s e E; inversion E; reflexivity).
  split; [exact H|]. split.
  - apply (LegendTitle_style_accepts_every_value reference
             (fun _ => "12") H).
    discriminate.
  - apply (LegendTitle_style_accepts_every_value reference
             (fun _ => "12") H).
Defined.
